(** * TFT_Menu: navigation state machine, animation engine and layout

    A shallow embedding of [lib/TFT_Menu/TFT_Menu.h] and
    [lib/TFT_Menu/TFT_Menu.cpp] (classes [MenuItem] and [MenuSystem]),
    together with the properties of the navigation machine, of the two
    tweening models and of the layout calculator.

    Conventions of the embedding:
    - [uint8_t], [uint16_t], [int16_t], [int8_t] and [unsigned long] fields
      are [Z] values; every narrowing assignment is written out with the
      wrap-around of the destination type ([to_u8], [to_i16], ...).
      Intermediate [int] expressions are far from the 32-bit limits and are
      kept exact.
    - [float] is IEEE binary32 and [double] is IEEE binary64, both through
      [SpecFloat] (round to nearest even).
    - the display, the tone device and the clock are explicit parts of the
      state: draw calls and tones are appended to logs, [millis()] reads
      the [clock] field.
    - a [MenuItem*] is an address into the caller's static storage, which
      is part of the state as a function from addresses and indices to
      items; an item's callback is one of the four things the callbacks of
      [src/main.cpp] do to the menu. *)

From Stdlib Require Import ZArith Bool List String Lia.
From Stdlib Require Import Floats.SpecFloat.
From stdpp Require Import base list.
Import ListNotations.

#[local] Open Scope Z_scope.

(** ** Machine integers *)

Module CInt.

Definition to_u8 (z : Z) : Z := z mod 256.
Definition to_u16 (z : Z) : Z := z mod 65536.
Definition to_u32 (z : Z) : Z := z mod 4294967296.
Definition to_i8 (z : Z) : Z := (z + 128) mod 256 - 128.
Definition to_i16 (z : Z) : Z := (z + 32768) mod 65536 - 32768.

Definition INT_MAX : Z := 2147483647.
Definition INT_MIN : Z := -2147483648.

(** [constrain(amt, low, high)] of Arduino.h *)
Definition constrain (amt low high : Z) : Z :=
  if amt <? low then low else if high <? amt then high else amt.

End CInt.
Import CInt.

(** ** Floating point: binary32 ([float]) and binary64 ([double]) *)

Module Fp.

Section Format.
Variables prec emax : Z.

Definition of_Z (z : Z) : spec_float := binary_normalize prec emax z 0 false.

(** Re-rounding of a value of another format (exact when it fits). *)
Definition of_float (x : spec_float) : spec_float :=
  match x with
  | S754_finite s m e => binary_round prec emax s m e
  | _ => x
  end.

(** C [fmod]: the result is exact and takes the sign of [x]. *)
Definition fmod (x y : spec_float) : spec_float :=
  match x, y with
  | S754_nan, _ | _, S754_nan => S754_nan
  | S754_infinity _, _ => S754_nan
  | _, S754_zero _ => S754_nan
  | _, S754_infinity _ => x
  | S754_zero _, _ => x
  | S754_finite sx mx ex, S754_finite _ my ey =>
      let e := Z.min ex ey in
      let X := Z.shiftl (Zpos mx) (ex - e) in
      let Y := Z.shiftl (Zpos my) (ey - e) in
      binary_normalize prec emax (cond_Zopp sx (X mod Y)) e sx
  end.
End Format.

(** Conversion to [int]: truncation toward zero.  Out-of-range values,
    infinities and NaN are undefined in ISO C++; the hardware conversion
    saturates, which is what is written here. *)
Definition to_int (x : spec_float) : Z :=
  match x with
  | S754_zero _ => 0
  | S754_nan => INT_MAX
  | S754_infinity s => if s then INT_MIN else INT_MAX
  | S754_finite s m e =>
      let a := if 0 <=? e then Z.shiftl (Zpos m) e
               else Z.shiftr (Zpos m) (- e) in
      Z.max INT_MIN (Z.min INT_MAX (cond_Zopp s a))
  end.

(** [round(x)]: nearest integer, halves away from zero. *)
Definition round (x : spec_float) : Z :=
  match x with
  | S754_zero _ => 0
  | S754_nan => INT_MAX
  | S754_infinity s => if s then INT_MIN else INT_MAX
  | S754_finite s m e =>
      let a := if 0 <=? e then Z.shiftl (Zpos m) e
               else Z.shiftr (Z.shiftr (Zpos m) (- e - 1) + 1) 1 in
      Z.max INT_MIN (Z.min INT_MAX (cond_Zopp s a))
  end.

End Fp.

Definition float := spec_float.
Definition double := spec_float.

Module F32.
Definition prec : Z := 24.
Definition emax : Z := 128.
Definition of_Z : Z -> float := Fp.of_Z prec emax.
Definition of_double : double -> float := Fp.of_float prec emax.
Definition add : float -> float -> float := SFadd prec emax.
Definition sub : float -> float -> float := SFsub prec emax.
Definition mul : float -> float -> float := SFmul prec emax.
Definition div : float -> float -> float := SFdiv prec emax.
Definition fmod : float -> float -> float := Fp.fmod prec emax.
Definition neg : float -> float := SFopp.
Definition abs : float -> float := SFabs.
Definition ltb : float -> float -> bool := SFltb.
Definition leb : float -> float -> bool := SFleb.
Definition gtb (x y : float) : bool := SFltb y x.
Definition zero : float := S754_zero false.
(** literals *)
Definition c0_5 : float := div (of_Z 1) (of_Z 2).
Definition c0_1 : float := div (of_Z 1) (of_Z 10).
Definition c1000 : float := of_Z 1000.
Definition c2 : float := of_Z 2.
Definition c15 : float := of_Z 15.
End F32.

Module F64.
Definition prec : Z := 53.
Definition emax : Z := 1024.
Definition of_Z : Z -> double := Fp.of_Z prec emax.
Definition of_float : float -> double := Fp.of_float prec emax.
Definition mul : double -> double -> double := SFmul prec emax.
Definition div : double -> double -> double := SFdiv prec emax.
Definition sub : double -> double -> double := SFsub prec emax.
(** the decimal literal [n/d], correctly rounded *)
Definition lit (n d : Z) : double := div (of_Z n) (of_Z d).
End F64.

(** ** Collaborators: render surface, tone device *)

Definition TFT_BLACK : Z := 0.
Definition TFT_WHITE : Z := 65535.
Definition TFT_DARKGREY : Z := 31727.

Inductive DrawCmd : Type :=
| FillScreen (color : Z)
| FillRect (x y w h color : Z)
| FillRoundRect (x y w h r color : Z)
| DrawRoundRect (x y w h r color : Z)
| FillTriangle (x0 y0 x1 y1 x2 y2 color : Z)
| SetTextColor (color : Z)
| SetCursor (x y : Z)
| Print (text : string).

(** The display as the menu sees it: its size under the current rotation,
    the text size last set, the metrics of the font (by text size) and the
    draw calls issued so far, oldest first. *)
Module Tft.
Record t : Type := mk {
  init_width : Z;
  init_height : Z;
  rotation : Z;
  textsize : Z;
  fontHeightOf : Z -> Z;
  textWidthOf : string -> Z -> Z;
  screen : list DrawCmd
}.

Definition width (d : t) : Z :=
  if Z.odd (rotation d) then init_height d else init_width d.
Definition height (d : t) : Z :=
  if Z.odd (rotation d) then init_width d else init_height d.
Definition fontHeight (d : t) : Z := fontHeightOf d (textsize d).
Definition textWidth (d : t) (text : string) : Z := textWidthOf d text (textsize d).

Definition setTextSize (sz : Z) (d : t) : t :=
  mk (init_width d) (init_height d) (rotation d) sz
     (fontHeightOf d) (textWidthOf d) (screen d).
Definition setRotation (r : Z) (d : t) : t :=
  mk (init_width d) (init_height d) (r mod 4) (textsize d)
     (fontHeightOf d) (textWidthOf d) (screen d).
Definition draw (c : DrawCmd) (d : t) : t :=
  mk (init_width d) (init_height d) (rotation d) (textsize d)
     (fontHeightOf d) (textWidthOf d) (screen d ++ [c]).
End Tft.

Inductive Tone : Type :=
| Beep (duration frequency volume : Z)
| LongBeep (duration frequency volume : Z).

(** ** Data model of TFT_Menu.h *)

Module MenuItemRect.
Record t : Type := mk { x : Z; y : Z; width : Z; height : Z; valid : bool }.
End MenuItemRect.

Module RectF.
Record t : Type := mk { x : float; y : float; width : float; height : float }.
End RectF.

Record AnimationState : Type := mkAnimationState {
  x_cur : float; y_cur : float; w_cur : float; h_cur : float;
  x_tgt : float; y_tgt : float; w_tgt : float; h_tgt : float;
  x_vel : float; y_vel : float; w_vel : float; h_vel : float;
  x_err : float; y_err : float; w_err : float; h_err : float
}.

Inductive SliderDisplayMode : Type :=
| SLIDER_DISPLAY_FOLLOW_SELECTION
| SLIDER_DISPLAY_FIXED_TOP.

Definition SliderDisplayMode_eqb (a b : SliderDisplayMode) : bool :=
  match a, b with
  | SLIDER_DISPLAY_FOLLOW_SELECTION, SLIDER_DISPLAY_FOLLOW_SELECTION => true
  | SLIDER_DISPLAY_FIXED_TOP, SLIDER_DISPLAY_FIXED_TOP => true
  | _, _ => false
  end.

(** A [MenuItem*] is the address of a caller-owned array; [None] is NULL. *)
Definition MenuPtr : Type := option positive.

(** What an item's callback (a pointer to a [void] function without
    arguments) does to the menu, for the callbacks
    of [src/main.cpp]: [menu.back()], [menu.TypeNum = n],
    [menu.setSliderAnimationForm(f)] and
    [tft.setRotation(r); menu.drawMenu(1)]. *)
Inductive Callback : Type :=
| CbBack
| CbTypeNum (n : Z)
| CbAnimationForm (form : Z)
| CbRotate (r : Z).

Module MenuItem.
Record t : Type := mk {
  label : string;
  callback : option Callback;
  subMenu : MenuPtr;
  subMenuSize : Z
}.

(** [MenuItem::MenuItem(_label, _callback)] *)
Definition ctor (_label : string) (_callback : option Callback) : t :=
  mk _label _callback None 0.
Definition setSubMenu (_subMenu : MenuPtr) (_size : Z) (i : t) : t :=
  mk (label i) (callback i) _subMenu (to_u8 _size).
Definition getLabel (i : t) : string := label i.
Definition getCallback (i : t) : option Callback := callback i.
Definition getSubMenu (i : t) : MenuPtr := subMenu i.
Definition getSubMenuSize (i : t) : Z := subMenuSize i.
Definition hasSubMenu (i : t) : bool :=
  match subMenu i with Some _ => true | None => false end.
End MenuItem.

(** The caller's static storage: the item at index [i] of the array at an
    address. *)
Definition ItemStore : Type := positive -> Z -> MenuItem.t.

(** ** The [MenuSystem] object

    The members of the class are grouped as the header groups them
    (layout parameters, colours and fonts, menu position and history,
    animation parameters, title decorator, anti-flicker snapshot, slider
    display mode).  The collaborators reached through pointers ([tft],
    [buzzer]), the millisecond clock and the item storage are carried
    along. *)

Record Layout : Type := mkLayout {
  screenWidth : Z;              (* uint16_t *)
  screenHeight : Z;             (* uint16_t *)
  actualTitleAreaHeight : Z;    (* int16_t *)
  titleTextX : Z;
  titleTextY : Z;
  titleDecoratorW : Z;
  titleDecoratorH : Z;
  titleDecoratorX : Z;
  titleDecoratorY : Z;
  titleBottomMargin : Z;
  actualMenuItemHeight : Z;     (* int16_t *)
  actualMenuItemSpacing : Z;
  menuItemsAreaY : Z;
  menuItemsXOffset : Z;
  menuItemTextXPadding : Z;
  menuItemTextYOffset : Z;
  menuItemCornerRadius : Z;
  menuItemBorderOffset : Z;
  menuItemArrowWidth : Z;
  menuItemArrowMarginX : Z;
  menuItemDefaultMaxWidth : Z;
  itemDecoratorW : Z;
  itemDecoratorH : Z;
  itemDecoratorX : Z;
  actualMaxDisplayItems : Z;
  scrollbarW : Z;
  scrollbarX : Z;
  scrollbarY : Z;
  scrollbarH : Z;
  scrollbarThumbMinHeight : Z
}.

Record Style : Type := mkStyle {
  backgroundColor : Z;
  menuBgColor : Z;
  highlightColor : Z;
  textColor : Z;
  selectedTextColor : Z;
  titleColor : Z;
  borderColor : Z;
  menuFontSize : Z;
  titleFontSize : Z
}.

Record Position : Type := mkPosition {
  currentMenu : MenuPtr;
  currentMenuSize : Z;
  selectedIndex : Z;
  startIndex : Z;
  menuLevel : Z;
  menuHistory : list MenuPtr;        (* MenuItem* menuHistory[10] *)
  menuSizeHistory : list Z;          (* uint8_t menuSizeHistory[10] *)
  selectedIndexHistory : list Z      (* uint8_t selectedIndexHistory[10] *)
}.

Record SliderAnimation : Type := mkSliderAnimation {
  sliderAnim : AnimationState;
  animationActive : bool;
  lastAnimTime : Z;                  (* unsigned long *)
  animDuration : Z;                  (* uint16_t *)
  animInterval : Z;                  (* uint16_t *)
  _animationForm : Z;
  type : bool;
  BanOperation : bool
}.

Record TitleAnimation : Type := mkTitleAnimation {
  titleDecoratorAnim : AnimationState;
  titleDecoratorAnimationActive : bool;
  lastTitleDecoratorAnimTime : Z;
  currentTitleDecoratorX : Z         (* int *)
}.

Record AntiFlicker : Type := mkAntiFlicker {
  lastSelectedIndex : Z;             (* int8_t *)
  lastStartIndex : Z;                (* int8_t *)
  lastTitle : string;
  needFullRedraw : bool;
  lastSelectedRect : MenuItemRect.t
}.

Record SliderMode : Type := mkSliderMode {
  _sliderDisplayMode : SliderDisplayMode;
  _useCustomSliderPosition : bool;
  _useCustomSliderSize : bool;
  _customSliderX : Z;
  _customSliderY : Z;
  _customSliderWidth : Z;
  _customSliderHeight : Z
}.

Record MenuSystem : Type := mkMenuSystem {
  tft : Tft.t;
  buzzer : list Tone;
  buzz_vol : Z;
  clock : Z;                         (* what millis() returns *)
  items : ItemStore;
  TypeNum : Z;
  layout : Layout;
  style : Style;
  pos : Position;
  slider : SliderAnimation;
  title : TitleAnimation;
  flicker : AntiFlicker;
  mode : SliderMode
}.

(** *** Assignments to one group of members *)

Definition set_tft (v : Tft.t) (s : MenuSystem) : MenuSystem :=
  mkMenuSystem v (buzzer s) (buzz_vol s) (clock s) (items s) (TypeNum s)
    (layout s) (style s) (pos s) (slider s) (title s) (flicker s) (mode s).
Definition set_buzzer (v : list Tone) (s : MenuSystem) : MenuSystem :=
  mkMenuSystem (tft s) v (buzz_vol s) (clock s) (items s) (TypeNum s)
    (layout s) (style s) (pos s) (slider s) (title s) (flicker s) (mode s).
Definition set_clock (v : Z) (s : MenuSystem) : MenuSystem :=
  mkMenuSystem (tft s) (buzzer s) (buzz_vol s) v (items s) (TypeNum s)
    (layout s) (style s) (pos s) (slider s) (title s) (flicker s) (mode s).
Definition set_TypeNum (v : Z) (s : MenuSystem) : MenuSystem :=
  mkMenuSystem (tft s) (buzzer s) (buzz_vol s) (clock s) (items s) v
    (layout s) (style s) (pos s) (slider s) (title s) (flicker s) (mode s).
Definition set_layout (v : Layout) (s : MenuSystem) : MenuSystem :=
  mkMenuSystem (tft s) (buzzer s) (buzz_vol s) (clock s) (items s) (TypeNum s)
    v (style s) (pos s) (slider s) (title s) (flicker s) (mode s).
Definition set_style (v : Style) (s : MenuSystem) : MenuSystem :=
  mkMenuSystem (tft s) (buzzer s) (buzz_vol s) (clock s) (items s) (TypeNum s)
    (layout s) v (pos s) (slider s) (title s) (flicker s) (mode s).
Definition set_pos (v : Position) (s : MenuSystem) : MenuSystem :=
  mkMenuSystem (tft s) (buzzer s) (buzz_vol s) (clock s) (items s) (TypeNum s)
    (layout s) (style s) v (slider s) (title s) (flicker s) (mode s).
Definition set_slider (v : SliderAnimation) (s : MenuSystem) : MenuSystem :=
  mkMenuSystem (tft s) (buzzer s) (buzz_vol s) (clock s) (items s) (TypeNum s)
    (layout s) (style s) (pos s) v (title s) (flicker s) (mode s).
Definition set_title (v : TitleAnimation) (s : MenuSystem) : MenuSystem :=
  mkMenuSystem (tft s) (buzzer s) (buzz_vol s) (clock s) (items s) (TypeNum s)
    (layout s) (style s) (pos s) (slider s) v (flicker s) (mode s).
Definition set_flicker (v : AntiFlicker) (s : MenuSystem) : MenuSystem :=
  mkMenuSystem (tft s) (buzzer s) (buzz_vol s) (clock s) (items s) (TypeNum s)
    (layout s) (style s) (pos s) (slider s) (title s) v (mode s).
Definition set_mode (v : SliderMode) (s : MenuSystem) : MenuSystem :=
  mkMenuSystem (tft s) (buzzer s) (buzz_vol s) (clock s) (items s) (TypeNum s)
    (layout s) (style s) (pos s) (slider s) (title s) (flicker s) v.

(** *** Assignments to single members *)

Definition set_selectedIndex (v : Z) (s : MenuSystem) : MenuSystem :=
  let p := pos s in
  set_pos (mkPosition (currentMenu p) (currentMenuSize p) v (startIndex p)
             (menuLevel p) (menuHistory p) (menuSizeHistory p)
             (selectedIndexHistory p)) s.
Definition set_startIndex (v : Z) (s : MenuSystem) : MenuSystem :=
  let p := pos s in
  set_pos (mkPosition (currentMenu p) (currentMenuSize p) (selectedIndex p) v
             (menuLevel p) (menuHistory p) (menuSizeHistory p)
             (selectedIndexHistory p)) s.

Definition set_sliderAnim (v : AnimationState) (s : MenuSystem) : MenuSystem :=
  let a := slider s in
  set_slider (mkSliderAnimation v (animationActive a) (lastAnimTime a)
                (animDuration a) (animInterval a) (_animationForm a) (type a)
                (BanOperation a)) s.
Definition set_animationActive (v : bool) (s : MenuSystem) : MenuSystem :=
  let a := slider s in
  set_slider (mkSliderAnimation (sliderAnim a) v (lastAnimTime a)
                (animDuration a) (animInterval a) (_animationForm a) (type a)
                (BanOperation a)) s.
Definition set_lastAnimTime (v : Z) (s : MenuSystem) : MenuSystem :=
  let a := slider s in
  set_slider (mkSliderAnimation (sliderAnim a) (animationActive a) v
                (animDuration a) (animInterval a) (_animationForm a) (type a)
                (BanOperation a)) s.
Definition set_animDuration (v : Z) (s : MenuSystem) : MenuSystem :=
  let a := slider s in
  set_slider (mkSliderAnimation (sliderAnim a) (animationActive a)
                (lastAnimTime a) v (animInterval a) (_animationForm a) (type a)
                (BanOperation a)) s.
Definition set_animInterval (v : Z) (s : MenuSystem) : MenuSystem :=
  let a := slider s in
  set_slider (mkSliderAnimation (sliderAnim a) (animationActive a)
                (lastAnimTime a) (animDuration a) v (_animationForm a) (type a)
                (BanOperation a)) s.
Definition set_animationForm (v : Z) (s : MenuSystem) : MenuSystem :=
  let a := slider s in
  set_slider (mkSliderAnimation (sliderAnim a) (animationActive a)
                (lastAnimTime a) (animDuration a) (animInterval a) v (type a)
                (BanOperation a)) s.
Definition set_type (v : bool) (s : MenuSystem) : MenuSystem :=
  let a := slider s in
  set_slider (mkSliderAnimation (sliderAnim a) (animationActive a)
                (lastAnimTime a) (animDuration a) (animInterval a)
                (_animationForm a) v (BanOperation a)) s.
Definition set_BanOperation (v : bool) (s : MenuSystem) : MenuSystem :=
  let a := slider s in
  set_slider (mkSliderAnimation (sliderAnim a) (animationActive a)
                (lastAnimTime a) (animDuration a) (animInterval a)
                (_animationForm a) (type a) v) s.

Definition set_lastSelectedIndex (v : Z) (s : MenuSystem) : MenuSystem :=
  let f := flicker s in
  set_flicker (mkAntiFlicker v (lastStartIndex f) (lastTitle f)
                 (needFullRedraw f) (lastSelectedRect f)) s.
Definition set_lastStartIndex (v : Z) (s : MenuSystem) : MenuSystem :=
  let f := flicker s in
  set_flicker (mkAntiFlicker (lastSelectedIndex f) v (lastTitle f)
                 (needFullRedraw f) (lastSelectedRect f)) s.
Definition set_lastTitle (v : string) (s : MenuSystem) : MenuSystem :=
  let f := flicker s in
  set_flicker (mkAntiFlicker (lastSelectedIndex f) (lastStartIndex f) v
                 (needFullRedraw f) (lastSelectedRect f)) s.
Definition set_needFullRedraw (v : bool) (s : MenuSystem) : MenuSystem :=
  let f := flicker s in
  set_flicker (mkAntiFlicker (lastSelectedIndex f) (lastStartIndex f)
                 (lastTitle f) v (lastSelectedRect f)) s.
Definition set_lastSelectedRect (v : MenuItemRect.t) (s : MenuSystem) : MenuSystem :=
  let f := flicker s in
  set_flicker (mkAntiFlicker (lastSelectedIndex f) (lastStartIndex f)
                 (lastTitle f) (needFullRedraw f) v) s.

(** Writes to groups of [AnimationState] members. *)
Definition set_cur (x y w h : float) (a : AnimationState) : AnimationState :=
  mkAnimationState x y w h (x_tgt a) (y_tgt a) (w_tgt a) (h_tgt a)
    (x_vel a) (y_vel a) (w_vel a) (h_vel a) (x_err a) (y_err a) (w_err a) (h_err a).
Definition set_tgt (x y w h : float) (a : AnimationState) : AnimationState :=
  mkAnimationState (x_cur a) (y_cur a) (w_cur a) (h_cur a) x y w h
    (x_vel a) (y_vel a) (w_vel a) (h_vel a) (x_err a) (y_err a) (w_err a) (h_err a).
Definition set_x (cur tgt vel err : float) (a : AnimationState) : AnimationState :=
  mkAnimationState cur (y_cur a) (w_cur a) (h_cur a) tgt (y_tgt a) (w_tgt a) (h_tgt a)
    vel (y_vel a) (w_vel a) (h_vel a) err (y_err a) (w_err a) (h_err a).

(** Calls on the collaborators. *)
Definition draw (c : DrawCmd) (s : MenuSystem) : MenuSystem :=
  set_tft (Tft.draw c (tft s)) s.
Definition setTextSize (sz : Z) (s : MenuSystem) : MenuSystem :=
  set_tft (Tft.setTextSize sz (tft s)) s.
Definition beep (duration frequency volume : Z) (s : MenuSystem) : MenuSystem :=
  set_buzzer (buzzer s ++ [Beep duration frequency volume]) s.
Definition longBeep (duration frequency volume : Z) (s : MenuSystem) : MenuSystem :=
  set_buzzer (buzzer s ++ [LongBeep duration frequency volume]) s.
Definition millis (s : MenuSystem) : Z := to_u32 (clock s).

(** Array reads and writes.  The indices used by the class stay inside the
    ten slots; a read outside them (undefined in C++) yields [d], a write
    outside them is dropped. *)
Definition arr_get {A : Type} (d : A) (l : list A) (i : Z) : A :=
  if i <? 0 then d else default d (l !! Z.to_nat i).
Definition arr_set {A : Type} (l : list A) (i : Z) (v : A) : list A :=
  if i <? 0 then l else <[Z.to_nat i := v]> l.

(** [p[i]] for an item array; NULL is never dereferenced with a live index,
    the placeholder stands for that undefined read. *)
Definition item_at (s : MenuSystem) (p : MenuPtr) (i : Z) : MenuItem.t :=
  match p with
  | Some a => items s a i
  | None => MenuItem.ctor EmptyString None
  end.

(** ** Layout calculator *)

(** [(int)(n * c)] for an integer [n] and a [double] literal [c]. *)
Definition scale_int (n : Z) (c : double) : Z :=
  Fp.to_int (F64.mul (F64.of_Z n) c).

(** [MenuSystem::calculateLayoutParameters] *)
Definition calculateLayoutParameters (s : MenuSystem) : MenuSystem :=
  let screenWidth_ := to_u16 (Tft.width (tft s)) in
  let screenHeight_ := to_u16 (Tft.height (tft s)) in
  (* Title area calculation *)
  let s := setTextSize (titleFontSize (style s)) s in
  let titleFontActualHeight := to_i16 (Tft.fontHeight (tft s)) in
  let titlePaddingY := to_u8 (Z.max 5 (Z.quot titleFontActualHeight 3)) in
  let actualTitleAreaHeight_ := to_i16 (titleFontActualHeight + 2 * titlePaddingY) in
  let titleTextX_ := to_u8 (scale_int screenWidth_ (F64.lit 8 100)) in
  let titleTextY_ :=
    to_u8 (titlePaddingY + Z.quot (actualTitleAreaHeight_ - titleFontActualHeight) 2) in
  let titleDecoratorW_ := to_u8 (scale_int screenWidth_ (F64.lit 5 100)) in
  let titleDecoratorH_ := titleDecoratorW_ in
  let titleDecoratorX_ :=
    to_u8 (Z.max 2 (Z.quot titleTextX_ 2 - Z.quot titleDecoratorW_ 2)) in
  let titleDecoratorY_ :=
    to_u8 (titleTextY_ + Z.quot titleFontActualHeight 2 - Z.quot titleDecoratorH_ 2) in
  (* Menu item calculation *)
  let s := setTextSize (menuFontSize (style s)) s in
  let menuItemFontActualHeight := to_i16 (Tft.fontHeight (tft s)) in
  let menuItemVerticalPaddingInside :=
    to_u8 (Z.max 4 (Z.quot menuItemFontActualHeight 2)) in
  let actualMenuItemHeight_ :=
    to_i16 (menuItemFontActualHeight + 2 * menuItemVerticalPaddingInside) in
  let actualMenuItemSpacing_ := to_u8 (Z.max 5 (Z.quot actualMenuItemHeight_ 4)) in
  let menuItemsAreaY_ :=
    to_u8 (actualTitleAreaHeight_ + titleBottomMargin (layout s)) in
  let menuItemsXOffset_ := 0 in
  let menuItemTextXPadding_ := to_u8 (scale_int screenWidth_ (F64.lit 4 100)) in
  let menuItemTextYOffset_ := menuItemVerticalPaddingInside in
  let menuItemCornerRadius_ := to_u8 (Z.max 4 (Z.quot actualMenuItemHeight_ 4)) in
  let menuItemBorderOffset_ := to_u8 (Z.max 1 (Z.quot menuItemCornerRadius_ 4)) in
  let menuItemArrowWidth_ :=
    to_u8 (Z.max 8 (scale_int menuItemFontActualHeight (F64.lit 6 10))) in
  let menuItemArrowMarginX_ := to_u8 (Z.max 3 (scale_int screenWidth_ (F64.lit 4 100))) in
  let menuItemDefaultMaxWidth_ :=
    to_u8 (Fp.to_int (F64.sub (F64.of_Z (screenWidth_ - menuItemsXOffset_))
                              (F64.mul (F64.of_Z screenWidth_) (F64.lit 5 100)))) in
  let itemDecoratorW_ := to_u8 (scale_int screenWidth_ (F64.lit 3 100)) in
  let itemDecoratorH_ := to_u8 (Z.max 1 (Z.quot itemDecoratorW_ 5)) in
  let itemDecoratorX_ :=
    to_u8 (Z.max 2 (Z.quot menuItemsXOffset_ 2 - Z.quot itemDecoratorW_ 2)) in
  (* Calculation for maximum displayable menu items *)
  let usableMenuHeight := to_i16 (screenHeight_ - actualTitleAreaHeight_) in
  let capacity :=
    if 0 <? actualMenuItemHeight_ + actualMenuItemSpacing_
    then to_u8 (Z.quot usableMenuHeight (actualMenuItemHeight_ + actualMenuItemSpacing_))
    else 1 in
  let actualMaxDisplayItems_ :=
    if (capacity =? 0) && (0 <? currentMenuSize (pos s)) then 1 else capacity in
  (* Scrollbar calculation *)
  let scrollbarW_ := to_u8 (Z.max 3 (scale_int screenWidth_ (F64.lit 2 100))) in
  let scrollbarMarginFromEdge :=
    to_u8 (Z.max 3 (scale_int screenWidth_ (F64.lit 15 1000))) in
  let scrollbarX_ := to_u8 (screenWidth_ - scrollbarW_ - scrollbarMarginFromEdge) in
  let scrollbarY_ := to_u8 (menuItemsAreaY_ + scrollbarMarginFromEdge) in
  let scrollbarH_ :=
    to_u8 (screenHeight_ - menuItemsAreaY_ - 2 * scrollbarMarginFromEdge) in
  (* Dynamic scrollbar thumb height calculation *)
  let thumbRatio :=
    F32.div (F32.of_Z actualMaxDisplayItems_) (F32.of_Z (currentMenuSize (pos s))) in
  let thumb :=
    to_u8 (Z.max (scale_int scrollbarH_ (F64.lit 8 100))
                 (Z.min (Fp.to_int (F32.mul (F32.of_Z scrollbarH_) thumbRatio))
                        (scale_int scrollbarH_ (F64.lit 5 10)))) in
  (* Scrollbar boundary protection *)
  let scrollbarThumbMinHeight_ :=
    if scrollbarH_ <? thumb then to_u8 (Z.max (Z.quot scrollbarH_ 2) 10) else thumb in
  let s :=
    set_layout
      (mkLayout screenWidth_ screenHeight_ actualTitleAreaHeight_ titleTextX_
         titleTextY_ titleDecoratorW_ titleDecoratorH_ titleDecoratorX_
         titleDecoratorY_ (titleBottomMargin (layout s)) actualMenuItemHeight_
         actualMenuItemSpacing_ menuItemsAreaY_ menuItemsXOffset_
         menuItemTextXPadding_ menuItemTextYOffset_ menuItemCornerRadius_
         menuItemBorderOffset_ menuItemArrowWidth_ menuItemArrowMarginX_
         menuItemDefaultMaxWidth_ itemDecoratorW_ itemDecoratorH_ itemDecoratorX_
         actualMaxDisplayItems_ scrollbarW_ scrollbarX_ scrollbarY_ scrollbarH_
         scrollbarThumbMinHeight_) s in
  set_needFullRedraw true s.

(** [MenuSystem::calculateTextWidth]: sets the text size on the display and
    measures. *)
Definition calculateTextWidth (text : string) (fontSize : Z) (s : MenuSystem)
  : Z * MenuSystem :=
  let s := setTextSize fontSize s in
  (Tft.textWidth (tft s) text, s).

(** [MenuSystem::calculateItemWidth] *)
Definition calculateItemWidth (index : Z) (s : MenuSystem) : Z * MenuSystem :=
  let L := layout s in
  match currentMenu (pos s) with
  | None => (menuItemsXOffset L + 50, s)
  | Some a =>
      if currentMenuSize (pos s) <=? index then (menuItemsXOffset L + 50, s)
      else
        let itemText := MenuItem.getLabel (items s a index) in
        let '(textActualWidth, s) := calculateTextWidth itemText (menuFontSize (style s)) s in
        let desiredWidth := textActualWidth + 2 * menuItemTextXPadding L in
        let desiredWidth :=
          if MenuItem.hasSubMenu (items s a index)
          then desiredWidth + (menuItemArrowWidth L + Z.quot (menuItemTextXPadding L) 2)
          else desiredWidth in
        let minItemWidth := scale_int (screenWidth L) (F64.lit 3 10) in
        (constrain desiredWidth minItemWidth (menuItemDefaultMaxWidth L), s)
  end.

(** [MenuSystem::calculateSliderTargetRect] *)
Definition calculateSliderTargetRect (index : Z) (s : MenuSystem)
  : RectF.t * MenuSystem :=
  let L := layout s in
  let M := mode s in
  (* Default values *)
  let x := F32.of_Z (menuItemsXOffset L) in
  let height := F32.of_Z (actualMenuItemHeight L) in
  let '(y, (w, s)) :=
    match _sliderDisplayMode M with
    | SLIDER_DISPLAY_FIXED_TOP =>
        (F32.of_Z (menuItemsAreaY L), calculateItemWidth index s)
    | SLIDER_DISPLAY_FOLLOW_SELECTION =>
        (F32.of_Z (menuItemsAreaY L
                   + (index - startIndex (pos s))
                     * (actualMenuItemHeight L + actualMenuItemSpacing L)),
         calculateItemWidth index s)
    end in
  let width := F32.of_Z w in
  (* user-defined size/position overrides *)
  let x := if _useCustomSliderPosition M && negb (_customSliderX M =? -1)
           then F32.of_Z (_customSliderX M) else x in
  let y := if _useCustomSliderPosition M && negb (_customSliderY M =? -1)
           then F32.of_Z (_customSliderY M) else y in
  let width := if _useCustomSliderSize M && negb (_customSliderWidth M =? -1)
               then F32.of_Z (_customSliderWidth M) else width in
  let height := if _useCustomSliderSize M && negb (_customSliderHeight M =? -1)
                then F32.of_Z (_customSliderHeight M) else height in
  (RectF.mk x y width height, s).

(** ** Animation engine *)

(** [MenuSystem::animateSingleValue].  The four pointers of the source are
    distinct objects at every call; the values they point to are passed in
    and the new [(current, velocity, error)] are returned with the result
    ([target] is only read). *)
Definition animateSingleValue (s : MenuSystem)
    (current target velocity error deltaTime : float)
  : bool * (float * float * float) :=
  if F32.ltb (F32.abs (F32.sub current target)) F32.c0_5 then
    (true, (target, F32.zero, F32.zero))
  else if _animationForm (slider s) =? 1 then
    (* Precise Control mode (integral controller) *)
    let animInterval_f := F32.of_Z (animInterval (slider s)) in
    let animDuration_f := F32.of_Z (animDuration (slider s)) in
    let step := F32.div (F32.mul (F32.sub target current) animInterval_f) animDuration_f in
    let current := F32.add current step in
    let error := F32.add error (F32.sub target current) in
    let current := F32.add current (F32.div error (F32.div animDuration_f animInterval_f)) in
    let error := F32.fmod error (F32.div animDuration_f animInterval_f) in
    (false, (current, velocity, error))
  else if _animationForm (slider s) =? 2 then
    (* Underdamped mode *)
    if F32.leb deltaTime F32.zero then (false, (current, velocity, error))
    else
      let zeta := F32.c0_5 in
      let omega_n := F32.c15 in
      let displacement := F32.sub current target in
      let acceleration :=
        F32.sub (F32.mul (F32.mul (F32.mul (F32.neg F32.c2) zeta) omega_n) velocity)
                (F32.mul (F32.mul omega_n omega_n) displacement) in
      let velocity := F32.add velocity (F32.mul acceleration deltaTime) in
      let current := F32.add current (F32.mul velocity deltaTime) in
      (false, (current, velocity, error))
  else (false, (current, velocity, error)).

(** [MenuSystem::startAnimation(int, int, int, int)] *)
Definition startAnimation (targetX targetY targetWidth targetHeight : Z)
    (s : MenuSystem) : MenuSystem :=
  let s := set_sliderAnim
             (set_tgt (F32.of_Z targetX) (F32.of_Z targetY)
                      (F32.of_Z targetWidth) (F32.of_Z targetHeight)
                      (sliderAnim (slider s))) s in
  let s := set_animationActive true s in
  set_lastAnimTime (millis s) s.

(** A call [startAnimation(r.x, r.y, r.width, r.height)] with a [RectF]:
    the [float] members are converted to the [int] parameters. *)
Definition startAnimationRect (r : RectF.t) (s : MenuSystem) : MenuSystem :=
  startAnimation (Fp.to_int (RectF.x r)) (Fp.to_int (RectF.y r))
                 (Fp.to_int (RectF.width r)) (Fp.to_int (RectF.height r)) s.

(** Write-back of one [animateSingleValue] call to the members whose
    addresses were passed. *)
Definition store_x (r : float * float * float) (a : AnimationState) : AnimationState :=
  let '(c, v, e) := r in
  mkAnimationState c (y_cur a) (w_cur a) (h_cur a) (x_tgt a) (y_tgt a) (w_tgt a) (h_tgt a)
    v (y_vel a) (w_vel a) (h_vel a) e (y_err a) (w_err a) (h_err a).
Definition store_y (r : float * float * float) (a : AnimationState) : AnimationState :=
  let '(c, v, e) := r in
  mkAnimationState (x_cur a) c (w_cur a) (h_cur a) (x_tgt a) (y_tgt a) (w_tgt a) (h_tgt a)
    (x_vel a) v (w_vel a) (h_vel a) (x_err a) e (w_err a) (h_err a).
(** [&w_cur, &w_vel, &h_err]: the width call is handed the height's error
    term. *)
Definition store_w_herr (r : float * float * float) (a : AnimationState) : AnimationState :=
  let '(c, v, e) := r in
  mkAnimationState (x_cur a) (y_cur a) c (h_cur a) (x_tgt a) (y_tgt a) (w_tgt a) (h_tgt a)
    (x_vel a) (y_vel a) v (h_vel a) (x_err a) (y_err a) (w_err a) e.
Definition store_h (r : float * float * float) (a : AnimationState) : AnimationState :=
  let '(c, v, e) := r in
  mkAnimationState (x_cur a) (y_cur a) (w_cur a) c (x_tgt a) (y_tgt a) (w_tgt a) (h_tgt a)
    (x_vel a) (y_vel a) (w_vel a) v (x_err a) (y_err a) (w_err a) e.

(** ** Drawing *)

(** [MenuSystem::drawMenuItem] *)
Definition drawMenuItem (index : Z) (isSelected : bool) (s : MenuSystem) : MenuSystem :=
  if currentMenuSize (pos s) <=? index then s
  else if isSelected then s
  else
    let L := layout s in
    let itemY := menuItemsAreaY L
                 + (index - startIndex (pos s))
                   * (actualMenuItemHeight L + actualMenuItemSpacing L) in
    let '(itemW, s) := calculateItemWidth index s in
    let s := draw (FillRoundRect (menuItemsXOffset L) itemY itemW (actualMenuItemHeight L)
                     (menuItemCornerRadius L) (menuBgColor (style s))) s in
    let currentTxtColor := textColor (style s) in
    let s := draw (FillRect (menuItemsXOffset L + 2)
                     (itemY + Z.quot (actualMenuItemHeight L) 2 - Z.quot (itemDecoratorH L) 2)
                     (itemDecoratorW L) (itemDecoratorH L) currentTxtColor) s in
    let s := draw (SetTextColor currentTxtColor) s in
    let s := setTextSize (menuFontSize (style s)) s in
    let textDrawY :=
      itemY + menuItemTextYOffset L
      + Z.quot (actualMenuItemHeight L - 2 * menuItemTextYOffset L
                - Tft.fontHeight (tft s)) 2 in
    let s := draw (SetCursor (menuItemsXOffset L + itemDecoratorW L + menuItemTextXPadding L)
                     textDrawY) s in
    let item := item_at s (currentMenu (pos s)) index in
    let s := draw (Print (MenuItem.getLabel item)) s in
    if MenuItem.hasSubMenu item then
      let arrowBaseX := menuItemsXOffset L + itemW - menuItemArrowMarginX L in
      let arrowTipX := arrowBaseX - Z.quot (menuItemArrowWidth L) 2 in
      let arrowCenterY := itemY + Z.quot (actualMenuItemHeight L) 2 in
      draw (FillTriangle arrowBaseX arrowCenterY
              arrowTipX (arrowCenterY - Z.quot (menuItemArrowWidth L) 2)
              arrowTipX (arrowCenterY + Z.quot (menuItemArrowWidth L) 2)
              currentTxtColor) s
    else s.

(** The highlight and its border, shared by the slider and the window. *)
Definition drawAnimatedFrame (s : MenuSystem) : MenuSystem :=
  let L := layout s in
  let a := sliderAnim (slider s) in
  let animX := Fp.round (x_cur a) in
  let animY := Fp.round (y_cur a) in
  let animWidth := Fp.round (w_cur a) in
  let animHeight := Fp.round (h_cur a) in
  let s := draw (FillRoundRect animX animY animWidth animHeight
                   (menuItemCornerRadius L) (highlightColor (style s))) s in
  draw (DrawRoundRect (animX - menuItemBorderOffset L) (animY - menuItemBorderOffset L)
          (animWidth + 2 * menuItemBorderOffset L) (animHeight + 2 * menuItemBorderOffset L)
          (menuItemCornerRadius L + menuItemBorderOffset L) (borderColor (style s))) s.

(** [MenuSystem::drawAnimatedSlider] *)
Definition drawAnimatedSlider (s : MenuSystem) : MenuSystem :=
  if currentMenuSize (pos s) =? 0 then s
  else
    let L := layout s in
    let a := sliderAnim (slider s) in
    let animX := Fp.round (x_cur a) in
    let animY := Fp.round (y_cur a) in
    let animWidth := Fp.round (w_cur a) in
    let animHeight := Fp.round (h_cur a) in
    let s := drawAnimatedFrame s in
    let item := item_at s (currentMenu (pos s)) (selectedIndex (pos s)) in
    let itemText := MenuItem.getLabel item in
    let currentTextColor := selectedTextColor (style s) in
    let s := draw (SetTextColor currentTextColor) s in
    let s := setTextSize (menuFontSize (style s)) s in
    let textDrawY :=
      animY + menuItemTextYOffset L
      + Z.quot (animHeight - 2 * menuItemTextYOffset L - Tft.fontHeight (tft s)) 2 in
    let s := draw (SetCursor (animX + itemDecoratorW L + menuItemTextXPadding L) textDrawY) s in
    let s := draw (Print itemText) s in
    let s := draw (FillRect (animX + 2)
                     (animY + Z.quot animHeight 2 - Z.quot (itemDecoratorH L) 2)
                     (itemDecoratorW L) (itemDecoratorH L) currentTextColor) s in
    if MenuItem.hasSubMenu item then
      let arrowBaseX := animX + animWidth - menuItemArrowMarginX L in
      let arrowTipX := arrowBaseX - Z.quot (menuItemArrowWidth L) 2 in
      let arrowCenterY := animY + Z.quot animHeight 2 in
      draw (FillTriangle arrowBaseX arrowCenterY
              arrowTipX (arrowCenterY - Z.quot (menuItemArrowWidth L) 2)
              arrowTipX (arrowCenterY + Z.quot (menuItemArrowWidth L) 2)
              currentTextColor) s
    else s.

(** [MenuSystem::drawAnimatedWindow] *)
Definition drawAnimatedWindow (s : MenuSystem) : MenuSystem :=
  if currentMenuSize (pos s) =? 0 then s else drawAnimatedFrame s.

(** [MenuSystem::drawScrollbar]: the track and the thumb, or nothing. *)
Definition drawScrollbar (s : MenuSystem) : MenuSystem :=
  let L := layout s in
  if (currentMenuSize (pos s) <=? actualMaxDisplayItems L)
     || (actualMaxDisplayItems L =? 0) then s
  else
    let s := draw (FillRect (scrollbarX L) (scrollbarY L) (scrollbarW L) (scrollbarH L)
                     TFT_DARKGREY) s in
    let thumbHeight :=
      Z.max (scrollbarThumbMinHeight L)
            (Z.quot (scrollbarH L * actualMaxDisplayItems L) (currentMenuSize (pos s))) in
    let thumbMaxY := scrollbarH L - thumbHeight in
    let thumbY :=
      scrollbarY L
      + Z.quot (thumbMaxY * startIndex (pos s))
               (currentMenuSize (pos s) - actualMaxDisplayItems L) in
    draw (FillRect (scrollbarX L) thumbY (scrollbarW L) thumbHeight TFT_WHITE) s.

(** [MenuSystem::drawTitle] *)
Definition drawTitle (forceRedraw forceTextRedraw : bool) (s : MenuSystem) : MenuSystem :=
  let L := layout s in
  let p := pos s in
  let currentTitleStr :=
    if menuLevel p =? 0 then "Root Menu"%string
    else
      let k := menuLevel p - 1 in
      if (k <? 10)
         && (arr_get 0 (selectedIndexHistory p) k <? arr_get 0 (menuSizeHistory p) k)
      then MenuItem.getLabel
             (item_at s (arr_get None (menuHistory p) k)
                      (arr_get 0 (selectedIndexHistory p) k))
      else "ERROR"%string in
  let s :=
    if negb (String.eqb (lastTitle (flicker s)) currentTitleStr)
       || forceRedraw || needFullRedraw (flicker s) || forceTextRedraw
    then
      let s := draw (FillRect 0 0 (screenWidth L) (actualTitleAreaHeight L)
                       (menuBgColor (style s))) s in
      let s := draw (SetTextColor (titleColor (style s))) s in
      let s := setTextSize (titleFontSize (style s)) s in
      let s := draw (SetCursor (titleTextX L) (titleTextY L)) s in
      let s := draw (Print currentTitleStr) s in
      set_lastTitle currentTitleStr s
    else s in
  draw (FillRoundRect (currentTitleDecoratorX (title s)) (titleDecoratorY L)
          (titleDecoratorW L) (titleDecoratorH L) (Z.quot (titleDecoratorW L) 3)
          (highlightColor (style s))) s.

(** One pass of the loop of [drawMenuItems] over the visible rows. *)
Definition drawRow (s : MenuSystem) (i : Z) : MenuSystem :=
  let L := layout s in
  if negb (i =? selectedIndex (pos s)) then drawMenuItem i false s
  else
    let itemY := menuItemsAreaY L
                 + (i - startIndex (pos s))
                   * (actualMenuItemHeight L + actualMenuItemSpacing L) in
    let '(itemW, s) := calculateItemWidth i s in
    draw (FillRect (menuItemsXOffset L - menuItemBorderOffset L)
            (itemY - menuItemBorderOffset L)
            (itemW + 2 * menuItemBorderOffset L)
            (actualMenuItemHeight L + 2 * menuItemBorderOffset L)
            (backgroundColor (style s))) s.

(** [MenuSystem::drawMenuItems] *)
Definition drawMenuItems (forceRedraw : bool) (s : MenuSystem) : MenuSystem :=
  if animationActive (slider s) && negb forceRedraw then s
  else
    let L := layout s in
    let p := pos s in
    let f := flicker s in
    let fullRedrawNeeded :=
      needFullRedraw f || forceRedraw || negb (lastStartIndex f =? startIndex p) in
    let s :=
      if fullRedrawNeeded then
        let s := draw (FillRect 0 (actualTitleAreaHeight L) (screenWidth L)
                         (screenHeight L - actualTitleAreaHeight L)
                         (backgroundColor (style s))) s in
        let maxItemsToDraw := to_u8 (startIndex p + actualMaxDisplayItems L) in
        let endIndex :=
          if maxItemsToDraw <? currentMenuSize p then maxItemsToDraw
          else currentMenuSize p in
        let s := fold_left drawRow (seqZ (startIndex p) (endIndex - startIndex p)) s in
        let s := drawScrollbar s in
        set_lastStartIndex (to_i8 (startIndex p)) s
      else if negb (lastSelectedIndex f =? selectedIndex p) then
        let r := lastSelectedRect f in
        let s :=
          if MenuItemRect.valid r
          then draw (FillRect (MenuItemRect.x r) (MenuItemRect.y r)
                       (MenuItemRect.width r) (MenuItemRect.height r)
                       (backgroundColor (style s))) s
          else s in
        if (startIndex p <=? lastSelectedIndex f)
           && (lastSelectedIndex f <? startIndex p + actualMaxDisplayItems L)
        then drawMenuItem (to_u8 (lastSelectedIndex f)) false s
        else s
      else s in
    let s := set_lastSelectedIndex (to_i8 (selectedIndex p)) s in
    set_needFullRedraw false s.

(** [MenuSystem::drawMenu] *)
Definition drawMenu (forceRedraw : bool) (s : MenuSystem) : MenuSystem :=
  let s :=
    if forceRedraw || needFullRedraw (flicker s)
    then set_needFullRedraw true (draw (FillScreen (backgroundColor (style s))) s)
    else s in
  let s := drawTitle (needFullRedraw (flicker s) || forceRedraw) false s in
  let s := drawMenuItems (needFullRedraw (flicker s) || forceRedraw) s in
  if negb (type (slider s)) then drawAnimatedSlider s else drawAnimatedWindow s.

(** ** Animation ticks *)

(** [deltaTime] of a tick: elapsed milliseconds in seconds, capped at 0.1 s
    and replaced by the nominal interval when not positive. *)
Definition tickDeltaTime (elapsed interval : Z) : float :=
  let deltaTime := F32.div (F32.of_Z elapsed) F32.c1000 in
  let deltaTime := if F32.gtb deltaTime F32.c0_1 then F32.c0_1 else deltaTime in
  if F32.leb deltaTime F32.zero then F32.div (F32.of_Z interval) F32.c1000
  else deltaTime.

(** The four [animateSingleValue] calls of [updateAnimation], in order, with
    the members each call is given. *)
Definition animateSlider (s : MenuSystem) (deltaTime : float) (a : AnimationState)
  : (bool * bool * bool * bool) * AnimationState :=
  let '(xDone, r) := animateSingleValue s (x_cur a) (x_tgt a) (x_vel a) (x_err a) deltaTime in
  let a := store_x r a in
  let '(yDone, r) := animateSingleValue s (y_cur a) (y_tgt a) (y_vel a) (y_err a) deltaTime in
  let a := store_y r a in
  let '(wDone, r) := animateSingleValue s (w_cur a) (w_tgt a) (w_vel a) (h_err a) deltaTime in
  let a := store_w_herr r a in
  let '(hDone, r) := animateSingleValue s (h_cur a) (h_tgt a) (h_vel a) (h_err a) deltaTime in
  let a := store_h r a in
  ((xDone, yDone, wDone, hDone), a).

(** [MenuSystem::updateAnimation] *)
Definition updateAnimation (type_ : bool) (s : MenuSystem) : MenuSystem :=
  if negb (animationActive (slider s)) then s
  else
    let currentTime := millis s in
    let elapsed := to_u32 (currentTime - lastAnimTime (slider s)) in
    if elapsed <? animInterval (slider s) then s
    else
      let deltaTime := tickDeltaTime elapsed (animInterval (slider s)) in
      let s := set_lastAnimTime currentTime s in
      let a := sliderAnim (slider s) in
      let oldX := Fp.round (x_cur a) in
      let oldY := Fp.round (y_cur a) in
      let oldWidth := Fp.round (w_cur a) in
      let oldHeight := Fp.round (h_cur a) in
      let '((xDone, yDone, wDone, hDone), a) := animateSlider s deltaTime a in
      let s := set_sliderAnim a s in
      let s :=
        if negb (Fp.round (x_cur a) =? oldX) || negb (Fp.round (y_cur a) =? oldY)
           || negb (Fp.round (w_cur a) =? oldWidth) || negb (Fp.round (h_cur a) =? oldHeight)
        then
          let L := layout s in
          let f := flicker s in
          let r := lastSelectedRect f in
          (* 1. clear the previous slider position *)
          let s :=
            if MenuItemRect.valid r
            then draw (FillRect (MenuItemRect.x r) (MenuItemRect.y r)
                         (MenuItemRect.width r) (MenuItemRect.height r)
                         (backgroundColor (style s))) s
            else s in
          (* 2. redraw the previously selected item as unselected *)
          let s :=
            if negb (lastSelectedIndex f =? -1)
               && negb (lastSelectedIndex f =? selectedIndex (pos s))
               && (startIndex (pos s) <=? lastSelectedIndex f)
               && (lastSelectedIndex f <? startIndex (pos s) + actualMaxDisplayItems L)
            then drawMenuItem (to_u8 (lastSelectedIndex f)) false s
            else s in
          (* 3. draw the slider or the window *)
          let s := if negb type_ then drawAnimatedSlider s else drawAnimatedWindow s in
          (* 4. remember the rectangle to clear in the next frame *)
          set_lastSelectedRect
            (MenuItemRect.mk (Fp.round (x_cur a) - menuItemBorderOffset L)
               (Fp.round (y_cur a) - menuItemBorderOffset L)
               (Fp.round (w_cur a) + 2 * menuItemBorderOffset L)
               (Fp.round (h_cur a) + 2 * menuItemBorderOffset L) true) s
        else s in
      if xDone && yDone && wDone && hDone
      then set_needFullRedraw true (set_animationActive false s)
      else s.

(** [MenuSystem::updateTitleDecoratorAnimation] *)
Definition updateTitleDecoratorAnimation (s : MenuSystem) : MenuSystem :=
  let t := title s in
  if negb (titleDecoratorAnimationActive t) then s
  else
    let currentTime := millis s in
    let elapsed := to_u32 (currentTime - lastTitleDecoratorAnimTime t) in
    if elapsed <? animInterval (slider s) then s
    else
      let deltaTime := tickDeltaTime elapsed (animInterval (slider s)) in
      let a := titleDecoratorAnim t in
      let '(xDone, r) :=
        animateSingleValue s (x_cur a) (x_tgt a) (x_vel a) (x_err a) deltaTime in
      let a := store_x r a in
      let s := set_title (mkTitleAnimation a (titleDecoratorAnimationActive t)
                            currentTime (Fp.round (x_cur a))) s in
      let s := drawTitle false true s in
      if xDone
      then
        let t := title s in
        set_needFullRedraw true
          (set_title (mkTitleAnimation (titleDecoratorAnim t) false
                        (lastTitleDecoratorAnimTime t) (currentTitleDecoratorX t)) s)
      else s.

(** ** Placing the slider without a tween *)

(** The slider's current rectangle set to [r] (the stored target is not
    written). *)
Definition setSliderCurrent (r : RectF.t) (s : MenuSystem) : MenuSystem :=
  set_sliderAnim (set_cur (RectF.x r) (RectF.y r) (RectF.width r) (RectF.height r)
                          (sliderAnim (slider s))) s.

(** The slider parked at the default rectangle of an empty menu, target
    included. *)
Definition parkSlider (s : MenuSystem) : MenuSystem :=
  let L := layout s in
  let x := F32.of_Z (menuItemsXOffset L) in
  let y := F32.of_Z (menuItemsAreaY L) in
  let w := F32.of_double (F64.mul (F64.of_Z (menuItemDefaultMaxWidth L)) (F64.lit 8 10)) in
  let h := F32.of_Z (actualMenuItemHeight L) in
  set_sliderAnim (set_tgt x y w h (set_cur x y w h (sliderAnim (slider s)))) s.

(** The decorator's entrance tween from [startX]. *)
Definition armTitleDecorator (startX : Z) (s : MenuSystem) : MenuSystem :=
  let t := title s in
  set_title
    (mkTitleAnimation
       (set_x (F32.of_Z startX) (F32.of_Z (titleDecoratorX (layout s)))
              F32.zero F32.zero (titleDecoratorAnim t))
       true (millis s) startX) s.

(** [MenuSystem::setRootMenu].  The source assigns [w_tgt] and [h_tgt] from
    members [w_cur] and [h_cur] of the [RectF], which has none; the width and
    the height of the rectangle are used. *)
Definition setRootMenu (menu : MenuPtr) (size : Z) (s : MenuSystem) : MenuSystem :=
  let p := pos s in
  let s := set_pos (mkPosition menu (to_u8 size) 0 0 0 (menuHistory p)
                      (menuSizeHistory p) (selectedIndexHistory p)) s in
  let s := calculateLayoutParameters s in
  let s :=
    if 0 <? currentMenuSize (pos s) then
      let '(initialRect, s) := calculateSliderTargetRect 0 s in
      let s := setSliderCurrent initialRect s in
      set_sliderAnim (set_tgt (RectF.x initialRect) (RectF.y initialRect)
                        (RectF.width initialRect) (RectF.height initialRect)
                        (sliderAnim (slider s))) s
    else parkSlider s in
  let s := set_needFullRedraw true s in
  let s := set_lastSelectedIndex (-1) s in
  let s := set_lastStartIndex (-1) s in
  let s := set_lastTitle EmptyString s in
  let r := lastSelectedRect (flicker s) in
  let s := set_lastSelectedRect
             (MenuItemRect.mk (MenuItemRect.x r) (MenuItemRect.y r)
                (MenuItemRect.width r) (MenuItemRect.height r) false) s in
  let t := title s in
  let tdx := titleDecoratorX (layout s) in
  set_title (mkTitleAnimation
               (set_x (F32.of_Z tdx) (F32.of_Z tdx) (x_vel (titleDecoratorAnim t))
                      (x_err (titleDecoratorAnim t)) (titleDecoratorAnim t))
               false (lastTitleDecoratorAnimTime t) tdx) s.

(** ** Navigation state machine *)

(** The "immediate scroll" of [selectNext] and [selectPrev]: full redraw
    requested, the slider's current rectangle moved to the selection's
    rectangle, animation switched off. *)
Definition snapToSelection (s : MenuSystem) : MenuSystem :=
  let s := set_needFullRedraw true s in
  let '(targetRect, s) := calculateSliderTargetRect (selectedIndex (pos s)) s in
  let s := setSliderCurrent targetRect s in
  set_animationActive false s.

(** [MenuSystem::selectNext] *)
Definition selectNext (s : MenuSystem) : MenuSystem :=
  let p := pos s in
  if (currentMenuSize p =? 0) || (currentMenuSize p - 1 <=? selectedIndex p) then s
  else if BanOperation (slider s) then s
  else
    let s := set_selectedIndex (to_u8 (selectedIndex p + 1)) s in
    let s := beep 20 1000 (buzz_vol s) s in
    match _sliderDisplayMode (mode s) with
    | SLIDER_DISPLAY_FIXED_TOP =>
        let s := set_startIndex (selectedIndex (pos s)) s in
        snapToSelection s
    | SLIDER_DISPLAY_FOLLOW_SELECTION =>
        if startIndex (pos s) + actualMaxDisplayItems (layout s) <=? selectedIndex (pos s)
        then
          let s := set_startIndex
                     (to_u8 (selectedIndex (pos s) - actualMaxDisplayItems (layout s) + 1)) s in
          snapToSelection s
        else
          let '(targetRect, s) := calculateSliderTargetRect (selectedIndex (pos s)) s in
          startAnimationRect targetRect s
    end.

(** [MenuSystem::selectPrev] *)
Definition selectPrev (s : MenuSystem) : MenuSystem :=
  let p := pos s in
  if (currentMenuSize p =? 0) || (selectedIndex p =? 0) then s
  else if BanOperation (slider s) then s
  else
    let s := set_selectedIndex (to_u8 (selectedIndex p - 1)) s in
    let s := beep 20 1000 (buzz_vol s) s in
    match _sliderDisplayMode (mode s) with
    | SLIDER_DISPLAY_FIXED_TOP =>
        let s := set_startIndex (selectedIndex (pos s)) s in
        snapToSelection s
    | SLIDER_DISPLAY_FOLLOW_SELECTION =>
        if selectedIndex (pos s) <? startIndex (pos s)
        then
          let s := set_startIndex (selectedIndex (pos s)) s in
          snapToSelection s
        else
          let '(targetRect, s) := calculateSliderTargetRect (selectedIndex (pos s)) s in
          startAnimationRect targetRect s
    end.

(** The tail shared by a descent in [select] and a return in [back]: the
    slider tween (or the parked slider of an empty menu), the redraw
    snapshot reset and the decorator entrance from [decoratorStart]. *)
Definition enterMenu (decoratorStart : Z) (s : MenuSystem) : MenuSystem :=
  let s :=
    if 0 <? currentMenuSize (pos s) then
      let '(targetRect, s) := calculateSliderTargetRect (selectedIndex (pos s)) s in
      startAnimationRect targetRect s
    else parkSlider s in
  let s := set_animationActive true s in
  let s := set_needFullRedraw true s in
  let s := set_lastSelectedIndex (-1) s in
  let s := set_lastStartIndex (-1) s in
  let s := set_lastTitle EmptyString s in
  armTitleDecorator decoratorStart s.

(** [MenuSystem::back] *)
Definition back (s : MenuSystem) : MenuSystem :=
  let p := pos s in
  if 0 <? menuLevel p then
    if negb (type (slider s)) then
      (* not in window mode: return to the previous level *)
      let level := to_u8 (menuLevel p - 1) in
      let s := longBeep 100 1000 (buzz_vol s) s in
      let menu := arr_get None (menuHistory p) level in
      let size := arr_get 0 (menuSizeHistory p) level in
      let sel := arr_get 0 (selectedIndexHistory p) level in
      let maxItems := actualMaxDisplayItems (layout s) in
      let start :=
        match _sliderDisplayMode (mode s) with
        | SLIDER_DISPLAY_FIXED_TOP => sel
        | SLIDER_DISPLAY_FOLLOW_SELECTION =>
            let start :=
              if startIndex p + maxItems <=? sel then to_u8 (sel - maxItems + 1)
              else if sel <? startIndex p then sel
              else startIndex p in
            if (0 <? start) && (size <? start + maxItems)
            then to_u8 (Z.max 0 (size - maxItems))
            else start
        end in
      let s := set_pos (mkPosition menu size sel start level (menuHistory p)
                          (menuSizeHistory p) (selectedIndexHistory p)) s in
      enterMenu (- titleDecoratorW (layout s)) s
    else
      (* window mode: just leave it *)
      let s := set_type false s in
      let s := longBeep 100 1000 (buzz_vol s) s in
      let '(targetRect, s) := calculateSliderTargetRect (selectedIndex (pos s)) s in
      let s := startAnimationRect targetRect s in
      set_BanOperation false s
  else s.

(** [MenuSystem::setSliderAnimationForm] *)
Definition setSliderAnimationForm (form : Z) (s : MenuSystem) : MenuSystem :=
  if (form =? 1) || (form =? 2) then set_animationForm form s else s.

(** [MenuSystem::setSliderAnimationDuration] *)
Definition setSliderAnimationDuration (duration : Z) (s : MenuSystem) : MenuSystem :=
  set_animDuration (to_u16 duration) s.

(** [MenuSystem::setSliderAnimationInterval] *)
Definition setSliderAnimationInterval (interval : Z) (s : MenuSystem) : MenuSystem :=
  set_animInterval (to_u16 interval) s.

(** Running an item's callback. *)
Definition runCallback (cb : Callback) (s : MenuSystem) : MenuSystem :=
  match cb with
  | CbBack => back s
  | CbTypeNum n => set_TypeNum (to_u8 n) s
  | CbAnimationForm form => setSliderAnimationForm (to_u8 form) s
  | CbRotate r => drawMenu true (set_tft (Tft.setRotation r (tft s)) s)
  end.

(** The [switch (TypeNum)] of [select], read after the callback returned. *)
Definition handleTypeNum (s : MenuSystem) : MenuSystem :=
  if TypeNum s =? 1 then
    let s := set_type true s in
    let L := layout s in
    let WinStartX := to_u16 (scale_int (screenWidth L) (F64.lit 5 100)) in
    let WinStartY := to_u16 (scale_int (screenHeight L) (F64.lit 25 100)) in
    let WinWidth := to_u16 (scale_int (screenWidth L) (F64.lit 9 10)) in
    let WinHeight := to_u16 (scale_int (screenHeight L) (F64.lit 5 10)) in
    let targetRect := RectF.mk (F32.of_Z WinStartX) (F32.of_Z WinStartY)
                               (F32.of_Z WinWidth) (F32.of_Z WinHeight) in
    let s :=
      if negb (animationActive (slider s))
      then draw (FillRect (scale_int WinStartX (F64.lit 5 100))
                   (scale_int WinStartY (F64.lit 5 10))
                   (scale_int WinWidth (F64.lit 9 10)) 5 TFT_BLACK) s
      else s in
    let s := startAnimationRect targetRect s in
    let s := set_TypeNum 0 s in
    set_BanOperation true s
  else if TypeNum s =? 2 then
    let s := set_TypeNum 0 s in
    set_BanOperation true s
  else s.

(** [MenuSystem::select] *)
Definition select (s : MenuSystem) : MenuSystem :=
  let p := pos s in
  match currentMenu p with
  | None => s
  | Some a =>
      if currentMenuSize p <=? selectedIndex p then s
      else if BanOperation (slider s) then s
      else
        let selectedItem := items s a (selectedIndex p) in
        let s := beep 20 1000 (buzz_vol s) s in
        let s :=
          match MenuItem.getCallback selectedItem with
          | Some cb => handleTypeNum (runCallback cb s)
          | None => s
          end in
        if MenuItem.hasSubMenu selectedItem then
          let p := pos s in
          if menuLevel p <? 9 then
            (* Max 10 levels (0-9) *)
            let s :=
              set_pos
                (mkPosition (MenuItem.getSubMenu selectedItem)
                   (MenuItem.getSubMenuSize selectedItem) 0 0
                   (to_u8 (menuLevel p + 1))
                   (arr_set (menuHistory p) (menuLevel p) (currentMenu p))
                   (arr_set (menuSizeHistory p) (menuLevel p) (currentMenuSize p))
                   (arr_set (selectedIndexHistory p) (menuLevel p) (selectedIndex p))) s in
            enterMenu (screenWidth (layout s)) s
          else s
        else s
  end.

(** [MenuSystem::update] *)
Definition update (s : MenuSystem) : MenuSystem :=
  let s :=
    if animationActive (slider s) then
      if type (slider s) then updateAnimation true s else updateAnimation false s
    else s in
  let s :=
    if titleDecoratorAnimationActive (title s) then updateTitleDecoratorAnimation s
    else s in
  if negb (animationActive (slider s))
     && negb (titleDecoratorAnimationActive (title s))
     && needFullRedraw (flicker s)
  then drawMenu true s
  else s.

(** [MenuSystem::setSliderDisplayMode] *)
Definition setSliderDisplayMode (m : SliderDisplayMode) (s : MenuSystem) : MenuSystem :=
  let M := mode s in
  let s := set_mode (mkSliderMode m (_useCustomSliderPosition M) (_useCustomSliderSize M)
                       (_customSliderX M) (_customSliderY M) (_customSliderWidth M)
                       (_customSliderHeight M)) s in
  let s := set_needFullRedraw true s in
  let s :=
    if 0 <? currentMenuSize (pos s) then
      let '(targetRect, s) := calculateSliderTargetRect (selectedIndex (pos s)) s in
      let s := setSliderCurrent targetRect s in
      set_sliderAnim (set_tgt (RectF.x targetRect) (RectF.y targetRect)
                        (RectF.width targetRect) (RectF.height targetRect)
                        (sliderAnim (slider s))) s
    else s in
  set_animationActive false s.

(** [MenuSystem::setCustomSliderTarget] *)
Definition setCustomSliderTarget (x y width height : Z) (s : MenuSystem) : MenuSystem :=
  let M := mode s in
  let s := set_mode (mkSliderMode (_sliderDisplayMode M)
                       (negb (x =? -1) || negb (y =? -1))
                       (negb (width =? -1) || negb (height =? -1))
                       x y width height) s in
  match _sliderDisplayMode (mode s) with
  | SLIDER_DISPLAY_FIXED_TOP =>
      if 0 <? currentMenuSize (pos s) then
        let '(targetRect, s) := calculateSliderTargetRect (selectedIndex (pos s)) s in
        startAnimationRect targetRect s
      else s
  | SLIDER_DISPLAY_FOLLOW_SELECTION => s
  end.

(** [MenuSystem::setMenuFontSize] and [MenuSystem::setTitleFontSize] *)
Definition setMenuFontSize (size : Z) (s : MenuSystem) : MenuSystem :=
  let size := if size =? 0 then 1 else size in
  let y := style s in
  let s := set_style (mkStyle (backgroundColor y) (menuBgColor y) (highlightColor y)
                        (textColor y) (selectedTextColor y) (titleColor y)
                        (borderColor y) size (titleFontSize y)) s in
  set_needFullRedraw true (calculateLayoutParameters s).
Definition setTitleFontSize (size : Z) (s : MenuSystem) : MenuSystem :=
  let size := if size =? 0 then 1 else size in
  let y := style s in
  let s := set_style (mkStyle (backgroundColor y) (menuBgColor y) (highlightColor y)
                        (textColor y) (selectedTextColor y) (titleColor y)
                        (borderColor y) (menuFontSize y) size) s in
  set_needFullRedraw true (calculateLayoutParameters s).

(** [MenuSystem::getCurrentLevel] and [MenuSystem::getSelectedIndex] *)
Definition getCurrentLevel (s : MenuSystem) : Z := menuLevel (pos s).
Definition getSelectedIndex (s : MenuSystem) : Z := selectedIndex (pos s).

(** [MenuSystem::MenuSystem].  [raw] is the object's storage before the
    constructor runs: members the constructor does not assign (the history
    arrays, the unused components of the decorator's state, the rectangle of
    [lastSelectedRect]) keep its contents, and so do the three layout members
    the constructor reads before [calculateLayoutParameters] has assigned
    them.  The clock and the item storage are those of [raw]. *)
Definition MenuSystem_ctor (raw : MenuSystem) (_tft : Tft.t) (_buzzer : list Tone)
  : MenuSystem :=
  let L := layout raw in
  let screenWidth_ := to_u16 (Tft.width _tft) in
  let screenHeight_ := to_u16 (Tft.height _tft) in
  let x := F32.of_Z (menuItemsXOffset L) in
  let y := F32.of_Z (menuItemsAreaY L) in
  let w := F32.of_double (F64.mul (F64.of_Z screenWidth_) (F64.lit 8 10)) in
  let h := F32.of_Z (actualMenuItemHeight L) in
  let r := lastSelectedRect (flicker raw) in
  let s :=
    mkMenuSystem _tft _buzzer 5 (clock raw) (items raw) 0
      (mkLayout screenWidth_ screenHeight_ (actualTitleAreaHeight L) (titleTextX L)
         (titleTextY L) (titleDecoratorW L) (titleDecoratorH L) (titleDecoratorX L)
         (titleDecoratorY L) 10 (actualMenuItemHeight L) (actualMenuItemSpacing L)
         (menuItemsAreaY L) (menuItemsXOffset L) (menuItemTextXPadding L)
         (menuItemTextYOffset L) (menuItemCornerRadius L) (menuItemBorderOffset L)
         (menuItemArrowWidth L) (menuItemArrowMarginX L) (menuItemDefaultMaxWidth L)
         (itemDecoratorW L) (itemDecoratorH L) (itemDecoratorX L)
         (actualMaxDisplayItems L) (scrollbarW L) (scrollbarX L) (scrollbarY L)
         (scrollbarH L) (scrollbarThumbMinHeight L))
      (mkStyle TFT_BLACK TFT_BLACK TFT_WHITE TFT_WHITE TFT_BLACK TFT_WHITE
         TFT_DARKGREY 1 2)
      (mkPosition None 0 0 0 0 (menuHistory (pos raw)) (menuSizeHistory (pos raw))
         (selectedIndexHistory (pos raw)))
      (mkSliderAnimation
         (mkAnimationState x y w h x y w h
            F32.zero F32.zero F32.zero F32.zero F32.zero F32.zero F32.zero F32.zero)
         false 0 200 15 1 false false)
      (mkTitleAnimation
         (set_x F32.zero F32.zero F32.zero F32.zero (titleDecoratorAnim (title raw)))
         false 0 0)
      (mkAntiFlicker (-1) (-1) EmptyString true
         (MenuItemRect.mk (MenuItemRect.x r) (MenuItemRect.y r)
            (MenuItemRect.width r) (MenuItemRect.height r) false))
      (mkSliderMode SLIDER_DISPLAY_FOLLOW_SELECTION false false (-1) (-1) (-1) (-1)) in
  let s := calculateLayoutParameters s in
  let t := title s in
  let tdx := titleDecoratorX (layout s) in
  set_title (mkTitleAnimation
               (set_x (F32.of_Z tdx) (F32.of_Z tdx) (x_vel (titleDecoratorAnim t))
                      (x_err (titleDecoratorAnim t)) (titleDecoratorAnim t))
               (titleDecoratorAnimationActive t) (lastTitleDecoratorAnimTime t) tdx) s.


(** * Runs of the machine and the properties stated about them *)

(** The calls a host makes at run time. [OpUpdate ms] is a call of
    [update()] made [ms] milliseconds after the previous call. *)
Inductive Op : Type :=
| OpSelectNext
| OpSelectPrev
| OpSelect
| OpBack
| OpUpdate (elapsed : Z)
| OpSetSliderDisplayMode (m : SliderDisplayMode).

Definition step (s : MenuSystem) (op : Op) : MenuSystem :=
  match op with
  | OpSelectNext => selectNext s
  | OpSelectPrev => selectPrev s
  | OpSelect => select s
  | OpBack => back s
  | OpUpdate elapsed => update (set_clock (clock s + elapsed) s)
  | OpSetSliderDisplayMode m => setSliderDisplayMode m s
  end.

Definition run (ops : list Op) (s : MenuSystem) : MenuSystem := fold_left step ops s.

(** Construction, root menu and display mode, as [setup()] does them. *)
Definition boot (raw : MenuSystem) (_tft : Tft.t) (_buzzer : list Tone)
    (root : MenuPtr) (size : Z) (m : SliderDisplayMode) : MenuSystem :=
  setSliderDisplayMode m (setRootMenu root size (MenuSystem_ctor raw _tft _buzzer)).

(** No call in [ops] switches the display mode away from [m]. *)
Definition keeps_mode (m : SliderDisplayMode) (ops : list Op) : bool :=
  forallb (fun op => match op with
                     | OpSetSliderDisplayMode m' => SliderDisplayMode_eqb m m'
                     | _ => true
                     end) ops.

(** What the types of the source guarantee about the storage: the three
    history arrays have ten slots, and a submenu size is a [uint8_t]. *)
Definition history_slots (p : Position) : Prop :=
  length (menuHistory p) = 10%nat /\
  length (menuSizeHistory p) = 10%nat /\
  length (selectedIndexHistory p) = 10%nat.

Definition store_typed (st : ItemStore) : Prop :=
  forall a i, 0 <= MenuItem.subMenuSize (st a i) <= 255.

(** Viewport containment, the bottom clamp and the pinned selection. *)
Definition viewport_contains (s : MenuSystem) : Prop :=
  startIndex (pos s) <= selectedIndex (pos s)
  /\ selectedIndex (pos s) < startIndex (pos s) + actualMaxDisplayItems (layout s).

Definition viewport_clamped (s : MenuSystem) : Prop :=
  actualMaxDisplayItems (layout s) < currentMenuSize (pos s) ->
  startIndex (pos s) + actualMaxDisplayItems (layout s) <= currentMenuSize (pos s).

Definition pinned_top (s : MenuSystem) : Prop :=
  startIndex (pos s) = selectedIndex (pos s).

(** The entries of the history below the current level are positions that
    were valid when they were pushed. *)
Definition history_valid (p : Position) : Prop :=
  forall i, 0 <= i < menuLevel p ->
    0 <= arr_get 0 (selectedIndexHistory p) i
    /\ arr_get 0 (selectedIndexHistory p) i < arr_get 0 (menuSizeHistory p) i
    /\ arr_get 0 (menuSizeHistory p) i <= 255.

(** The invariant of the navigation machine. *)
Record nav_invariant (s : MenuSystem) : Prop := mk_nav_invariant {
  ni_max : 1 <= actualMaxDisplayItems (layout s) <= 255;
  ni_store : store_typed (items s);
  ni_size : 0 <= currentMenuSize (pos s) <= 255;
  ni_start : 0 <= startIndex (pos s);
  ni_sel : selectedIndex (pos s) <= 255;
  ni_view : viewport_contains s;
  ni_level : 0 <= menuLevel (pos s) <= 9;
  ni_slots : history_slots (pos s);
  ni_history : history_valid (pos s)
}.

(** What holds in the current display mode: the bottom clamp when the
    viewport follows the selection, the pinned selection in fixed-top
    mode. *)
Definition mode_invariant (s : MenuSystem) : Prop :=
  match _sliderDisplayMode (mode s) with
  | SLIDER_DISPLAY_FOLLOW_SELECTION => viewport_clamped s
  | SLIDER_DISPLAY_FIXED_TOP => pinned_top s
  end.

(** Two states with the same control state: they differ at most in the
    display, the redraw snapshot and the animation values. *)
Record same_control (s s' : MenuSystem) : Prop := mk_same_control {
  sc_pos : pos s' = pos s;
  sc_layout : layout s' = layout s;
  sc_style : style s' = style s;
  sc_mode : mode s' = mode s;
  sc_items : items s' = items s;
  sc_TypeNum : TypeNum s' = TypeNum s;
  sc_buzz_vol : buzz_vol s' = buzz_vol s;
  sc_buzzer : buzzer s' = buzzer s;
  sc_clock : clock s' = clock s;
  sc_type : type (slider s') = type (slider s);
  sc_ban : BanOperation (slider s') = BanOperation (slider s);
  sc_form : _animationForm (slider s') = _animationForm (slider s);
  sc_duration : animDuration (slider s') = animDuration (slider s);
  sc_interval : animInterval (slider s') = animInterval (slider s);
  sc_textWidthOf : Tft.textWidthOf (tft s') = Tft.textWidthOf (tft s)
}.

(** Two states that differ at most in what was drawn: the display's log
    and text size, and the redraw snapshot. *)
Record draw_only (s s' : MenuSystem) : Prop := mk_draw_only {
  do_pos : pos s' = pos s;
  do_layout : layout s' = layout s;
  do_style : style s' = style s;
  do_mode : mode s' = mode s;
  do_items : items s' = items s;
  do_TypeNum : TypeNum s' = TypeNum s;
  do_buzz_vol : buzz_vol s' = buzz_vol s;
  do_buzzer : buzzer s' = buzzer s;
  do_clock : clock s' = clock s;
  do_slider : slider s' = slider s;
  do_title : title s' = title s;
  do_textWidthOf : Tft.textWidthOf (tft s') = Tft.textWidthOf (tft s)
}.

(** Two states with the same position, layout, display mode and items. *)
Record same_nav (s s' : MenuSystem) : Prop := mk_same_nav {
  sn_pos : pos s' = pos s;
  sn_layout : layout s' = layout s;
  sn_mode : mode s' = mode s;
  sn_items : items s' = items s
}.

(** One call keeps the navigation invariant, the display mode and what
    holds in that mode. *)
Record step_ok (s s' : MenuSystem) : Prop := mk_step_ok {
  so_invariant : nav_invariant s';
  so_mode : mode s' = mode s;
  so_mode_invariant : mode_invariant s -> mode_invariant s'
}.

(** The triple that [select] pushes and [back] restores. *)
Definition place (s : MenuSystem) : MenuPtr * Z * Z :=
  (currentMenu (pos s), currentMenuSize (pos s), selectedIndex (pos s)).

(** The position one level down: the triple of [p] pushed at its level,
    the item's submenu entered at its first row. *)
Definition pushed (item : MenuItem.t) (p : Position) : Position :=
  mkPosition (MenuItem.getSubMenu item) (MenuItem.getSubMenuSize item) 0 0
    (to_u8 (menuLevel p + 1))
    (arr_set (menuHistory p) (menuLevel p) (currentMenu p))
    (arr_set (menuSizeHistory p) (menuLevel p) (currentMenuSize p))
    (arr_set (selectedIndexHistory p) (menuLevel p) (selectedIndex p)).

(** The selected item, as [select] reads it. *)
Definition selectedItem (s : MenuSystem) : MenuItem.t :=
  item_at s (currentMenu (pos s)) (selectedIndex (pos s)).

(** [select] is past its guards: there is a menu, the selection is inside
    it and input is not banned. *)
Definition selectable (s : MenuSystem) : Prop :=
  currentMenu (pos s) <> None
  /\ selectedIndex (pos s) < currentMenuSize (pos s)
  /\ BanOperation (slider s) = false.

(** The state of [select] after the tone and the item's callback, before
    the submenu test. *)
Definition afterCallback (s : MenuSystem) : MenuSystem :=
  let s0 := beep 20 1000 (buzz_vol s) s in
  match MenuItem.getCallback (selectedItem s) with
  | Some cb => handleTypeNum (runCallback cb s0)
  | None => s0
  end.

(** A [select()] that descends one level with no window sequence before or
    after it. *)
Definition descends (s : MenuSystem) : Prop :=
  type (slider s) = false
  /\ type (slider (select s)) = false
  /\ menuLevel (pos (select s)) = menuLevel (pos s) + 1.

Fixpoint descends_n (k : nat) (s : MenuSystem) : Prop :=
  match k with
  | O => True
  | S k' => descends s /\ descends_n k' (select s)
  end.

(** The slider's current rectangle and its stored target. *)
Definition currentRect (a : AnimationState) : RectF.t :=
  RectF.mk (x_cur a) (y_cur a) (w_cur a) (h_cur a).
Definition targetRect (a : AnimationState) : RectF.t :=
  RectF.mk (x_tgt a) (y_tgt a) (w_tgt a) (h_tgt a).

(** A component is within the convergence tolerance. *)
Definition converged (cur tgt : float) : bool :=
  F32.ltb (F32.abs (F32.sub cur tgt)) F32.c0_5.

(** ** The width tween as the specification words it

    Form 1 applied to the four components, each with its own error
    accumulator; to be compared with [animateSlider]. *)
Definition animateSlider_own_error (s : MenuSystem) (deltaTime : float)
    (a : AnimationState) : (bool * bool * bool * bool) * AnimationState :=
  let '(xDone, (xc, xv, xe)) :=
    animateSingleValue s (x_cur a) (x_tgt a) (x_vel a) (x_err a) deltaTime in
  let '(yDone, (yc, yv, ye)) :=
    animateSingleValue s (y_cur a) (y_tgt a) (y_vel a) (y_err a) deltaTime in
  let '(wDone, (wc, wv, we)) :=
    animateSingleValue s (w_cur a) (w_tgt a) (w_vel a) (w_err a) deltaTime in
  let '(hDone, (hc, hv, he)) :=
    animateSingleValue s (h_cur a) (h_tgt a) (h_vel a) (h_err a) deltaTime in
  ((xDone, yDone, wDone, hDone),
   mkAnimationState xc yc wc hc (x_tgt a) (y_tgt a) (w_tgt a) (h_tgt a)
     xv yv wv hv xe ye we he).

(** Bounds of the scrollbar thumb on a track of height [H]: 8% of the
    track is at most half of it, half of it fits in the track, and 8% of a
    track of 13 rows or more is at least one row. *)
Definition thumb_bounds_ok (H : Z) : bool :=
  (0 <=? scale_int H (F64.lit 8 100))
  && (scale_int H (F64.lit 8 100) <=? scale_int H (F64.lit 5 10))
  && (scale_int H (F64.lit 5 10) <=? H)
  && (scale_int H (F64.lit 5 10) <=? 255)
  && ((H <? 13) || (1 <=? scale_int H (F64.lit 8 100))).

(** ** Fixtures

    A 240x320 panel in the rotation of [src/main.cpp], with the metrics of
    the built-in 6x8 font, and small menus in static storage. *)
Module Fixture.

Definition glcd_fontHeight (sz : Z) : Z := 8 * sz.
Definition glcd_textWidth (text : string) (sz : Z) : Z :=
  6 * sz * Z.of_nat (String.length text).

Definition panel (w h : Z) : Tft.t :=
  Tft.mk w h 2 1 glcd_fontHeight glcd_textWidth [].

Definition tft240x320 : Tft.t := panel 240 320.
(** a short panel: room for two rows under the title *)
Definition tft128x80 : Tft.t := panel 128 80.
(** a panel too short for a single row *)
Definition tft128x32 : Tft.t := panel 128 32.

Definition zeroAnim : AnimationState :=
  mkAnimationState F32.zero F32.zero F32.zero F32.zero F32.zero F32.zero
    F32.zero F32.zero F32.zero F32.zero F32.zero F32.zero F32.zero F32.zero
    F32.zero F32.zero.

(** Storage from a table of arrays; anything outside the table reads as a
    plain item. *)
Definition store_of (tbl : list (positive * list MenuItem.t)) : ItemStore :=
  fun a i =>
    match find (fun e => Pos.eqb (fst e) a) tbl with
    | Some (_, arr) =>
        if i <? 0 then MenuItem.ctor EmptyString None
        else nth (Z.to_nat i) arr (MenuItem.ctor EmptyString None)
    | None => MenuItem.ctor EmptyString None
    end.

Definition table_typed (tbl : list (positive * list MenuItem.t)) : bool :=
  forallb (fun e => forallb (fun it => (0 <=? MenuItem.subMenuSize it)
                                       && (MenuItem.subMenuSize it <=? 255))
                            (snd e)) tbl.

(** Unconstructed storage over a given item store. *)
Definition raw (st : ItemStore) : MenuSystem :=
  mkMenuSystem tft240x320 [] 0 0 st 0
    (mkLayout 0 0 0 0 0 0 0 0 0 0 0 0 0 0 0 0 0 0 0 0 0 0 0 0 0 0 0 0 0 0)
    (mkStyle 0 0 0 0 0 0 0 0 0)
    (mkPosition None 0 0 0 0 (repeat None 10) (repeat 0 10) (repeat 0 10))
    (mkSliderAnimation zeroAnim false 0 0 0 0 false false)
    (mkTitleAnimation zeroAnim false 0 0)
    (mkAntiFlicker 0 0 EmptyString false (MenuItemRect.mk 0 0 0 0 false))
    (mkSliderMode SLIDER_DISPLAY_FOLLOW_SELECTION false false 0 0 0 0).

(** Three plain items. *)
Definition plain3_table : list (positive * list MenuItem.t) :=
  [(1%positive, [MenuItem.ctor "One" None; MenuItem.ctor "Two" None;
                 MenuItem.ctor "Three" None])].
Definition plain3 : ItemStore := store_of plain3_table.

(** The menus of [src/main.cpp], "Main" and "Setting" at the root. *)
Definition main_menu_table : list (positive * list MenuItem.t) :=
    [(1%positive,
      [MenuItem.ctor "Main" None;
       MenuItem.setSubMenu (Some 2%positive) 3 (MenuItem.ctor "Setting" None)]);
     (2%positive,
      [MenuItem.setSubMenu (Some 3%positive) 4 (MenuItem.ctor "Animation" None);
       MenuItem.ctor "Buzz vol" (Some (CbTypeNum 1));
       MenuItem.ctor "Back" (Some CbBack)]);
     (3%positive,
      [MenuItem.ctor "Form" None; MenuItem.ctor "Para" None;
       MenuItem.ctor "Layout" None; MenuItem.ctor "Back" (Some CbBack)])].
Definition main_menu : ItemStore := store_of main_menu_table.

(** A chain of single-item menus, each opening the next one. *)
Definition nested : ItemStore :=
  fun a _ => MenuItem.setSubMenu (Some (Pos.succ a)) 1 (MenuItem.ctor "Deeper" None).

(** A root whose first item asks for the window sequence, as
    [BuzzCallback] does. *)
Definition window_at_root : ItemStore :=
  store_of [(1%positive, [MenuItem.ctor "Buzz vol" (Some (CbTypeNum 1));
                          MenuItem.ctor "Other" None])].

(** Two items of different widths. *)
Definition two_widths : ItemStore :=
  store_of [(1%positive, [MenuItem.ctor "A" None;
                          MenuItem.ctor "Configuration settings" None])].

Definition start (st : ItemStore) (d : Tft.t) (size : Z) (m : SliderDisplayMode)
  : MenuSystem :=
  boot (raw st) d [] (Some 1%positive) size m.

(** [main.cpp] after one step down: "Setting" is selected. *)
Definition at_setting : MenuSystem :=
  selectNext (start main_menu tft240x320 2 SLIDER_DISPLAY_FOLLOW_SELECTION).

(** The chain of menus entered nine times. *)
Definition nine_deep : MenuSystem :=
  Nat.iter 9 select (start nested tft240x320 1 SLIDER_DISPLAY_FOLLOW_SELECTION).

(** Three items, the last one wide, on the panel with room for two rows:
    the second step down scrolls the viewport. *)
Definition three_widths : ItemStore :=
  store_of [(1%positive, [MenuItem.ctor "A" None; MenuItem.ctor "B" None;
                          MenuItem.ctor "Configuration settings" None])].
Definition scrolled : MenuSystem :=
  run [OpSelectNext; OpSelectNext]
    (start three_widths tft128x80 3 SLIDER_DISPLAY_FOLLOW_SELECTION).

(** Follow-selection mode, one step down between two items of different
    widths: a tween toward a wider rectangle one row lower is armed. *)
Definition tween_armed : MenuSystem :=
  selectNext (start two_widths tft240x320 2 SLIDER_DISPLAY_FOLLOW_SELECTION).

(** The same step in fixed-top mode: a snap. *)
Definition fixed_two : MenuSystem :=
  start two_widths tft240x320 2 SLIDER_DISPLAY_FIXED_TOP.
Definition snapped : MenuSystem := selectNext fixed_two.

(** The spring model selected. *)
Definition spring : MenuSystem :=
  setSliderAnimationForm 2 (start plain3 tft240x320 3 SLIDER_DISPLAY_FOLLOW_SELECTION).

(** The spring model, a tween armed, one tick 20 ms later, then a switch
    of the display mode while the slider is still moving. *)
Definition spring_interrupted : MenuSystem :=
  run [OpSelectNext; OpUpdate 20;
       OpSetSliderDisplayMode SLIDER_DISPLAY_FOLLOW_SELECTION] spring.

(** One level down the chain of menus: the tween armed by the descent
    starts on its target. *)
Definition settled_tween : MenuSystem :=
  set_clock 20 (select (start nested tft240x320 1 SLIDER_DISPLAY_FOLLOW_SELECTION)).

(** A panel 50 rows high holding a menu of twenty items: one visible
    row and a track of eight rows. *)
Definition short_track : MenuSystem :=
  start plain3 (panel 128 50) 20 SLIDER_DISPLAY_FOLLOW_SELECTION.

(** Three items on the panel with room for two. *)
Definition three_on_two : MenuSystem :=
  start plain3 tft128x80 3 SLIDER_DISPLAY_FOLLOW_SELECTION.

(** The object as constructed on the panel too short for a row. *)
Definition constructed_short : MenuSystem :=
  MenuSystem_ctor (raw plain3) tft128x32 [].

(** The time step of a tick made 20 ms after the previous one. *)
Definition dt20 : float := tickDeltaTime 20 15.

(** The window sequence requested from the root menu. *)
Definition window_open : MenuSystem :=
  select (start window_at_root tft240x320 2 SLIDER_DISPLAY_FOLLOW_SELECTION).

End Fixture.

(** * The device libraries: Buzzer and KeyLib

    [lib/TFT_Menu/Buzzer.cpp] and [lib/KeyLib/KeyLib.cpp] talk to the
    Arduino core only.  The core calls a function makes are returned as a
    list of events, oldest first; the clock and the pin levels the key
    library reads are a [Board].  On the ESP32 this code is written for,
    [int], [unsigned int] and [unsigned long] are 32 bits wide. *)

Definition to_i32 (z : Z) : Z := (z + 2147483648) mod 4294967296 - 2147483648.

(** Conversion of a [float] to [unsigned int]: truncation toward zero.
    Values outside the range are undefined in ISO C++; the conversion is
    written as saturating, NaN giving 0. *)
Definition float_to_uint (x : float) : Z :=
  match x with
  | S754_zero _ => 0
  | S754_nan => 0
  | S754_infinity s => if s then 0 else 4294967295
  | S754_finite s m e =>
      let a := if 0 <=? e then Z.shiftl (Zpos m) e
               else Z.shiftr (Zpos m) (- e) in
      Z.max 0 (Z.min 4294967295 (cond_Zopp s a))
  end.

Module Hw.

Inductive PinMode : Type := OUTPUT | INPUT_PULLUP.

Inductive Event : Type :=
| EvPinMode (pin : Z) (m : PinMode)
| EvAnalogWrite (pin value : Z)
| EvTone (pin frequency : Z)
| EvNoTone (pin : Z)
| EvDigitalWrite (pin : Z) (high : bool)
| EvDelay (ms : Z)
| EvDelayMicroseconds (us : Z).

(** [map(x, in_min, in_max, out_min, out_max)] of the Arduino core, for a
    range that is not empty. *)
Definition map (x in_min in_max out_min out_max : Z) : Z :=
  Z.quot ((x - in_min) * (out_max - out_min)) (in_max - in_min) + out_min.

(** The time a list of events blocks the caller, in microseconds. *)
Definition busy_us (ev : list Event) : Z :=
  fold_right (fun e acc => match e with
                           | EvDelay ms => 1000 * ms + acc
                           | EvDelayMicroseconds us => us + acc
                           | _ => acc
                           end) 0 ev.

(** Whether the buzzer pin is left driven after the events: a tone still
    running, or the pin left high. *)
Definition sounding (pin : Z) (ev : list Event) : bool :=
  fold_left (fun on e => match e with
                         | EvTone p _ => if p =? pin then true else on
                         | EvNoTone p => if p =? pin then false else on
                         | EvDigitalWrite p high => if p =? pin then high else on
                         | _ => on
                         end) ev false.

(** The frequencies of the tones started, in order. *)
Definition tones (ev : list Event) : list Z :=
  flat_map (fun e => match e with EvTone _ f => [f] | _ => [] end) ev.

(** The values written to a PWM pin, in order. *)
Definition pwm_values (pin : Z) (ev : list Event) : list Z :=
  flat_map (fun e => match e with
                     | EvAnalogWrite p v => if p =? pin then [v] else []
                     | _ => []
                     end) ev.

End Hw.

(** A loop whose body can fail (a division by zero, a read past an array):
    the events of the passes in order, or nothing. *)
Fixpoint for_each {A : Type} (body : A -> option (list Hw.Event)) (l : list A)
  : option (list Hw.Event) :=
  match l with
  | [] => Some []
  | x :: l' =>
      match body x with
      | None => None
      | Some e =>
          match for_each body l' with
          | None => None
          | Some e' => Some (e ++ e')
          end
      end
  end.

(** ** Buzzer.cpp *)

Module Buzzer.

Record t : Type := mk {
  _pin : Z;               (* uint8_t *)
  _volumePin : Z;         (* int8_t, negative: no volume pin *)
  _volumeLevel : Z;       (* uint8_t *)
  _isActive : bool
}.

(** [Buzzer::Buzzer(pin, volumePin)] *)
Definition ctor (pin volumePin : Z) : t :=
  mk (to_u8 pin) (to_i8 volumePin) 10 false.

(** [Buzzer::stop] *)
Definition stop (b : t) : t * list Hw.Event :=
  (mk (_pin b) (_volumePin b) (_volumeLevel b) false,
   Hw.EvNoTone (_pin b)
   :: (if 0 <=? _volumePin b then [Hw.EvAnalogWrite (_volumePin b) 0] else [])).

(** [Buzzer::begin] *)
Definition begin (b : t) : t * list Hw.Event :=
  let ev := Hw.EvPinMode (_pin b) Hw.OUTPUT
            :: (if 0 <=? _volumePin b
                then [Hw.EvPinMode (_volumePin b) Hw.OUTPUT] else []) in
  let '(b, ev') := stop b in
  (b, ev ++ ev').

(** [Buzzer::setVolume] and [Buzzer::getVolume] *)
Definition setVolume (level : Z) (b : t) : t :=
  mk (_pin b) (_volumePin b) (to_u8 (constrain (to_u8 level) 0 10)) (_isActive b).
Definition getVolume (b : t) : Z := _volumeLevel b.

(** [Buzzer::_applyVolume] *)
Definition _applyVolume (volume : Z) (b : t) : list Hw.Event :=
  if 0 <=? _volumePin b
  then [Hw.EvAnalogWrite (_volumePin b) (Hw.map volume 0 50 0 255)]
  else [].

(** One period of the software square wave. *)
Definition square_period (pin highMicros lowMicros : Z) : list Hw.Event :=
  [Hw.EvDigitalWrite pin true; Hw.EvDelayMicroseconds highMicros;
   Hw.EvDigitalWrite pin false; Hw.EvDelayMicroseconds lowMicros].

(** [Buzzer::_toneWithVolume].  The two divisions are unsigned; a zero
    divisor leaves the call without a result. *)
Definition _toneWithVolume (pin frequency duration volume : Z)
  : option (list Hw.Event) :=
  let dutyCycle := Hw.map volume 0 50 0 100 in
  if frequency =? 0 then None
  else
    let periodMicros := Z.quot 1000000 frequency in
    let highMicros := Z.quot (to_u32 (periodMicros * dutyCycle)) 100 in
    let lowMicros := to_u32 (periodMicros - highMicros) in
    if periodMicros =? 0 then None
    else
      let cycles := Z.quot (to_u32 (duration * 1000)) periodMicros in
      Some (concat (repeat (square_period pin highMicros lowMicros)
                           (Z.to_nat cycles))).

(** [uint8_t volumeToUse = (volume >= 0) ? volume : _volumeLevel] for the
    [int8_t] parameter [volume]. *)
Definition volumeToUse (volume : Z) (b : t) : Z :=
  if 0 <=? to_i8 volume then to_u8 (to_i8 volume) else _volumeLevel b.

(** [Buzzer::beep] *)
Definition beep (duration frequency volume : Z) (b : t) : option (list Hw.Event) :=
  let duration := to_u32 duration in
  let frequency := to_u32 frequency in
  let v := volumeToUse volume b in
  if v =? 0 then Some [Hw.EvDelay duration]
  else if 0 <=? _volumePin b then
    Some (_applyVolume v b
          ++ [Hw.EvTone (_pin b) frequency; Hw.EvDelay duration; Hw.EvNoTone (_pin b)])
  else _toneWithVolume (_pin b) frequency duration v.

(** [Buzzer::longBeep] *)
Definition longBeep (duration frequency volume : Z) (b : t) : option (list Hw.Event) :=
  let duration := to_u32 duration in
  let frequency := to_u32 frequency in
  let v := volumeToUse volume b in
  if v =? 0 then Some [Hw.EvDelay duration]
  else if 0 <=? _volumePin b then
    Some (_applyVolume v b
          ++ [Hw.EvTone (_pin b) frequency; Hw.EvDelay duration; Hw.EvNoTone (_pin b)])
  else _toneWithVolume (_pin b) frequency duration v.

(** The frequency of pass [i] of [sweepTone]:
    [startFreq + (i * freqStep)] converted back to [unsigned int]. *)
Definition sweepFrequency (startFreq : Z) (freqStep : float) (i : Z) : Z :=
  float_to_uint (F32.add (F32.of_Z startFreq) (F32.mul (F32.of_Z i) freqStep)).

(** [Buzzer::sweepTone] *)
Definition sweepTone (duration startFreq endFreq steps volume : Z) (b : t)
  : option (list Hw.Event) :=
  let duration := to_u32 duration in
  let startFreq := to_u32 startFreq in
  let endFreq := to_u32 endFreq in
  let steps := to_u32 steps in
  let v := volumeToUse volume b in
  if v =? 0 then Some [Hw.EvDelay duration]
  else if steps =? 0 then None
  else
    let stepDuration := Z.quot duration steps in
    let freqStep := F32.div (F32.of_Z (to_u32 (endFreq - startFreq))) (F32.of_Z steps) in
    match
      for_each
        (fun i =>
           let currentFreq := sweepFrequency startFreq freqStep i in
           if 0 <=? _volumePin b then
             Some (_applyVolume v b
                   ++ [Hw.EvTone (_pin b) currentFreq; Hw.EvDelay stepDuration])
           else _toneWithVolume (_pin b) currentFreq stepDuration v)
        (seqZ 0 steps)
    with
    | None => None
    | Some ev =>
        Some (ev ++ (if 0 <=? _volumePin b then [Hw.EvNoTone (_pin b)] else []))
    end.

(** [Buzzer::playMelody].  The two arrays are lists; a read past the end of
    one leaves the call without a result. *)
Definition playMelody (melody durations : list Z) (length volume : Z) (b : t)
  : option (list Hw.Event) :=
  let length := to_u32 length in
  let v := volumeToUse volume b in
  if v =? 0 then
    match
      fold_left (fun acc i =>
                   match acc, durations !! Z.to_nat i with
                   | Some total, Some d => Some (to_u32 (total + (to_u32 (d + 50))))
                   | _, _ => None
                   end) (seqZ 0 length) (Some 0)
    with
    | Some totalDuration => Some [Hw.EvDelay totalDuration]
    | None => None
    end
  else
    for_each
      (fun i =>
         match melody !! Z.to_nat i, durations !! Z.to_nat i with
         | Some m, Some d =>
             match
               if 0 <=? _volumePin b then
                 Some (_applyVolume v b
                       ++ [Hw.EvTone (_pin b) m; Hw.EvDelay d; Hw.EvNoTone (_pin b)])
               else _toneWithVolume (_pin b) m d v
             with
             | Some ev => Some (ev ++ [Hw.EvDelay 50])
             | None => None
             end
         | _, _ => None
         end)
      (seqZ 0 length).

(** The volume of pass [i] of [fadeVolume]:
    [startVolume + (i * volumeStep)] converted to [uint8_t]. *)
Definition fadeLevel (startVolume endVolume i : Z) : Z :=
  let volumeStep := F32.div (F32.of_Z (endVolume - startVolume)) (F32.of_Z 5) in
  to_u8 (Fp.to_int (F32.add (F32.of_Z startVolume) (F32.mul (F32.of_Z i) volumeStep))).

(** [Buzzer::fadeVolume] *)
Definition fadeVolume (duration startVolume endVolume frequency : Z) (b : t)
  : option (list Hw.Event) :=
  let duration := to_u32 duration in
  let frequency := to_u32 frequency in
  let startVolume := to_u8 (constrain (to_u8 startVolume) 0 50) in
  let endVolume := to_u8 (constrain (to_u8 endVolume) 0 50) in
  let steps := 5 in
  let stepDuration := Z.quot duration steps in
  match
    for_each
      (fun i =>
         let currentVolume := fadeLevel startVolume endVolume i in
         if 0 <=? _volumePin b then
           Some (_applyVolume currentVolume b
                 ++ [Hw.EvTone (_pin b) frequency; Hw.EvDelay stepDuration])
         else _toneWithVolume (_pin b) frequency stepDuration currentVolume)
      (seqZ 0 steps)
  with
  | None => None
  | Some ev =>
      Some (ev ++ (if 0 <=? _volumePin b then [Hw.EvNoTone (_pin b)] else []))
  end.

(** The levels of a fade from [s] to [e]: the first one is [s], all lie
    between [s] and [e], each is at least as close to [e] as the one
    before, and a rising fade stays below [e]. *)
Definition fade_levels_ok (s e : Z) : bool :=
  (fadeLevel s e 0 =? s)
  && forallb (fun i =>
                let l := fadeLevel s e i in
                let l' := fadeLevel s e (i + 1) in
                (Z.min s e <=? l) && (l <=? Z.max s e)
                && ((e <=? s) || (l <? e))
                && ((4 <=? i) || (if s <=? e then l <=? l' else l' <=? l)))
             (seqZ 0 5).

(** One pass of a loop that plays through the volume pin. *)
Definition pass (b : t) (v frequency ms : Z) : list Hw.Event :=
  _applyVolume v b ++ [Hw.EvTone (_pin b) frequency; Hw.EvDelay ms].

(** One note of a melody played through the volume pin, and the pause
    after it. *)
Definition note (b : t) (v frequency ms : Z) : list Hw.Event :=
  (_applyVolume v b
   ++ [Hw.EvTone (_pin b) frequency; Hw.EvDelay ms; Hw.EvNoTone (_pin b)])
  ++ [Hw.EvDelay 50].

(** The time a melody of [n] notes takes, in milliseconds: each note and
    the pause of 50 ms after it. *)
Definition melody_ms (durations : list Z) (n : nat) : Z :=
  fold_right (fun d acc => d + 50 + acc) 0 (firstn n durations).

(** The object as its constructor and [setVolume] leave it: the members
    within their types, the stored volume at most 10. *)
Definition well_formed (b : t) : Prop :=
  0 <= _pin b <= 255 /\ -128 <= _volumePin b <= 127 /\ 0 <= _volumeLevel b <= 10.

End Buzzer.

(** [MenuSystem::buzzer_begin], on the buzzer the menu points to. *)
Definition buzzer_begin (s : MenuSystem) (b : Buzzer.t) : Buzzer.t * list Hw.Event :=
  let '(b, ev) := Buzzer.begin b in
  (Buzzer.setVolume (buzz_vol s) b, ev).

(** A tone of the menu's log played on a buzzer. *)
Definition play (t : Tone) (b : Buzzer.t) : option (list Hw.Event) :=
  match t with
  | Beep duration frequency volume => Buzzer.beep duration frequency volume b
  | LongBeep duration frequency volume => Buzzer.longBeep duration frequency volume b
  end.

(** ** KeyLib.cpp *)

(** What the key library reads from the board: the millisecond clock and
    the pin levels; the pin modes it sets are logged.  Time passes between
    calls, not inside one. *)
Module Board.

Record t : Type := mk {
  clock : Z;
  level : Z -> bool;                       (* true: HIGH *)
  modes : list (Z * Hw.PinMode)
}.

Definition millis (b : t) : Z := to_u32 (clock b).
Definition digitalRead (pin : Z) (b : t) : bool := level b pin.
Definition pinMode (pin : Z) (m : Hw.PinMode) (b : t) : t :=
  mk (clock b) (level b) (modes b ++ [(pin, m)]).

End Board.

Module KeyLib.

Record KeyState : Type := mkKeyState {
  lastState : bool;
  currentState : bool;
  lastDebounceTime : Z;        (* unsigned long *)
  lastPressTime : Z;           (* unsigned long *)
  lastReleaseTime : Z;         (* unsigned long *)
  pressHandled : bool;
  singlePressDetected : bool;
  pressCount : Z               (* int *)
}.

Definition MAX_KEYS : Z := 10.

Record t : Type := mk {
  keyStates : list KeyState;   (* KeyState keyStates[MAX_KEYS] *)
  keyCount : Z;                (* int *)
  debounceDelay : Z            (* unsigned long *)
}.

Definition released : KeyState := mkKeyState false false 0 0 0 false false 0.

Definition set_keyStates (v : list KeyState) (k : t) : t :=
  mk v (keyCount k) (debounceDelay k).

(** [KeyLib::KeyLib(debounceTime)]; [raw] is the object's storage before
    the constructor runs. *)
Definition ctor (debounceTime : Z) (raw : t) : t :=
  mk (fold_left (fun ks i => arr_set ks i released) (seqZ 0 MAX_KEYS) (keyStates raw))
     0 (to_u32 debounceTime).

(** [KeyLib::getKeyIndex] *)
Definition getKeyIndex (pin : Z) (k : t) (b : Board.t) : Z * t * Board.t :=
  let pin := to_u8 pin in
  match find (fun i => i =? pin) (seqZ 0 (keyCount k)) with
  | Some i => (i, k, b)
  | None =>
      if keyCount k <? MAX_KEYS then
        let b := Board.pinMode pin Hw.INPUT_PULLUP b in
        let index := keyCount k in
        (index, mk (keyStates k) (to_i32 (keyCount k + 1)) (debounceDelay k), b)
      else (0, k, b)
  end.

(** The body of [KeyLib::updateKeyState] on the slot it was given, for the
    level read and the time. *)
Definition debounce (debounceDelay now : Z) (reading : bool) (state : KeyState)
  : KeyState :=
  let state :=
    if negb (Bool.eqb reading (lastState state))
    then mkKeyState (lastState state) (currentState state) now
           (lastPressTime state) (lastReleaseTime state) (pressHandled state)
           (singlePressDetected state) (pressCount state)
    else state in
  let state :=
    if debounceDelay <? to_u32 (now - lastDebounceTime state) then
      if negb (Bool.eqb reading (currentState state)) then
        if reading then
          (* pressed *)
          mkKeyState (lastState state) reading (lastDebounceTime state)
            now (lastReleaseTime state) false
            (singlePressDetected state) (to_i32 (pressCount state + 1))
        else
          (* released *)
          mkKeyState (lastState state) reading (lastDebounceTime state)
            (lastPressTime state) now (pressHandled state)
            (if negb (pressHandled state) then true else singlePressDetected state)
            (pressCount state)
      else state
    else state in
  mkKeyState reading (currentState state) (lastDebounceTime state)
    (lastPressTime state) (lastReleaseTime state) (pressHandled state)
    (singlePressDetected state) (pressCount state).

(** [KeyLib::updateKeyState] *)
Definition updateKeyState (pin : Z) (k : t) (b : Board.t) : t * Board.t :=
  let pin := to_u8 pin in
  let '(index, k, b) := getKeyIndex pin k b in
  let state := arr_get released (keyStates k) index in
  (* LOW is pressed: the pin is pulled up *)
  let reading := negb (Board.digitalRead pin b) in
  let state := debounce (debounceDelay k) (Board.millis b) reading state in
  (set_keyStates (arr_set (keyStates k) index state) k, b).

(** [KeyLib::singlePress] *)
Definition singlePress (pin : Z) (k : t) (b : Board.t) : bool * t * Board.t :=
  let pin := to_u8 pin in
  let '(k, b) := updateKeyState pin k b in
  let '(index, k, b) := getKeyIndex pin k b in
  let state := arr_get released (keyStates k) index in
  if singlePressDetected state then
    let state := mkKeyState (lastState state) (currentState state)
                   (lastDebounceTime state) (lastPressTime state)
                   (lastReleaseTime state) true false (pressCount state) in
    (true, set_keyStates (arr_set (keyStates k) index state) k, b)
  else (false, k, b).

(** [KeyLib::doublePress] *)
Definition doublePress (pin doublePressTime : Z) (k : t) (b : Board.t)
  : bool * t * Board.t :=
  let pin := to_u8 pin in
  let doublePressTime := to_u32 doublePressTime in
  let '(k, b) := updateKeyState pin k b in
  let '(index, k, b) := getKeyIndex pin k b in
  let state := arr_get released (keyStates k) index in
  if 2 <=? pressCount state then
    let timeBetweenPresses := to_u32 (lastPressTime state - lastReleaseTime state) in
    if timeBetweenPresses <=? doublePressTime then
      let state := mkKeyState (lastState state) (currentState state)
                     (lastDebounceTime state) (lastPressTime state)
                     (lastReleaseTime state) true false 0 in
      (true, set_keyStates (arr_set (keyStates k) index state) k, b)
    else if doublePressTime <? to_u32 (Board.millis b - lastPressTime state) then
      let state := mkKeyState (lastState state) (currentState state)
                     (lastDebounceTime state) (lastPressTime state)
                     (lastReleaseTime state) (pressHandled state)
                     (singlePressDetected state) 0 in
      (false, set_keyStates (arr_set (keyStates k) index state) k, b)
    else (false, k, b)
  else (false, k, b).

(** [KeyLib::longPress] *)
Definition longPress (pin longPressTime : Z) (k : t) (b : Board.t)
  : bool * t * Board.t :=
  let pin := to_u8 pin in
  let longPressTime := to_u32 longPressTime in
  let '(k, b) := updateKeyState pin k b in
  let '(index, k, b) := getKeyIndex pin k b in
  let state := arr_get released (keyStates k) index in
  if currentState state && negb (pressHandled state) then
    if longPressTime <=? to_u32 (Board.millis b - lastPressTime state) then
      let state := mkKeyState (lastState state) (currentState state)
                     (lastDebounceTime state) (lastPressTime state)
                     (lastReleaseTime state) true false (pressCount state) in
      (true, set_keyStates (arr_set (keyStates k) index state) k, b)
    else (false, k, b)
  else (false, k, b).

(** *** Runs of the key library *)

Inductive Poll : Type :=
| SinglePress (pin : Z)
| DoublePress (pin doublePressTime : Z)
| LongPress (pin longPressTime : Z).

Definition poll (p : Poll) (k : t) (b : Board.t) : bool * t * Board.t :=
  match p with
  | SinglePress pin => singlePress pin k b
  | DoublePress pin doublePressTime => doublePress pin doublePressTime k b
  | LongPress pin longPressTime => longPress pin longPressTime k b
  end.

(** One thing that happens: a call of the library, or the world moving on
    to another time and other pin levels. *)
Inductive Happening : Type :=
| Polled (p : Poll)
| World (clock : Z) (level : Z -> bool).

Definition happen (st : t * Board.t) (h : Happening) : t * Board.t :=
  let '(k, b) := st in
  match h with
  | Polled p => let '(_, k, b) := poll p k b in (k, b)
  | World clock level => (k, Board.mk clock level (Board.modes b))
  end.

Definition run (hs : list Happening) (st : t * Board.t) : t * Board.t :=
  fold_left happen hs st.

(** The table as the types and the constructor leave it: ten slots, a
    count between 0 and [MAX_KEYS]. *)
Definition table_ok (k : t) : Prop :=
  length (keyStates k) = 10%nat /\ 0 <= keyCount k <= MAX_KEYS.

(** The slot a pin resolves to once lookups no longer allocate. *)
Definition slot (k : t) (pin : Z) : Z :=
  if to_u8 pin <? keyCount k then to_u8 pin else 0.

(** Lookups of [pin] no longer allocate: the pin number is below the
    count, or the table is full. *)
Definition settled (k : t) (pin : Z) : Prop :=
  to_u8 pin < keyCount k \/ keyCount k = MAX_KEYS.

(** The state of the slot of [pin], and the table with that slot
    rewritten. *)
Definition key (k : t) (pin : Z) : KeyState :=
  arr_get released (keyStates k) (slot k pin).
Definition put (k : t) (pin : Z) (st : KeyState) : t :=
  set_keyStates (arr_set (keyStates k) (slot k pin) st) k.

(** The slot of [pin] after the update at the head of every poll. *)
Definition sampled (pin : Z) (k : t) (b : Board.t) : KeyState :=
  debounce (debounceDelay k) (Board.millis b)
    (negb (Board.digitalRead (to_u8 pin) b)) (key k pin).

(** The level of a pin on a board: the button on an [INPUT_PULLUP] pin is
    down when the pin reads LOW. *)
Definition down (pin : Z) (b : Board.t) : bool :=
  negb (Board.digitalRead (to_u8 pin) b).

(** The slot as a poll leaves it when it answers true. *)
Definition answered (st : KeyState) (count : Z) : KeyState :=
  mkKeyState (lastState st) (currentState st) (lastDebounceTime st)
    (lastPressTime st) (lastReleaseTime st) true false count.

(** A slot with no click waiting whose press, if one is in progress, has
    been handled. *)
Definition no_click_due (st : KeyState) : Prop :=
  singlePressDetected st = false
  /\ (currentState st = true -> pressHandled st = true).

(** [singlePress(pin)] polled once on each board of a list, in order: the
    answers. *)
Fixpoint singlePresses (pin : Z) (bs : list Board.t) (k : t) : list bool :=
  match bs with
  | [] => []
  | b :: bs' =>
      let '(r, k, _) := singlePress pin k b in
      r :: singlePresses pin bs' k
  end.

End KeyLib.

(** * The rest of the menu's interface *)

(** ** Style setters *)

Definition setBackgroundColor (color : Z) (s : MenuSystem) : MenuSystem :=
  let y := style s in
  let s := set_style (mkStyle (to_u16 color) (menuBgColor y) (highlightColor y)
                        (textColor y) (selectedTextColor y) (titleColor y)
                        (borderColor y) (menuFontSize y) (titleFontSize y)) s in
  set_needFullRedraw true s.

Definition setMenuBgColor (color : Z) (s : MenuSystem) : MenuSystem :=
  let y := style s in
  let s := set_style (mkStyle (backgroundColor y) (to_u16 color) (highlightColor y)
                        (textColor y) (selectedTextColor y) (titleColor y)
                        (borderColor y) (menuFontSize y) (titleFontSize y)) s in
  set_needFullRedraw true s.

Definition setHighlightColor (color : Z) (s : MenuSystem) : MenuSystem :=
  let y := style s in
  let s := set_style (mkStyle (backgroundColor y) (menuBgColor y) (to_u16 color)
                        (textColor y) (selectedTextColor y) (titleColor y)
                        (borderColor y) (menuFontSize y) (titleFontSize y)) s in
  set_needFullRedraw true s.

Definition setTextColor (color : Z) (s : MenuSystem) : MenuSystem :=
  let y := style s in
  let s := set_style (mkStyle (backgroundColor y) (menuBgColor y) (highlightColor y)
                        (to_u16 color) (selectedTextColor y) (titleColor y)
                        (borderColor y) (menuFontSize y) (titleFontSize y)) s in
  set_needFullRedraw true s.

Definition setSelectedTextColor (color : Z) (s : MenuSystem) : MenuSystem :=
  let y := style s in
  let s := set_style (mkStyle (backgroundColor y) (menuBgColor y) (highlightColor y)
                        (textColor y) (to_u16 color) (titleColor y)
                        (borderColor y) (menuFontSize y) (titleFontSize y)) s in
  set_needFullRedraw true s.

Definition setTitleColor (color : Z) (s : MenuSystem) : MenuSystem :=
  let y := style s in
  let s := set_style (mkStyle (backgroundColor y) (menuBgColor y) (highlightColor y)
                        (textColor y) (selectedTextColor y) (to_u16 color)
                        (borderColor y) (menuFontSize y) (titleFontSize y)) s in
  set_needFullRedraw true s.

Definition setBorderColor (color : Z) (s : MenuSystem) : MenuSystem :=
  let y := style s in
  let s := set_style (mkStyle (backgroundColor y) (menuBgColor y) (highlightColor y)
                        (textColor y) (selectedTextColor y) (titleColor y)
                        (to_u16 color) (menuFontSize y) (titleFontSize y)) s in
  set_needFullRedraw true s.

(** ** Helpers the class keeps but no longer calls *)

(** [MenuSystem::updateRectInfo]: the rectangle written through [rect]. *)
Definition updateRectInfo (index : Z) (selected : bool) (rect : MenuItemRect.t)
    (s : MenuSystem) : MenuItemRect.t * MenuSystem :=
  let L := layout s in
  if currentMenuSize (pos s) <=? index then
    (MenuItemRect.mk (MenuItemRect.x rect) (MenuItemRect.y rect)
       (MenuItemRect.width rect) (MenuItemRect.height rect) false, s)
  else
    let itemY := menuItemsAreaY L
                 + (index - startIndex (pos s))
                   * (actualMenuItemHeight L + actualMenuItemSpacing L) in
    let '(itemW, s) := calculateItemWidth index s in
    (MenuItemRect.mk (menuItemsXOffset L - menuItemBorderOffset L)
       (itemY - menuItemBorderOffset L)
       (itemW + 2 * menuItemBorderOffset L)
       (actualMenuItemHeight L + 2 * menuItemBorderOffset L) true, s).

(** [MenuSystem::clearMenuItem] *)
Definition clearMenuItem (x y width height : Z) (s : MenuSystem) : MenuSystem :=
  draw (FillRect x y width height (backgroundColor (style s))) s.

(** [MenuSystem::optimizeMemoryUsage] *)
Definition optimizeMemoryUsage (s : MenuSystem) : MenuSystem := s.

(** ** Every call a host can make *)

Inductive Call : Type :=
| CallSetRootMenu (menu : MenuPtr) (size : Z)
| CallSelectNext
| CallSelectPrev
| CallSelect
| CallBack
| CallUpdate (elapsed : Z)
| CallSetBackgroundColor (color : Z)
| CallSetMenuBgColor (color : Z)
| CallSetHighlightColor (color : Z)
| CallSetTextColor (color : Z)
| CallSetSelectedTextColor (color : Z)
| CallSetTitleColor (color : Z)
| CallSetBorderColor (color : Z)
| CallSetMenuFontSize (size : Z)
| CallSetTitleFontSize (size : Z)
| CallDrawMenu (forceRedraw : bool)
| CallSetSliderDisplayMode (m : SliderDisplayMode)
| CallSetCustomSliderTarget (x y width height : Z)
| CallSetSliderAnimationForm (form : Z)
| CallSetSliderAnimationDuration (duration : Z)
| CallSetSliderAnimationInterval (interval : Z).

(** One call; [CallUpdate ms] is [update()] made [ms] milliseconds after
    the previous call.  Arguments are converted to the parameter types. *)
Definition call (s : MenuSystem) (c : Call) : MenuSystem :=
  match c with
  | CallSetRootMenu menu size => setRootMenu menu size s
  | CallSelectNext => selectNext s
  | CallSelectPrev => selectPrev s
  | CallSelect => select s
  | CallBack => back s
  | CallUpdate elapsed => update (set_clock (clock s + elapsed) s)
  | CallSetBackgroundColor color => setBackgroundColor color s
  | CallSetMenuBgColor color => setMenuBgColor color s
  | CallSetHighlightColor color => setHighlightColor color s
  | CallSetTextColor color => setTextColor color s
  | CallSetSelectedTextColor color => setSelectedTextColor color s
  | CallSetTitleColor color => setTitleColor color s
  | CallSetBorderColor color => setBorderColor color s
  | CallSetMenuFontSize size => setMenuFontSize (to_u8 size) s
  | CallSetTitleFontSize size => setTitleFontSize (to_u8 size) s
  | CallDrawMenu forceRedraw => drawMenu forceRedraw s
  | CallSetSliderDisplayMode m => setSliderDisplayMode m s
  | CallSetCustomSliderTarget x y width height =>
      setCustomSliderTarget x y width height s
  | CallSetSliderAnimationForm form => setSliderAnimationForm (to_u8 form) s
  | CallSetSliderAnimationDuration duration => setSliderAnimationDuration duration s
  | CallSetSliderAnimationInterval interval => setSliderAnimationInterval interval s
  end.

Definition calls (cs : list Call) (s : MenuSystem) : MenuSystem := fold_left call cs s.

(** ** A bench for the two device libraries

    The wiring of [src/main.cpp]: the button on pin 16 with a debounce time
    of 50 ms, the buzzer on pin 32 with its volume on pin 25. *)
Module Bench.

Definition BTN_SELECT : Z := 16.
Definition BUZZ_PIN : Z := 32.
Definition BUZZ_VPIN : Z := 25.

(** Storage holding leftovers before the constructor runs. *)
Definition raw_keys : KeyLib.t :=
  KeyLib.mk (repeat (KeyLib.mkKeyState true true 7 7 7 true true 7) 10) 3 9.

Definition keyLib : KeyLib.t := KeyLib.ctor 50 raw_keys.

(** The board at a time, with the button up or held down. *)
Definition up (clock : Z) : Board.t := Board.mk clock (fun _ => true) [].
Definition held (clock : Z) : Board.t :=
  Board.mk clock (fun pin => negb (pin =? BTN_SELECT)) [].

Definition world (b : Board.t) : KeyLib.Happening :=
  KeyLib.World (Board.clock b) (Board.level b).

(** Five polls of the idle button: ten lookups, the table is full. *)
Definition warmed_up : KeyLib.t * Board.t :=
  KeyLib.run (repeat (KeyLib.Polled (KeyLib.LongPress BTN_SELECT 700)) 5)
    (keyLib, up 0).

(** The button went down at 100 ms and up at 300 ms, seen by polls of
    [longPress] every 100 ms: a click waits in the slot. *)
Definition click_waiting : KeyLib.t * Board.t :=
  KeyLib.run [world (held 100); KeyLib.Polled (KeyLib.LongPress BTN_SELECT 700);
              world (held 200); KeyLib.Polled (KeyLib.LongPress BTN_SELECT 700);
              world (up 300); KeyLib.Polled (KeyLib.LongPress BTN_SELECT 700);
              world (up 400); KeyLib.Polled (KeyLib.LongPress BTN_SELECT 700)]
    warmed_up.

(** The button went down at 100 ms and is still down at 900 ms. *)
Definition held_long : KeyLib.t * Board.t :=
  KeyLib.run [world (held 100); KeyLib.Polled (KeyLib.SinglePress BTN_SELECT);
              world (held 200); KeyLib.Polled (KeyLib.SinglePress BTN_SELECT);
              world (held 900)]
    warmed_up.

(** Two presses, at 100 ms and at 500 ms, the first released at 300 ms;
    the second press is accepted by the next poll, at 600 ms. *)
Definition pressed_twice : KeyLib.t * Board.t :=
  KeyLib.run [world (held 100); KeyLib.Polled (KeyLib.SinglePress BTN_SELECT);
              world (held 200); KeyLib.Polled (KeyLib.SinglePress BTN_SELECT);
              world (up 300); KeyLib.Polled (KeyLib.LongPress BTN_SELECT 700);
              world (up 400); KeyLib.Polled (KeyLib.LongPress BTN_SELECT 700);
              world (held 500); KeyLib.Polled (KeyLib.LongPress BTN_SELECT 700);
              world (held 600)]
    warmed_up.

Definition buzzer : Buzzer.t := Buzzer.ctor BUZZ_PIN BUZZ_VPIN.
(** The same buzzer wired without a volume pin. *)
Definition plain_buzzer : Buzzer.t := Buzzer.ctor BUZZ_PIN (-1).

End Bench.

(** ** What the calls leave alone *)

(** The two sounds of the menu at a volume: the key tone and the return
    tone. *)
Definition menu_tone (vol : Z) (t : Tone) : Prop :=
  t = Beep 20 1000 vol \/ t = LongBeep 100 1000 vol.

(** Input is banned and no window sequence is active. *)
Definition frozen (s : MenuSystem) : Prop :=
  BanOperation (slider s) = true /\ type (slider s) = false.

(** The animation form is one of the two the class implements. *)
Definition form_ok (s : MenuSystem) : Prop :=
  _animationForm (slider s) = 1 \/ _animationForm (slider s) = 2.

(** What one step does to the parts a host cannot set directly: the
    volume and the item storage stay, the tone log grows by menu tones and
    the animation form stays one of the two. *)
Record tone_effect (s s' : MenuSystem) : Prop := mk_tone_effect {
  te_buzz_vol : buzz_vol s' = buzz_vol s;
  te_items : items s' = items s;
  te_tones : exists l, buzzer s' = buzzer s ++ l /\ Forall (menu_tone (buzz_vol s)) l;
  te_form : form_ok s -> form_ok s'
}.

(** The same for a whole call, which also leaves a frozen menu frozen. *)
Definition call_effect (s s' : MenuSystem) : Prop :=
  tone_effect s s' /\ (frozen s -> frozen s').

(** The texts printed on the display, in order. *)
Definition printed (d : Tft.t) : list string :=
  flat_map (fun c => match c with Print text => [text] | _ => [] end) (Tft.screen d).

(** The title [drawTitle] shows: "Root Menu" at the root, below it the
    label of the entry the current menu was opened from. *)
Definition currentTitle (s : MenuSystem) : string :=
  let p := pos s in
  if menuLevel p =? 0 then "Root Menu"%string
  else MenuItem.getLabel
         (item_at s (arr_get None (menuHistory p) (menuLevel p - 1))
            (arr_get 0 (selectedIndexHistory p) (menuLevel p - 1))).

(** The rows [drawMenuItems] goes through: from [startIndex] to the end of
    the viewport or of the menu. *)
Definition visibleRows (s : MenuSystem) : list Z :=
  let p := pos s in
  let maxItemsToDraw := to_u8 (startIndex p + actualMaxDisplayItems (layout s)) in
  let endIndex := if maxItemsToDraw <? currentMenuSize p then maxItemsToDraw
                  else currentMenuSize p in
  seqZ (startIndex p) (endIndex - startIndex p).

(** ** The sketch of [src/main.cpp] *)
Module Sketch.

(** The six item arrays, by address: main, settings, animation, layout,
    form and parameters, with the submenus [setup()] attaches. *)
Definition menus : list (positive * list MenuItem.t) :=
  [(1%positive,
    [MenuItem.ctor "Main" None;
     MenuItem.setSubMenu (Some 2%positive) 3 (MenuItem.ctor "Setting" None)]);
   (2%positive,
    [MenuItem.setSubMenu (Some 3%positive) 4 (MenuItem.ctor "Animation" None);
     MenuItem.ctor "Buzz vol" (Some (CbTypeNum 1));
     MenuItem.ctor "Back" (Some CbBack)]);
   (3%positive,
    [MenuItem.setSubMenu (Some 5%positive) 3 (MenuItem.ctor "Form" None);
     MenuItem.setSubMenu (Some 6%positive) 3 (MenuItem.ctor "Para" None);
     MenuItem.setSubMenu (Some 4%positive) 3 (MenuItem.ctor "Layout" None);
     MenuItem.ctor "Back" (Some CbBack)]);
   (4%positive,
    [MenuItem.ctor "Landscape" (Some (CbRotate 1));
     MenuItem.ctor "Portrait" (Some (CbRotate 2));
     MenuItem.ctor "Back" (Some CbBack)]);
   (5%positive,
    [MenuItem.ctor "Stable" (Some (CbAnimationForm 1));
     MenuItem.ctor "Bounce" (Some (CbAnimationForm 2));
     MenuItem.ctor "Back" (Some CbBack)]);
   (6%positive,
    [MenuItem.ctor "Delay Time" (Some (CbTypeNum 2));
     MenuItem.ctor "Step" (Some (CbTypeNum 2));
     MenuItem.ctor "Back" (Some CbBack)])].

Definition storage : ItemStore := Fixture.store_of menus.

(** The menu object after [setup()]. *)
Definition setup : MenuSystem :=
  calls [CallSetBackgroundColor TFT_BLACK; CallSetMenuBgColor TFT_BLACK;
         CallSetHighlightColor TFT_WHITE; CallSetTextColor TFT_WHITE;
         CallSetSelectedTextColor TFT_BLACK; CallSetTitleColor TFT_WHITE;
         CallSetBorderColor TFT_DARKGREY;
         CallSetRootMenu (Some 1%positive) 2;
         CallSetSliderDisplayMode SLIDER_DISPLAY_FOLLOW_SELECTION;
         CallDrawMenu false]
    (MenuSystem_ctor (Fixture.raw storage) Fixture.tft240x320 []).

(** Setting, Animation, Para: "Delay Time" is selected, three levels
    down. *)
Definition at_delay_time : MenuSystem :=
  calls [CallSelectNext; CallSelect; CallSelect; CallSelectNext; CallSelect] setup.

(** Setting, Animation, Layout: "Landscape" is selected. *)
Definition at_landscape : MenuSystem :=
  calls [CallSelectNext; CallSelect; CallSelect; CallSelectNext; CallSelectNext;
         CallSelect] setup.

End Sketch.
(** * Machine integer facts *)

Lemma to_u8_range z : 0 <= to_u8 z <= 255.
Proof. unfold to_u8. pose proof (Z.mod_pos_bound z 256). lia. Qed.

Lemma to_u8_id z : 0 <= z <= 255 -> to_u8 z = z.
Proof. intros H. unfold to_u8. apply Z.mod_small. lia. Qed.

(** * Frame properties

    Drawing and measuring touch only the display and the redraw snapshot;
    arming an animation and ticking it leave the control state of the menu
    alone: the position and its history, the layout, the display mode, the
    item storage, [TypeNum] and the flags and parameters of the
    animation. *)

Ltac sc_trivial := constructor; reflexivity.

Lemma draw_only_refl s : draw_only s s.
Proof. sc_trivial. Qed.

Lemma draw_only_trans s1 s2 s3 : draw_only s1 s2 -> draw_only s2 s3 -> draw_only s1 s3.
Proof. intros [] []; constructor; etransitivity; eassumption. Qed.

#[local] Instance draw_only_preorder : PreOrder draw_only.
Proof. split; [ exact draw_only_refl | exact draw_only_trans ]. Qed.

Lemma same_control_refl s : same_control s s.
Proof. sc_trivial. Qed.

Lemma same_control_trans s1 s2 s3 :
  same_control s1 s2 -> same_control s2 s3 -> same_control s1 s3.
Proof. intros [] []; constructor; etransitivity; eassumption. Qed.

#[local] Instance same_control_preorder : PreOrder same_control.
Proof. split; [ exact same_control_refl | exact same_control_trans ]. Qed.

Lemma draw_only_control s s' : draw_only s s' -> same_control s s'.
Proof. intros []; constructor; congruence. Qed.

Lemma draw_draw c s : draw_only s (draw c s).
Proof. sc_trivial. Qed.
Lemma setTextSize_draw n s : draw_only s (setTextSize n s).
Proof. sc_trivial. Qed.
Lemma set_needFullRedraw_draw v s : draw_only s (set_needFullRedraw v s).
Proof. sc_trivial. Qed.
Lemma set_lastSelectedIndex_draw v s : draw_only s (set_lastSelectedIndex v s).
Proof. sc_trivial. Qed.
Lemma set_lastStartIndex_draw v s : draw_only s (set_lastStartIndex v s).
Proof. sc_trivial. Qed.
Lemma set_lastTitle_draw v s : draw_only s (set_lastTitle v s).
Proof. sc_trivial. Qed.
Lemma set_lastSelectedRect_draw v s : draw_only s (set_lastSelectedRect v s).
Proof. sc_trivial. Qed.

Lemma calculateItemWidth_draw i s :
  draw_only s (snd (calculateItemWidth i s)).
Proof.
  unfold calculateItemWidth, calculateTextWidth.
  destruct (currentMenu (pos s)); [ | reflexivity ].
  destruct (currentMenuSize (pos s) <=? i); [ reflexivity | ].
  cbn. sc_trivial.
Qed.

Lemma calculateSliderTargetRect_draw i s :
  draw_only s (snd (calculateSliderTargetRect i s)).
Proof.
  unfold calculateSliderTargetRect.
  pose proof (calculateItemWidth_draw i s) as H.
  destruct (calculateItemWidth i s) as [w s1]; cbn in H.
  destruct (_sliderDisplayMode (mode s)); cbn; exact H.
Qed.

(** Destructs the pair returned by a measuring call and records that the
    returned state differs only in the display ([Hdo], and [Hsc] for the
    control state). *)
Ltac split_rect :=
  match goal with
  | |- context [calculateSliderTargetRect ?i ?s] =>
      let Hd := fresh "Hdo" in
      let H := fresh "Hsc" in
      let r := fresh "rect" in
      let s1 := fresh "s" in
      pose proof (calculateSliderTargetRect_draw i s) as Hd;
      destruct (calculateSliderTargetRect i s) as [r s1]; cbn [snd] in Hd;
      pose proof (draw_only_control _ _ Hd) as H
  | |- context [calculateItemWidth ?i ?s] =>
      let Hd := fresh "Hdo" in
      let H := fresh "Hsc" in
      let w := fresh "w" in
      let s1 := fresh "s" in
      pose proof (calculateItemWidth_draw i s) as Hd;
      destruct (calculateItemWidth i s) as [w s1]; cbn [snd] in Hd;
      pose proof (draw_only_control _ _ Hd) as H
  end.

Lemma drawMenuItem_draw i b s : draw_only s (drawMenuItem i b s).
Proof.
  unfold drawMenuItem.
  destruct (currentMenuSize (pos s) <=? i); [ reflexivity | ].
  destruct b; [ reflexivity | ].
  split_rect.
  match goal with |- context [if ?c then _ else _] => destruct c end;
    (etransitivity; [ exact Hdo | sc_trivial ]).
Qed.

Lemma drawAnimatedFrame_draw s : draw_only s (drawAnimatedFrame s).
Proof. sc_trivial. Qed.

Lemma drawAnimatedSlider_draw s : draw_only s (drawAnimatedSlider s).
Proof.
  unfold drawAnimatedSlider.
  destruct (currentMenuSize (pos s) =? 0); [ reflexivity | ].
  match goal with |- context [if ?c then _ else _] => destruct c end; sc_trivial.
Qed.

Lemma drawAnimatedWindow_draw s : draw_only s (drawAnimatedWindow s).
Proof.
  unfold drawAnimatedWindow.
  destruct (currentMenuSize (pos s) =? 0); [ reflexivity | sc_trivial ].
Qed.

Lemma drawScrollbar_draw s : draw_only s (drawScrollbar s).
Proof.
  unfold drawScrollbar.
  match goal with |- context [if ?c then _ else _] => destruct c end;
    [ reflexivity | sc_trivial ].
Qed.

Lemma drawTitle_draw a b s : draw_only s (drawTitle a b s).
Proof.
  unfold drawTitle.
  match goal with |- context [if ?c then set_lastTitle _ _ else _] => destruct c end;
    sc_trivial.
Qed.

Lemma drawRow_draw s i : draw_only s (drawRow s i).
Proof.
  unfold drawRow.
  destruct (negb (i =? selectedIndex (pos s))).
  - apply drawMenuItem_draw.
  - split_rect. etransitivity; [ exact Hdo | sc_trivial ].
Qed.

Lemma drawRows_draw l : forall s, draw_only s (fold_left drawRow l s).
Proof.
  induction l as [ | i l IH ]; intros s; cbn [fold_left].
  - reflexivity.
  - etransitivity; [ apply drawRow_draw | apply IH ].
Qed.

Lemma drawMenuItems_draw b s : draw_only s (drawMenuItems b s).
Proof.
  unfold drawMenuItems.
  destruct (animationActive (slider s) && negb b); [ reflexivity | ].
  etransitivity; [ | apply set_needFullRedraw_draw ].
  etransitivity; [ | apply set_lastSelectedIndex_draw ].
  destruct (needFullRedraw (flicker s) || b
            || negb (lastStartIndex (flicker s) =? startIndex (pos s))).
  - etransitivity; [ | apply set_lastStartIndex_draw ].
    etransitivity; [ | apply drawScrollbar_draw ].
    etransitivity; [ | apply drawRows_draw ].
    apply draw_draw.
  - destruct (negb (lastSelectedIndex (flicker s) =? selectedIndex (pos s)));
      [ | reflexivity ].
    match goal with
    | |- context [if ?c then drawMenuItem _ _ _ else _] => destruct c
    end;
      [ etransitivity; [ | apply drawMenuItem_draw ] | ];
      destruct (MenuItemRect.valid (lastSelectedRect (flicker s)));
      solve [ reflexivity | apply draw_draw ].
Qed.

Lemma drawMenu_draw b s : draw_only s (drawMenu b s).
Proof.
  unfold drawMenu.
  set (s1 := if b || needFullRedraw (flicker s) then _ else s).
  assert (H1 : draw_only s s1).
  { subst s1. destruct (b || needFullRedraw (flicker s)); [ sc_trivial | reflexivity ]. }
  etransitivity; [ exact H1 | ].
  etransitivity; [ apply drawTitle_draw | ].
  etransitivity; [ apply drawMenuItems_draw | ].
  match goal with |- context [if ?c then _ else _] => destruct c end;
    [ apply drawAnimatedSlider_draw | apply drawAnimatedWindow_draw ].
Qed.

(** The same steps as frame steps of the control state. *)

Lemma draw_control c s : same_control s (draw c s).
Proof. apply draw_only_control, draw_draw. Qed.
Lemma set_needFullRedraw_control v s : same_control s (set_needFullRedraw v s).
Proof. apply draw_only_control, set_needFullRedraw_draw. Qed.
Lemma set_lastSelectedIndex_control v s : same_control s (set_lastSelectedIndex v s).
Proof. apply draw_only_control, set_lastSelectedIndex_draw. Qed.
Lemma set_lastStartIndex_control v s : same_control s (set_lastStartIndex v s).
Proof. apply draw_only_control, set_lastStartIndex_draw. Qed.
Lemma set_lastTitle_control v s : same_control s (set_lastTitle v s).
Proof. apply draw_only_control, set_lastTitle_draw. Qed.
Lemma set_lastSelectedRect_control v s : same_control s (set_lastSelectedRect v s).
Proof. apply draw_only_control, set_lastSelectedRect_draw. Qed.
Lemma calculateSliderTargetRect_control i s :
  same_control s (snd (calculateSliderTargetRect i s)).
Proof. apply draw_only_control, calculateSliderTargetRect_draw. Qed.
Lemma drawMenuItem_control i b s : same_control s (drawMenuItem i b s).
Proof. apply draw_only_control, drawMenuItem_draw. Qed.
Lemma drawAnimatedSlider_control s : same_control s (drawAnimatedSlider s).
Proof. apply draw_only_control, drawAnimatedSlider_draw. Qed.
Lemma drawAnimatedWindow_control s : same_control s (drawAnimatedWindow s).
Proof. apply draw_only_control, drawAnimatedWindow_draw. Qed.
Lemma drawTitle_control a b s : same_control s (drawTitle a b s).
Proof. apply draw_only_control, drawTitle_draw. Qed.
Lemma drawMenu_control b s : same_control s (drawMenu b s).
Proof. apply draw_only_control, drawMenu_draw. Qed.

Lemma set_title_control v s : same_control s (set_title v s).
Proof. sc_trivial. Qed.
Lemma set_sliderAnim_control v s : same_control s (set_sliderAnim v s).
Proof. sc_trivial. Qed.
Lemma set_animationActive_control v s : same_control s (set_animationActive v s).
Proof. sc_trivial. Qed.
Lemma set_lastAnimTime_control v s : same_control s (set_lastAnimTime v s).
Proof. sc_trivial. Qed.

Lemma startAnimation_control x y w h s : same_control s (startAnimation x y w h s).
Proof. sc_trivial. Qed.

Lemma startAnimationRect_control r s : same_control s (startAnimationRect r s).
Proof. sc_trivial. Qed.

Lemma setSliderCurrent_control r s : same_control s (setSliderCurrent r s).
Proof. sc_trivial. Qed.

Lemma parkSlider_control s : same_control s (parkSlider s).
Proof. sc_trivial. Qed.

Lemma armTitleDecorator_control x s : same_control s (armTitleDecorator x s).
Proof. sc_trivial. Qed.

Lemma snapToSelection_control s : same_control s (snapToSelection s).
Proof.
  unfold snapToSelection.
  split_rect.
  etransitivity; [ | apply set_animationActive_control ].
  etransitivity; [ | apply setSliderCurrent_control ].
  etransitivity; [ apply set_needFullRedraw_control | exact Hsc ].
Qed.

Lemma enterMenu_control x s : same_control s (enterMenu x s).
Proof.
  unfold enterMenu.
  etransitivity; [ | apply armTitleDecorator_control ].
  etransitivity; [ | apply set_lastTitle_control ].
  etransitivity; [ | apply set_lastStartIndex_control ].
  etransitivity; [ | apply set_lastSelectedIndex_control ].
  etransitivity; [ | apply set_needFullRedraw_control ].
  etransitivity; [ | apply set_animationActive_control ].
  destruct (0 <? currentMenuSize (pos s)).
  - split_rect. etransitivity; [ exact Hsc | apply startAnimationRect_control ].
  - apply parkSlider_control.
Qed.

Lemma updateAnimation_control ty s : same_control s (updateAnimation ty s).
Proof.
  unfold updateAnimation.
  destruct (negb (animationActive (slider s))); [ reflexivity | ].
  match goal with |- context [if ?c then s else _] => destruct c end; [ reflexivity | ].
  match goal with
  | |- context [animateSlider ?a ?b ?c] => destruct (animateSlider a b c) as [[[[xD yD] wD] hD] a']
  end.
  set (s1 := set_sliderAnim a' _).
  assert (H1 : same_control s s1) by (subst s1; sc_trivial).
  match goal with
  | |- same_control _ (if _ then set_needFullRedraw true (set_animationActive false ?t) else _) =>
      assert (H2 : same_control s t)
  end.
  { match goal with |- context [if ?c then set_lastSelectedRect _ _ else _] => destruct c end;
      [ | exact H1 ].
    etransitivity; [ | apply set_lastSelectedRect_control ].
    match goal with
    | |- same_control _ (if negb ty then drawAnimatedSlider ?t else drawAnimatedWindow _) =>
        assert (H3 : same_control s t)
    end.
    { match goal with
      | |- context [if ?c then drawMenuItem _ _ _ else _] => destruct c
      end;
        [ etransitivity; [ | apply drawMenuItem_control ] | ];
        (etransitivity; [ exact H1 | ]);
        match goal with |- context [if ?c then _ else _] => destruct c end;
        solve [ reflexivity | apply draw_control ]. }
    etransitivity; [ exact H3 | ].
    destruct (negb ty);
      [ apply drawAnimatedSlider_control | apply drawAnimatedWindow_control ]. }
  destruct (xD && yD && wD && hD); [ | exact H2 ].
  etransitivity; [ exact H2 | sc_trivial ].
Qed.

Lemma updateTitleDecoratorAnimation_control s :
  same_control s (updateTitleDecoratorAnimation s).
Proof.
  unfold updateTitleDecoratorAnimation.
  destruct (negb (titleDecoratorAnimationActive (title s))); [ reflexivity | ].
  match goal with |- context [if ?c then s else _] => destruct c end; [ reflexivity | ].
  match goal with
  | |- context [animateSingleValue ?a ?b ?c ?d ?e ?f] =>
      destruct (animateSingleValue a b c d e f) as [xD r]
  end.
  match goal with
  | |- same_control _ (if xD then _ else ?t) => assert (H : same_control s t)
  end.
  { etransitivity; [ | apply drawTitle_control ]. sc_trivial. }
  destruct xD; [ | exact H ].
  etransitivity; [ exact H | sc_trivial ].
Qed.

Lemma update_control s : same_control s (update s).
Proof.
  unfold update.
  set (s1 := if animationActive (slider s) then _ else s).
  assert (H1 : same_control s s1).
  { subst s1. destruct (animationActive (slider s)); [ | reflexivity ].
    destruct (type (slider s)); apply updateAnimation_control. }
  set (s2 := if titleDecoratorAnimationActive (title s1) then _ else s1).
  assert (H2 : same_control s s2).
  { subst s2. destruct (titleDecoratorAnimationActive (title s1)); [ | exact H1 ].
    etransitivity; [ exact H1 | apply updateTitleDecoratorAnimation_control ]. }
  match goal with |- context [if ?c then _ else _] => destruct c end; [ | exact H2 ].
  etransitivity; [ exact H2 | apply drawMenu_control ].
Qed.

(** * The navigation invariant *)

Lemma same_control_nav s s' : same_control s s' -> same_nav s s'.
Proof. intros []; constructor; assumption. Qed.

Lemma same_nav_refl s : same_nav s s.
Proof. constructor; reflexivity. Qed.

Lemma same_nav_trans s1 s2 s3 : same_nav s1 s2 -> same_nav s2 s3 -> same_nav s1 s3.
Proof. intros [] []; constructor; etransitivity; eassumption. Qed.

Lemma same_nav_step_ok s s' : same_nav s s' -> nav_invariant s -> step_ok s s'.
Proof.
  intros [Hp Hl Hm Hi] I. destruct I.
  constructor.
  - constructor; unfold viewport_contains in *; rewrite ?Hp, ?Hl, ?Hi; assumption.
  - exact Hm.
  - unfold mode_invariant, viewport_clamped, pinned_top.
    rewrite Hm, Hp, Hl. exact (fun H => H).
Qed.

Lemma step_ok_refl s : nav_invariant s -> step_ok s s.
Proof. intros I. constructor; [ exact I | reflexivity | exact (fun H => H) ]. Qed.

Lemma step_ok_trans s1 s2 s3 :
  step_ok s1 s2 -> step_ok s2 s3 -> step_ok s1 s3.
Proof.
  intros [I2 M2 V2] [I3 M3 V3].
  constructor; [ exact I3 | congruence | auto ].
Qed.

(** Rewrites the control fields of a state reached through a frame step. *)
Ltac rw_control H :=
  rewrite ?(sc_pos _ _ H), ?(sc_layout _ _ H), ?(sc_mode _ _ H), ?(sc_items _ _ H),
    ?(sc_type _ _ H), ?(sc_ban _ _ H), ?(sc_TypeNum _ _ H).

(** Unfolds the single-member assignments under a projection. *)
Ltac proj_simpl :=
  cbn [pos layout mode items slider style TypeNum tft buzzer clock flicker title
       beep longBeep set_buzzer set_selectedIndex set_startIndex set_pos set_tft
       set_TypeNum set_type set_BanOperation set_slider set_animationForm
       set_needFullRedraw set_flicker set_mode set_clock
       currentMenu currentMenuSize selectedIndex startIndex menuLevel
       menuHistory menuSizeHistory selectedIndexHistory _sliderDisplayMode
       type BanOperation _animationForm sliderAnim animationActive].

Ltac split_step :=
  constructor;
  [ constructor; unfold viewport_contains, history_slots, history_valid
  | | unfold mode_invariant, viewport_clamped, pinned_top ].

(** Case analysis on the integer tests of the source. *)
Ltac z_cases :=
  repeat match goal with
    | |- context [?a <=? ?b] => destruct (Z.leb_spec a b)
    | |- context [?a <? ?b] => destruct (Z.ltb_spec a b)
    | |- context [?a =? ?b] => destruct (Z.eqb_spec a b)
    end.

Lemma selectNext_step s : nav_invariant s -> step_ok s (selectNext s).
Proof.
  intros I. pose proof I as [Hmax Hst Hsize Hstart Hselmax [Hv1 Hv2] Hlev Hslots Hhist].
  unfold selectNext.
  destruct ((currentMenuSize (pos s) =? 0)
            || (currentMenuSize (pos s) - 1 <=? selectedIndex (pos s))) eqn:G;
    [ apply step_ok_refl, I | ].
  destruct (BanOperation (slider s)); [ apply step_ok_refl, I | ].
  apply orb_false_iff in G as [G1 G2].
  apply Z.eqb_neq in G1. apply Z.leb_gt in G2.
  assert (Hsel : to_u8 (selectedIndex (pos s) + 1) = selectedIndex (pos s) + 1)
    by (apply to_u8_id; lia).
  proj_simpl. rewrite Hsel.
  destruct (_sliderDisplayMode (mode s)) eqn:Hm.
  - destruct (startIndex (pos s) + actualMaxDisplayItems (layout s)
              <=? selectedIndex (pos s) + 1) eqn:C.
    + apply Z.leb_le in C.
      match goal with |- step_ok _ (snapToSelection ?t) =>
        pose proof (snapToSelection_control t) as H end.
      split_step; rw_control H; proj_simpl; rewrite ?Hm, ?to_u8_id by lia;
        try assumption; try reflexivity; try lia.
    + apply Z.leb_gt in C.
      split_rect.
      match goal with |- step_ok _ (startAnimationRect ?r ?t) =>
        pose proof (startAnimationRect_control r t) as H end.
      split_step; rw_control H; rw_control Hsc; proj_simpl; rewrite ?Hm;
        try assumption; try reflexivity; try lia.
  - match goal with |- step_ok _ (snapToSelection ?t) =>
      pose proof (snapToSelection_control t) as H end.
    split_step; rw_control H; proj_simpl; rewrite ?Hm;
      try assumption; try reflexivity; try lia.
Qed.

Lemma selectPrev_step s : nav_invariant s -> step_ok s (selectPrev s).
Proof.
  intros I. pose proof I as [Hmax Hst Hsize Hstart Hselmax [Hv1 Hv2] Hlev Hslots Hhist].
  unfold selectPrev.
  destruct ((currentMenuSize (pos s) =? 0) || (selectedIndex (pos s) =? 0)) eqn:G;
    [ apply step_ok_refl, I | ].
  destruct (BanOperation (slider s)); [ apply step_ok_refl, I | ].
  apply orb_false_iff in G as [G1 G2].
  apply Z.eqb_neq in G1. apply Z.eqb_neq in G2.
  assert (Hsel : to_u8 (selectedIndex (pos s) - 1) = selectedIndex (pos s) - 1)
    by (apply to_u8_id; lia).
  proj_simpl. rewrite Hsel.
  destruct (_sliderDisplayMode (mode s)) eqn:Hm.
  - destruct (selectedIndex (pos s) - 1 <? startIndex (pos s)) eqn:C.
    + apply Z.ltb_lt in C.
      match goal with |- step_ok _ (snapToSelection ?t) =>
        pose proof (snapToSelection_control t) as H end.
      split_step; rw_control H; proj_simpl; rewrite ?Hm;
        try assumption; try reflexivity; try lia.
    + apply Z.ltb_ge in C.
      split_rect.
      match goal with |- step_ok _ (startAnimationRect ?r ?t) =>
        pose proof (startAnimationRect_control r t) as H end.
      split_step; rw_control H; rw_control Hsc; proj_simpl; rewrite ?Hm;
        try assumption; try reflexivity; try lia.
  - match goal with |- step_ok _ (snapToSelection ?t) =>
      pose proof (snapToSelection_control t) as H end.
    split_step; rw_control H; proj_simpl; rewrite ?Hm;
      try assumption; try reflexivity; try lia.
Qed.

(** ** The history arrays *)

Lemma length_arr_set {A} (l : list A) i v : length (arr_set l i v) = length l.
Proof. unfold arr_set. destruct (i <? 0); [ reflexivity | apply length_insert ]. Qed.

Lemma arr_get_set_eq {A} (d : A) (l : list A) i v :
  0 <= i -> (Z.to_nat i < length l)%nat -> arr_get d (arr_set l i v) i = v.
Proof.
  intros Hi Hl. unfold arr_get, arr_set.
  destruct (Z.ltb_spec i 0); [ lia | ].
  rewrite list_lookup_insert_eq by exact Hl. reflexivity.
Qed.

Lemma arr_get_set_ne {A} (d : A) (l : list A) i j v :
  0 <= i -> 0 <= j -> i <> j -> arr_get d (arr_set l i v) j = arr_get d l j.
Proof.
  intros Hi Hj Hne. unfold arr_get, arr_set.
  destruct (Z.ltb_spec i 0); [ lia | ].
  destruct (Z.ltb_spec j 0); [ reflexivity | ].
  rewrite list_lookup_insert_ne by lia. reflexivity.
Qed.

(** ** [back] *)

Lemma back_root s : menuLevel (pos s) <= 0 -> back s = s.
Proof.
  intros H. unfold back.
  destruct (Z.ltb_spec 0 (menuLevel (pos s))); [ lia | reflexivity ].
Qed.

(** [back] either leaves the position alone or restores a pushed one, whose
    selection lies inside its menu. *)
Lemma back_step s :
  nav_invariant s ->
  step_ok s (back s)
  /\ items (back s) = items s
  /\ (pos (back s) = pos s
      \/ selectedIndex (pos (back s)) < currentMenuSize (pos (back s))).
Proof.
  intros I. pose proof I as [Hmax Hst Hsize Hstart Hselmax [Hv1 Hv2] Hlev Hslots Hhist].
  unfold back.
  destruct (Z.ltb_spec 0 (menuLevel (pos s))) as [Hl | Hl];
    [ | split; [ apply step_ok_refl, I | split; [ reflexivity | left; reflexivity ] ] ].
  destruct (type (slider s)); cbn [negb].
  - (* window mode *)
    proj_simpl. split_rect.
    match goal with |- context [set_BanOperation false (startAnimationRect ?r ?t)] =>
      pose proof (startAnimationRect_control r t) as H end.
    assert (Hn : same_nav s (set_BanOperation false (startAnimationRect rect s0))).
    { constructor; proj_simpl; rw_control H; rw_control Hsc; reflexivity. }
    split; [ apply same_nav_step_ok; assumption | ].
    split; [ apply Hn | left; apply Hn ].
  - (* return to the previous level *)
    assert (Hlev' : to_u8 (menuLevel (pos s) - 1) = menuLevel (pos s) - 1)
      by (apply to_u8_id; lia).
    rewrite Hlev'.
    destruct (Hhist (menuLevel (pos s) - 1)) as (Hs0 & Hs1 & Hs2); [ lia | ].
    set (sel := arr_get 0 (selectedIndexHistory (pos s)) (menuLevel (pos s) - 1)) in *.
    set (size := arr_get 0 (menuSizeHistory (pos s)) (menuLevel (pos s) - 1)) in *.
    proj_simpl.
    match goal with |- context [enterMenu ?x ?t] =>
      pose proof (enterMenu_control x t) as H end.
    split; [ | split ].
    + destruct (_sliderDisplayMode (mode s)) eqn:Hm;
        split_step; rw_control H; proj_simpl; rewrite ?Hm;
        try assumption; try reflexivity; try lia;
        try (intros i Hi; apply Hhist; lia);
        z_cases; cbn [andb]; rewrite ?to_u8_id in * by lia; try lia.
    + rw_control H. reflexivity.
    + right. rw_control H. proj_simpl. exact Hs1.
Qed.

(** ** [select] *)

Lemma handleTypeNum_nav s : same_nav s (handleTypeNum s).
Proof.
  unfold handleTypeNum.
  destruct (TypeNum s =? 1).
  - match goal with
    | |- context [startAnimationRect ?r ?t] =>
        pose proof (startAnimationRect_control r t) as H
    end.
    constructor; proj_simpl; rw_control H;
      destruct (animationActive (slider s)); reflexivity.
  - destruct (TypeNum s =? 2); constructor; reflexivity.
Qed.

Lemma runCallback_step cb s :
  nav_invariant s ->
  step_ok s (runCallback cb s)
  /\ items (runCallback cb s) = items s
  /\ (pos (runCallback cb s) = pos s
      \/ selectedIndex (pos (runCallback cb s)) < currentMenuSize (pos (runCallback cb s))).
Proof.
  intros I. destruct cb as [ | n | form | r ]; cbn [runCallback].
  - apply back_step, I.
  - split; [ apply same_nav_step_ok; [ constructor; reflexivity | exact I ] | ].
    split; [ reflexivity | left; reflexivity ].
  - unfold setSliderAnimationForm.
    destruct ((to_u8 form =? 1) || (to_u8 form =? 2));
      (split; [ apply same_nav_step_ok; [ constructor; reflexivity | exact I ] | ]);
      (split; [ reflexivity | left; reflexivity ]).
  - match goal with |- context [drawMenu true ?t] =>
      pose proof (drawMenu_control true t) as H end.
    assert (Hn : same_nav s (drawMenu true (set_tft (Tft.setRotation r (tft s)) s))).
    { constructor; rw_control H; reflexivity. }
    split; [ apply same_nav_step_ok; assumption | ].
    split; [ apply Hn | left; apply Hn ].
Qed.

(** The descent of [select] from a valid position. *)
Lemma descend_step item x s :
  nav_invariant s ->
  0 <= MenuItem.subMenuSize item <= 255 ->
  selectedIndex (pos s) < currentMenuSize (pos s) ->
  menuLevel (pos s) < 9 ->
  step_ok s
    (enterMenu x
       (set_pos
          (mkPosition (MenuItem.getSubMenu item) (MenuItem.getSubMenuSize item) 0 0
             (to_u8 (menuLevel (pos s) + 1))
             (arr_set (menuHistory (pos s)) (menuLevel (pos s)) (currentMenu (pos s)))
             (arr_set (menuSizeHistory (pos s)) (menuLevel (pos s)) (currentMenuSize (pos s)))
             (arr_set (selectedIndexHistory (pos s)) (menuLevel (pos s))
                (selectedIndex (pos s)))) s)).
Proof.
  intros I Hitem Hin Hl.
  pose proof I as [Hmax Hst Hsize Hstart Hselmax [Hv1 Hv2] Hlev (Hs1 & Hs2 & Hs3) Hhist].
  match goal with |- step_ok _ (enterMenu ?x ?t) =>
    pose proof (enterMenu_control x t) as H end.
  assert (Hlev' : to_u8 (menuLevel (pos s) + 1) = menuLevel (pos s) + 1)
    by (apply to_u8_id; lia).
  unfold MenuItem.getSubMenuSize in *.
  destruct (_sliderDisplayMode (mode s)) eqn:Hm;
    split_step; rw_control H; proj_simpl; rewrite ?Hm, ?Hlev', ?length_arr_set;
    try assumption; try reflexivity; try lia.
  all: intros i Hi;
    destruct (Z.eq_dec i (menuLevel (pos s))) as [-> | Hne];
    [ rewrite !arr_get_set_eq by lia; lia
    | rewrite !arr_get_set_ne by lia; apply Hhist; lia ].
Qed.

Lemma select_step s : nav_invariant s -> step_ok s (select s).
Proof.
  intros I. unfold select.
  destruct (currentMenu (pos s)) as [a | ] eqn:Hcur; [ | apply step_ok_refl, I ].
  destruct (Z.leb_spec (currentMenuSize (pos s)) (selectedIndex (pos s))) as [ | Hin ];
    [ apply step_ok_refl, I | ].
  destruct (BanOperation (slider s)); [ apply step_ok_refl, I | ].
  set (item := items s a (selectedIndex (pos s))).
  set (s0 := beep 20 1000 (buzz_vol s) s).
  assert (I0 : step_ok s s0)
    by (apply same_nav_step_ok; [ constructor; reflexivity | exact I ]).
  set (s1 := match MenuItem.getCallback item with
             | Some cb => handleTypeNum (runCallback cb s0)
             | None => s0
             end).
  assert (H1 : step_ok s s1
               /\ items s1 = items s
               /\ selectedIndex (pos s1) < currentMenuSize (pos s1)).
  { subst s1. destruct (MenuItem.getCallback item) as [cb | ].
    - destruct (runCallback_step cb s0 (so_invariant _ _ I0)) as (Hok & Hit & Hpos).
      pose proof (handleTypeNum_nav (runCallback cb s0)) as Hn.
      split; [ | split ].
      + eapply step_ok_trans; [ exact I0 | ].
        eapply step_ok_trans; [ exact Hok | ].
        apply same_nav_step_ok; [ exact Hn | apply Hok ].
      + rewrite (sn_items _ _ Hn), Hit. reflexivity.
      + rewrite (sn_pos _ _ Hn). destruct Hpos as [-> | Hlt]; [ exact Hin | exact Hlt ].
    - split; [ exact I0 | split; [ reflexivity | exact Hin ] ]. }
  destruct H1 as (Hok1 & Hit1 & Hin1).
  destruct (MenuItem.hasSubMenu item); [ | exact Hok1 ].
  destruct (Z.ltb_spec (menuLevel (pos s1)) 9) as [Hl | Hl]; [ | exact Hok1 ].
  eapply step_ok_trans; [ exact Hok1 | ].
  apply descend_step; try assumption.
  - apply Hok1.
  - subst item. apply (ni_store _ I).
Qed.

(** ** [setSliderDisplayMode] and [update] *)

Lemma nav_invariant_ext s s' :
  pos s' = pos s -> layout s' = layout s -> items s' = items s ->
  nav_invariant s -> nav_invariant s'.
Proof.
  intros Hp Hl Hi [].
  constructor; unfold viewport_contains in *; rewrite ?Hp, ?Hl, ?Hi; assumption.
Qed.

Lemma setSliderDisplayMode_invariant m s :
  nav_invariant s ->
  nav_invariant (setSliderDisplayMode m s)
  /\ pos (setSliderDisplayMode m s) = pos s
  /\ layout (setSliderDisplayMode m s) = layout s
  /\ _sliderDisplayMode (mode (setSliderDisplayMode m s)) = m.
Proof.
  intros I. unfold setSliderDisplayMode.
  set (s1 := set_needFullRedraw true _).
  set (s2 := if 0 <? currentMenuSize (pos s1) then _ else s1).
  assert (H2 : same_control s1 s2).
  { subst s2. destruct (0 <? currentMenuSize (pos s1)); [ | reflexivity ].
    split_rect. etransitivity; [ exact Hsc | sc_trivial ]. }
  assert (H3 : same_control s1 (set_animationActive false s2))
    by (etransitivity; [ exact H2 | apply set_animationActive_control ]).
  destruct H3 as [Hp Hl _ Hm Hi _ _ _ _ _ _ _ _ _].
  split; [ | split; [ exact Hp | split; [ exact Hl | ] ] ].
  - apply (nav_invariant_ext s); [ exact Hp | exact Hl | exact Hi | exact I ].
  - rewrite Hm. reflexivity.
Qed.

Lemma update_step ms s :
  nav_invariant s -> step_ok s (update (set_clock (clock s + ms) s)).
Proof.
  intros I. apply same_nav_step_ok; [ | exact I ].
  apply (same_nav_trans _ (set_clock (clock s + ms) s));
    [ constructor; reflexivity | apply same_control_nav, update_control ].
Qed.

(** ** The layout keeps the control state and leaves room for a row *)

Lemma calculateLayoutParameters_frame s :
  pos (calculateLayoutParameters s) = pos s
  /\ items (calculateLayoutParameters s) = items s
  /\ mode (calculateLayoutParameters s) = mode s
  /\ style (calculateLayoutParameters s) = style s
  /\ slider (calculateLayoutParameters s) = slider s.
Proof. repeat split. Qed.

Lemma calculateLayoutParameters_max s :
  0 <= actualMaxDisplayItems (layout (calculateLayoutParameters s)) <= 255
  /\ (0 < currentMenuSize (pos s) ->
      1 <= actualMaxDisplayItems (layout (calculateLayoutParameters s))).
Proof.
  unfold calculateLayoutParameters.
  cbn [layout set_layout set_needFullRedraw set_flicker actualMaxDisplayItems
       pos setTextSize set_tft].
  match goal with
  | |- context [if (?c =? 0) && _ then 1 else ?c] =>
      assert (Hc : 0 <= c <= 255);
      [ | revert Hc; generalize c; intros c' Hc ]
  end.
  { match goal with |- context [if ?b then to_u8 ?z else 1] =>
      destruct b; [ apply to_u8_range | lia ] end. }
  destruct (Z.eqb_spec c' 0); destruct (Z.ltb_spec 0 (currentMenuSize (pos s)));
    cbn [andb]; lia.
Qed.

(** ** The machine after [setup()] *)


Lemma setRootMenu_frame root size s :
  same_control (calculateLayoutParameters
                  (set_pos (mkPosition root (to_u8 size) 0 0 0 (menuHistory (pos s))
                              (menuSizeHistory (pos s)) (selectedIndexHistory (pos s))) s))
               (setRootMenu root size s).
Proof.
  unfold setRootMenu.
  set (s1 := calculateLayoutParameters _).
  set (s2 := if 0 <? currentMenuSize (pos s1) then _ else parkSlider s1).
  assert (H2 : same_control s1 s2).
  { subst s2. destruct (0 <? currentMenuSize (pos s1)); [ | apply parkSlider_control ].
    split_rect. etransitivity; [ exact Hsc | sc_trivial ]. }
  etransitivity; [ exact H2 | sc_trivial ].
Qed.

Lemma setRootMenu_invariant root size s :
  store_typed (items s) -> history_slots (pos s) -> 0 < size <= 255 ->
  nav_invariant (setRootMenu root size s)
  /\ startIndex (pos (setRootMenu root size s)) = 0
  /\ selectedIndex (pos (setRootMenu root size s)) = 0
  /\ mode (setRootMenu root size s) = mode s.
Proof.
  intros Hst Hslots Hsize.
  pose proof (setRootMenu_frame root size s) as H.
  set (s0 := set_pos _ s) in H.
  pose proof (calculateLayoutParameters_max s0) as [Hm0 Hm1].
  assert (Hu : to_u8 size = size) by (apply to_u8_id; lia).
  specialize (Hm1 ltac:(subst s0; proj_simpl; lia)).
  destruct H as [Hp Hl _ Hmd Hi _ _ _ _ _ _ _ _ _].
  destruct (calculateLayoutParameters_frame s0) as (Hp0 & Hi0 & Hmd0 & _).
  rewrite Hp0 in Hp. rewrite Hi0 in Hi. rewrite Hmd0 in Hmd.
  remember (actualMaxDisplayItems (layout (calculateLayoutParameters s0))) as M eqn:HM.
  split; [ | split; [ | split ] ].
  - constructor; unfold viewport_contains, history_slots, history_valid;
      rewrite ?Hp, ?Hl, ?Hi, <- ?HM; subst s0; proj_simpl;
      rewrite ?Hu; try assumption; try lia.
  - rewrite Hp. reflexivity.
  - rewrite Hp. reflexivity.
  - rewrite Hmd. reflexivity.
Qed.

Lemma boot_invariant raw d buz root size m :
  store_typed (items raw) -> history_slots (pos raw) -> 0 < size <= 255 ->
  nav_invariant (boot raw d buz root size m)
  /\ mode_invariant (boot raw d buz root size m)
  /\ _sliderDisplayMode (mode (boot raw d buz root size m)) = m.
Proof.
  intros Hst Hslots Hsize. unfold boot.
  destruct (setRootMenu_invariant root size (MenuSystem_ctor raw d buz))
    as (I & Hstart & Hsel & _); try assumption.
  destruct (setSliderDisplayMode_invariant m _ I) as (I' & Hp & Hl & Hm).
  split; [ exact I' | split; [ | exact Hm ] ].
  unfold mode_invariant, viewport_clamped, pinned_top.
  rewrite Hm, Hp, Hl, Hstart, Hsel.
  destruct m; [ | reflexivity ].
  pose proof (ni_max _ I). lia.
Qed.

(** ** Runs *)

Lemma step_invariant op s : nav_invariant s -> nav_invariant (step s op).
Proof.
  intros I. destruct op; cbn [step].
  - apply selectNext_step, I.
  - apply selectPrev_step, I.
  - apply select_step, I.
  - apply back_step, I.
  - apply update_step, I.
  - apply setSliderDisplayMode_invariant, I.
Qed.

Lemma run_invariant ops : forall s, nav_invariant s -> nav_invariant (run ops s).
Proof.
  induction ops as [ | op ops IH ]; intros s I; cbn [run fold_left].
  - exact I.
  - apply IH, step_invariant, I.
Qed.

Lemma step_mode_invariant m op s :
  keeps_mode m [op] = true ->
  nav_invariant s -> _sliderDisplayMode (mode s) = m -> mode_invariant s ->
  _sliderDisplayMode (mode (step s op)) = m /\ mode_invariant (step s op).
Proof.
  intros K I Hm V.
  assert (Hok : forall s', step_ok s s' ->
                  _sliderDisplayMode (mode s') = m /\ mode_invariant s').
  { intros s' [_ Hmode Hv]. rewrite Hmode. auto. }
  destruct op; cbn [step].
  - apply Hok, selectNext_step, I.
  - apply Hok, selectPrev_step, I.
  - apply Hok, select_step, I.
  - apply Hok, back_step, I.
  - apply Hok, update_step, I.
  - cbn in K. rewrite andb_true_r in K.
    destruct (setSliderDisplayMode_invariant m0 s I) as (_ & Hp & Hl & Hm').
    assert (m0 = m) by (destruct m, m0; cbn in K; congruence).
    subst m0. split; [ exact Hm' | ].
    unfold mode_invariant, viewport_clamped, pinned_top in *.
    rewrite Hm', Hp, Hl. rewrite Hm in V. exact V.
Qed.

Lemma run_mode_invariant m ops : forall s,
  keeps_mode m ops = true ->
  nav_invariant s -> _sliderDisplayMode (mode s) = m -> mode_invariant s ->
  mode_invariant (run ops s) /\ _sliderDisplayMode (mode (run ops s)) = m.
Proof.
  induction ops as [ | op ops IH ]; intros s K I Hm V; cbn [run fold_left].
  - auto.
  - cbn [keeps_mode forallb] in K. apply andb_true_iff in K as [K1 K2].
    destruct (step_mode_invariant m op s) as [Hm' V']; try assumption.
    { cbn. rewrite K1. reflexivity. }
    apply IH; try assumption. apply step_invariant, I.
Qed.

(** C1, amended: in every state reached from [setup()] with a non-empty
    root menu the selection lies inside the viewport,
    [startIndex <= selectedIndex < startIndex + actualMaxDisplayItems];
    while the display mode stays follow-selection, the viewport also stops
    at the bottom of the menu ([startIndex + actualMaxDisplayItems <=
    currentMenuSize] whenever the menu is longer than the viewport); while
    it stays fixed-top, [startIndex = selectedIndex] after every call. *)
Theorem viewport_invariant_reachable raw d buz root size m ops :
  store_typed (items raw) -> history_slots (pos raw) -> 0 < size <= 255 ->
  viewport_contains (run ops (boot raw d buz root size m))
  /\ (keeps_mode m ops = true ->
      match m with
      | SLIDER_DISPLAY_FOLLOW_SELECTION =>
          viewport_clamped (run ops (boot raw d buz root size m))
      | SLIDER_DISPLAY_FIXED_TOP =>
          pinned_top (run ops (boot raw d buz root size m))
      end).
Proof.
  intros Hst Hslots Hsize.
  destruct (boot_invariant raw d buz root size m) as (I & V & Hm); try assumption.
  split.
  - apply (ni_view _ (run_invariant ops _ I)).
  - intros K.
    destruct (run_mode_invariant m ops _ K I Hm V) as [V' Hm'].
    unfold mode_invariant in V'. rewrite Hm' in V'. destruct m; exact V'.
Qed.

(** ** Fixture storage is well typed *)

Lemma store_of_typed tbl :
  Fixture.table_typed tbl = true -> store_typed (Fixture.store_of tbl).
Proof.
  intros H a i. unfold Fixture.store_of.
  destruct (find (fun e => Pos.eqb (fst e) a) tbl) as [[k arr] | ] eqn:F;
    [ | cbn; lia ].
  apply find_some in F as [Hin _].
  unfold Fixture.table_typed in H. rewrite forallb_forall in H.
  specialize (H _ Hin). cbn [snd] in H. rewrite forallb_forall in H.
  destruct (i <? 0); [ cbn; lia | ].
  destruct (nth_in_or_default (Z.to_nat i) arr (MenuItem.ctor EmptyString None))
    as [Hn | ->]; [ | cbn; lia ].
  specialize (H _ Hn). apply andb_true_iff in H as [H1 H2].
  apply Z.leb_le in H1. apply Z.leb_le in H2. lia.
Qed.

Lemma raw_history_slots st : history_slots (pos (Fixture.raw st)).
Proof. repeat split. Qed.

(** C1, the claim as stated fails: in fixed-top mode the viewport runs past
    the end of a menu longer than the viewport (three items, two rows,
    selection and viewport start on the last item), and a switch to
    fixed-top mode leaves [startIndex = 0] under [selectedIndex = 1]. *)
Lemma viewport_claim_counterexample :
  (let s := run [OpSelectNext; OpSelectNext]
              (Fixture.start Fixture.plain3 Fixture.tft128x80 3 SLIDER_DISPLAY_FIXED_TOP) in
   _sliderDisplayMode (mode s) = SLIDER_DISPLAY_FIXED_TOP
   /\ ~ viewport_clamped s)
  /\ (let s := run [OpSelectNext; OpSetSliderDisplayMode SLIDER_DISPLAY_FIXED_TOP]
                 (Fixture.start Fixture.plain3 Fixture.tft240x320 3
                    SLIDER_DISPLAY_FOLLOW_SELECTION) in
      _sliderDisplayMode (mode s) = SLIDER_DISPLAY_FIXED_TOP
      /\ ~ pinned_top s).
Proof.
  split; (split; [ vm_compute; reflexivity | ]).
  - unfold viewport_clamped. vm_compute. intros H.
    specialize (H eq_refl). apply H. reflexivity.
  - unfold pinned_top. vm_compute. discriminate.
Qed.

(** The invariant on a run of the menus of [main.cpp]: down to "Setting",
    into it, one row down, a tick and back. *)
Lemma viewport_invariant_witness :
  store_typed (items (Fixture.raw Fixture.main_menu))
  /\ history_slots (pos (Fixture.raw Fixture.main_menu))
  /\ 0 < 2 <= 255
  /\ viewport_contains
       (run [OpSelectNext; OpSelect; OpSelectNext; OpUpdate 20; OpBack]
          (boot (Fixture.raw Fixture.main_menu) Fixture.tft240x320 []
             (Some 1%positive) 2 SLIDER_DISPLAY_FOLLOW_SELECTION))
  /\ (keeps_mode SLIDER_DISPLAY_FOLLOW_SELECTION
        [OpSelectNext; OpSelect; OpSelectNext; OpUpdate 20; OpBack] = true ->
      viewport_clamped
        (run [OpSelectNext; OpSelect; OpSelectNext; OpUpdate 20; OpBack]
           (boot (Fixture.raw Fixture.main_menu) Fixture.tft240x320 []
              (Some 1%positive) 2 SLIDER_DISPLAY_FOLLOW_SELECTION))).
Proof.
  assert (H1 : store_typed (items (Fixture.raw Fixture.main_menu)))
    by (apply store_of_typed; reflexivity).
  assert (H2 : history_slots (pos (Fixture.raw Fixture.main_menu)))
    by apply raw_history_slots.
  assert (H3 : 0 < 2 <= 255) by lia.
  split; [ exact H1 | split; [ exact H2 | split; [ exact H3 | ] ] ].
  exact (viewport_invariant_reachable (Fixture.raw Fixture.main_menu)
           Fixture.tft240x320 [] (Some 1%positive) 2 SLIDER_DISPLAY_FOLLOW_SELECTION
           [OpSelectNext; OpSelect; OpSelectNext; OpUpdate 20; OpBack] H1 H2 H3).
Defined.

(** * History: descents and returns *)

(** [select] past its guards, in terms of the state after the callback. *)
Lemma select_unfold s :
  selectable s ->
  select s =
    let s1 := afterCallback s in
    if MenuItem.hasSubMenu (selectedItem s) then
      if menuLevel (pos s1) <? 9
      then enterMenu (screenWidth (layout (set_pos (pushed (selectedItem s) (pos s1)) s1)))
             (set_pos (pushed (selectedItem s) (pos s1)) s1)
      else s1
    else s1.
Proof.
  intros (Hcur & Hin & Hban).
  unfold select, afterCallback, selectedItem, item_at.
  destruct (currentMenu (pos s)) as [a | ]; [ | congruence ].
  destruct (Z.leb_spec (currentMenuSize (pos s)) (selectedIndex (pos s))); [ lia | ].
  rewrite Hban. reflexivity.
Qed.

Lemma select_guarded s : ~ selectable s -> select s = s.
Proof.
  intros H. unfold select.
  destruct (currentMenu (pos s)) as [a | ] eqn:Hcur; [ | reflexivity ].
  destruct (Z.leb_spec (currentMenuSize (pos s)) (selectedIndex (pos s))); [ reflexivity | ].
  destruct (BanOperation (slider s)) eqn:Hban; [ reflexivity | ].
  exfalso. apply H. repeat split; [ congruence | lia | exact Hban ].
Qed.

Lemma selectable_dec s : selectable s \/ ~ selectable s.
Proof.
  unfold selectable.
  destruct (currentMenu (pos s)); [ | right; intros (H & _); congruence ].
  destruct (Z.lt_ge_cases (selectedIndex (pos s)) (currentMenuSize (pos s)));
    [ | right; intros (_ & H' & _); lia ].
  destruct (BanOperation (slider s)); [ right; intros (_ & _ & H'); congruence | ].
  left. repeat split; [ congruence | assumption ].
Qed.

(** [back] outside the window sequence, below the root: the pushed triple
    comes back, the history arrays are not written. *)
Lemma back_pop s :
  type (slider s) = false -> 0 < menuLevel (pos s) <= 255 ->
  place (back s)
  = (arr_get None (menuHistory (pos s)) (menuLevel (pos s) - 1),
     arr_get 0 (menuSizeHistory (pos s)) (menuLevel (pos s) - 1),
     arr_get 0 (selectedIndexHistory (pos s)) (menuLevel (pos s) - 1))
  /\ menuLevel (pos (back s)) = menuLevel (pos s) - 1
  /\ menuHistory (pos (back s)) = menuHistory (pos s)
  /\ menuSizeHistory (pos (back s)) = menuSizeHistory (pos s)
  /\ selectedIndexHistory (pos (back s)) = selectedIndexHistory (pos s)
  /\ type (slider (back s)) = false
  /\ BanOperation (slider (back s)) = BanOperation (slider s).
Proof.
  intros Hty Hl. unfold back, place.
  destruct (Z.ltb_spec 0 (menuLevel (pos s))); [ | lia ].
  rewrite Hty. cbn [negb].
  rewrite (to_u8_id (menuLevel (pos s) - 1)) by lia.
  match goal with |- context [enterMenu ?x ?t] =>
    pose proof (enterMenu_control x t) as Hem end.
  rw_control Hem. proj_simpl. rewrite Hty. repeat split.
Qed.

(** What the callback of [select] can do to the position when no window
    sequence is active: nothing, or one return. *)
Lemma afterCallback_pos s :
  type (slider s) = false -> 0 <= menuLevel (pos s) <= 255 ->
  pos (afterCallback s) = pos s
  \/ (0 < menuLevel (pos s)
      /\ menuLevel (pos (afterCallback s)) = menuLevel (pos s) - 1).
Proof.
  intros Hty Hl. unfold afterCallback.
  destruct (MenuItem.getCallback (selectedItem s)) as [cb | ]; [ | left; reflexivity ].
  rewrite (sn_pos _ _ (handleTypeNum_nav _)).
  destruct cb as [ | n | form | r ]; cbn [runCallback].
  - destruct (Z.le_gt_cases (menuLevel (pos s)) 0).
    + left. rewrite back_root by (proj_simpl; lia). reflexivity.
    + right. split; [ lia | ].
      apply (back_pop (beep 20 1000 (buzz_vol s) s)); proj_simpl; [ exact Hty | lia ].
  - left. reflexivity.
  - left. unfold setSliderAnimationForm.
    destruct ((to_u8 form =? 1) || (to_u8 form =? 2)); reflexivity.
  - left. match goal with |- context [drawMenu true ?t] =>
      rewrite (sc_pos _ _ (drawMenu_control true t)) end. reflexivity.
Qed.

Lemma afterCallback_no_back s :
  MenuItem.getCallback (selectedItem s) <> Some CbBack ->
  pos (afterCallback s) = pos s.
Proof.
  intros Hcb. unfold afterCallback.
  destruct (MenuItem.getCallback (selectedItem s)) as [cb | ]; [ | reflexivity ].
  rewrite (sn_pos _ _ (handleTypeNum_nav _)).
  destruct cb as [ | n | form | r ]; cbn [runCallback].
  - congruence.
  - reflexivity.
  - unfold setSliderAnimationForm.
    destruct ((to_u8 form =? 1) || (to_u8 form =? 2)); reflexivity.
  - match goal with |- context [drawMenu true ?t] =>
      rewrite (sc_pos _ _ (drawMenu_control true t)) end. reflexivity.
Qed.

Lemma enterMenu_pos x s : pos (enterMenu x s) = pos s.
Proof. apply (sc_pos _ _ (enterMenu_control x s)). Qed.

(** A descent by one level pushes the triple of the state it started
    from. *)
Lemma descends_pushed s :
  0 <= menuLevel (pos s) <= 255 -> descends s ->
  menuLevel (pos s) < 9 /\ pos (select s) = pushed (selectedItem s) (pos s).
Proof.
  intros Hl (Hty & _ & Hlev).
  destruct (selectable_dec s) as [Hs | Hs];
    [ | rewrite (select_guarded s Hs) in Hlev; lia ].
  rewrite (select_unfold s Hs) in Hlev |- *. cbv zeta in Hlev |- *.
  destruct (afterCallback_pos s Hty Hl) as [Hp | (Hpos & Hp)].
  - rewrite Hp in *.
    destruct (MenuItem.hasSubMenu (selectedItem s)); [ | rewrite Hp in Hlev; lia ].
    destruct (Z.ltb_spec (menuLevel (pos s)) 9); [ | rewrite Hp in Hlev; lia ].
    split; [ assumption | ]. rewrite enterMenu_pos. reflexivity.
  - exfalso.
    destruct (MenuItem.hasSubMenu (selectedItem s)); [ | lia ].
    destruct (Z.ltb_spec (menuLevel (pos (afterCallback s))) 9); [ | lia ].
    rewrite enterMenu_pos in Hlev. cbn [pos set_pos pushed menuLevel] in Hlev.
    rewrite Hp, to_u8_id in Hlev by lia. lia.
Qed.

(** After [k] descents and [k] returns the machine stands where it was and
    the history below that level is as it was. *)
Lemma descend_return k : forall s,
  history_slots (pos s) -> 0 <= menuLevel (pos s) <= 255 ->
  type (slider s) = false -> descends_n k s ->
  let r := Nat.iter k back (Nat.iter k select s) in
  place r = place s
  /\ menuLevel (pos r) = menuLevel (pos s)
  /\ type (slider r) = false
  /\ history_slots (pos r)
  /\ (forall i, 0 <= i < menuLevel (pos s) ->
        arr_get None (menuHistory (pos r)) i = arr_get None (menuHistory (pos s)) i
        /\ arr_get 0 (menuSizeHistory (pos r)) i = arr_get 0 (menuSizeHistory (pos s)) i
        /\ arr_get 0 (selectedIndexHistory (pos r)) i
           = arr_get 0 (selectedIndexHistory (pos s)) i).
Proof.
  induction k as [ | k IH ]; intros s Hslots Hl Hty Hd.
  - cbn. repeat split; try assumption; apply Hslots.
  - destruct Hd as [Hd Hrest].
    destruct (descends_pushed s Hl Hd) as [Hl9 Hpush].
    pose proof Hd as (_ & Hty1 & Hlev1).
    destruct Hslots as (Hs1 & Hs2 & Hs3). unfold MenuPtr in Hs1.
    assert (Hslots1 : history_slots (pos (select s))).
    { rewrite Hpush. unfold history_slots, pushed. cbn.
      rewrite !length_arr_set. auto. }
    specialize (IH (select s) Hslots1 ltac:(lia) Hty1 Hrest).
    assert (Heq : Nat.iter (S k) back (Nat.iter (S k) select s)
                  = back (Nat.iter k back (Nat.iter k select (select s))))
      by (rewrite (Nat.iter_succ_r k select s); reflexivity).
    rewrite Heq. clear Heq.
    set (r1 := Nat.iter k back (Nat.iter k select (select s))) in *.
    cbv zeta in IH. destruct IH as (Hplace & Hlevr & Htyr & Hslotsr & Hhist).
    destruct (back_pop r1 Htyr ltac:(lia)) as (Bplace & Blev & Bh1 & Bh2 & Bh3 & Bty & _).
    destruct (Hhist (menuLevel (pos s)) ltac:(lia)) as (E1 & E2 & E3).
    rewrite Hpush in E1, E2, E3. cbn [pushed menuHistory menuSizeHistory selectedIndexHistory] in E1, E2, E3.
    rewrite arr_get_set_eq in E1 by lia.
    rewrite arr_get_set_eq in E2 by lia.
    rewrite arr_get_set_eq in E3 by lia.
    repeat split.
    + rewrite Bplace, Hlevr, Hlev1.
      replace (menuLevel (pos s) + 1 - 1) with (menuLevel (pos s)) by lia.
      rewrite E1, E2, E3. reflexivity.
    + lia.
    + exact Bty.
    + rewrite Bh1. apply Hslotsr.
    + rewrite Bh2. apply Hslotsr.
    + rewrite Bh3. apply Hslotsr.
    + rewrite Bh1. destruct (Hhist i ltac:(lia)) as (F1 & _). rewrite F1, Hpush.
      cbn [pushed menuHistory]. apply arr_get_set_ne; lia.
    + rewrite Bh2. destruct (Hhist i ltac:(lia)) as (_ & F2 & _). rewrite F2, Hpush.
      cbn [pushed menuSizeHistory]. apply arr_get_set_ne; lia.
    + rewrite Bh3. destruct (Hhist i ltac:(lia)) as (_ & _ & F3). rewrite F3, Hpush.
      cbn [pushed selectedIndexHistory]. apply arr_get_set_ne; lia.
Qed.

(** C2: [k] calls of [select()], each descending one level with no window
    sequence, followed by [k] calls of [back()], end on the menu pointer,
    the menu size and the selected index they started from. *)
Theorem history_symmetry k s :
  history_slots (pos s) -> 0 <= menuLevel (pos s) <= 255 -> descends_n k s ->
  place (Nat.iter k back (Nat.iter k select s)) = place s.
Proof.
  intros Hslots Hl Hd.
  destruct k as [ | k ]; [ reflexivity | ].
  pose proof Hd as [(Hty & _) _].
  apply (descend_return (S k) s Hslots Hl Hty Hd).
Qed.

(** Two levels down from "Setting" in the menus of [main.cpp] and back. *)
Lemma history_symmetry_witness :
  history_slots (pos Fixture.at_setting)
  /\ 0 <= menuLevel (pos Fixture.at_setting) <= 255
  /\ descends_n 2 Fixture.at_setting
  /\ place (Nat.iter 2 back (Nat.iter 2 select Fixture.at_setting))
     = place Fixture.at_setting.
Proof.
  assert (H1 : history_slots (pos Fixture.at_setting))
    by (vm_compute; repeat split).
  assert (H2 : 0 <= menuLevel (pos Fixture.at_setting) <= 255)
    by (vm_compute; split; discriminate).
  assert (H3 : descends_n 2 Fixture.at_setting)
    by (vm_compute; repeat split).
  split; [ exact H1 | split; [ exact H2 | split; [ exact H3 | ] ] ].
  exact (history_symmetry 2 Fixture.at_setting H1 H2 H3).
Defined.

(** * The depth limit *)

(** C3, the claim as stated fails: nine levels down, with nine triples
    pushed and the tenth slot free, [select()] on an item that has children
    and no callback neither pushes nor descends. *)
Lemma history_capacity_counterexample :
  getCurrentLevel Fixture.nine_deep = 9
  /\ selectable Fixture.nine_deep
  /\ MenuItem.hasSubMenu (selectedItem Fixture.nine_deep) = true
  /\ MenuItem.getCallback (selectedItem Fixture.nine_deep) = None
  /\ getCurrentLevel (select Fixture.nine_deep) = 9
  /\ pos (select Fixture.nine_deep) = pos Fixture.nine_deep
  /\ arr_get None (menuHistory (pos (select Fixture.nine_deep))) 9 = None.
Proof.
  repeat apply conj; vm_compute; try reflexivity.
  repeat apply conj; try reflexivity; discriminate.
Qed.

(** C3, amended: the history arrays have ten slots, but [select()] descends
    only from a level below 9.  Past its guards, on an item with children
    whose callback is not a return: from a level below 9 it pushes exactly
    one triple (the slot at the current level receives the menu pointer,
    the size and the selection, the other slots are not written) and the
    level grows by one; from level 9 on the descent is dropped and the
    level, the menu pointer, the size and the selection stay as they are.
    In every state reached from [setup()] the level is at most 9. *)
Theorem select_depth_limit :
  (forall s,
     history_slots (pos s) -> 0 <= menuLevel (pos s) <= 255 ->
     selectable s ->
     MenuItem.hasSubMenu (selectedItem s) = true ->
     MenuItem.getCallback (selectedItem s) <> Some CbBack ->
     (menuLevel (pos s) < 9 ->
        getCurrentLevel (select s) = getCurrentLevel s + 1
        /\ pos (select s) = pushed (selectedItem s) (pos s)
        /\ arr_get None (menuHistory (pos (select s))) (menuLevel (pos s))
           = currentMenu (pos s)
        /\ arr_get 0 (menuSizeHistory (pos (select s))) (menuLevel (pos s))
           = currentMenuSize (pos s)
        /\ arr_get 0 (selectedIndexHistory (pos (select s))) (menuLevel (pos s))
           = selectedIndex (pos s)
        /\ (forall i, 0 <= i -> i <> menuLevel (pos s) ->
              arr_get None (menuHistory (pos (select s))) i
              = arr_get None (menuHistory (pos s)) i
              /\ arr_get 0 (menuSizeHistory (pos (select s))) i
                 = arr_get 0 (menuSizeHistory (pos s)) i
              /\ arr_get 0 (selectedIndexHistory (pos (select s))) i
                 = arr_get 0 (selectedIndexHistory (pos s)) i))
     /\ (9 <= menuLevel (pos s) ->
           getCurrentLevel (select s) = getCurrentLevel s
           /\ place (select s) = place s
           /\ pos (select s) = pos s))
  /\ (forall raw d buz root size m ops,
        store_typed (items raw) -> history_slots (pos raw) -> 0 < size <= 255 ->
        getCurrentLevel (run ops (boot raw d buz root size m)) <= 9).
Proof.
  split.
  - intros s (Hs1 & Hs2 & Hs3) Hl Hsel Hsub Hcb. unfold MenuPtr in Hs1.
    rewrite (select_unfold s Hsel). cbv zeta. rewrite Hsub.
    pose proof (afterCallback_no_back s Hcb) as Hp.
    unfold getCurrentLevel, place. rewrite Hp.
    split; intros Hlev.
    + destruct (Z.ltb_spec (menuLevel (pos s)) 9); [ | lia ].
      rewrite enterMenu_pos. cbn [pos set_pos].
      unfold pushed at 1. cbn [menuLevel].
      rewrite to_u8_id by lia.
      split; [ reflexivity | split; [ reflexivity | ] ].
      cbn [pushed menuHistory menuSizeHistory selectedIndexHistory].
      rewrite !arr_get_set_eq by lia.
      repeat split; try reflexivity; apply arr_get_set_ne; lia.
    + destruct (Z.ltb_spec (menuLevel (pos s)) 9); [ lia | ].
      rewrite Hp. repeat split.
  - intros raw d buz root size m ops Hst Hslots Hsize.
    destruct (boot_invariant raw d buz root size m) as (I & _); try assumption.
    apply (ni_level _ (run_invariant ops _ I)).
Qed.

(** The limit on the menus of [main.cpp]: "Setting" opens from the root. *)
Lemma select_depth_limit_witness :
  history_slots (pos Fixture.at_setting)
  /\ 0 <= menuLevel (pos Fixture.at_setting) <= 255
  /\ selectable Fixture.at_setting
  /\ MenuItem.hasSubMenu (selectedItem Fixture.at_setting) = true
  /\ MenuItem.getCallback (selectedItem Fixture.at_setting) <> Some CbBack
  /\ menuLevel (pos Fixture.at_setting) < 9
  /\ getCurrentLevel (select Fixture.at_setting)
     = getCurrentLevel Fixture.at_setting + 1.
Proof.
  assert (H1 : history_slots (pos Fixture.at_setting))
    by (vm_compute; repeat split).
  assert (H2 : 0 <= menuLevel (pos Fixture.at_setting) <= 255)
    by (vm_compute; split; discriminate).
  assert (H3 : selectable Fixture.at_setting)
    by (vm_compute; repeat apply conj; try reflexivity; discriminate).
  assert (H4 : MenuItem.hasSubMenu (selectedItem Fixture.at_setting) = true)
    by (vm_compute; reflexivity).
  assert (H5 : MenuItem.getCallback (selectedItem Fixture.at_setting) <> Some CbBack)
    by (vm_compute; discriminate).
  assert (H6 : menuLevel (pos Fixture.at_setting) < 9) by (vm_compute; reflexivity).
  repeat (split; [ assumption | ]).
  exact (proj1 (proj1 (proj1 select_depth_limit Fixture.at_setting H1 H2 H3 H4 H5) H6)).
Defined.

(** * Leaving the window sequence *)

(** C4, at the failing input: the window sequence is requested by an item
    of the root menu.  At level 0 [back()] returns before it looks at the
    window flag, so it changes nothing: the window flag and the ban stay
    set, and with the ban set [selectNext], [selectPrev] and [select] are
    no-ops as well.  The general fact is that [back()] is the identity at
    level 0 whatever the window flag is. *)
Theorem back_in_window_at_root :
  (forall s, menuLevel (pos s) = 0 -> back s = s)
  /\ type (slider Fixture.window_open) = true
  /\ BanOperation (slider Fixture.window_open) = true
  /\ getCurrentLevel Fixture.window_open = 0
  /\ back Fixture.window_open = Fixture.window_open
  /\ selectNext Fixture.window_open = Fixture.window_open
  /\ selectPrev Fixture.window_open = Fixture.window_open
  /\ select Fixture.window_open = Fixture.window_open.
Proof.
  split; [ intros s H; apply back_root; lia | ].
  repeat apply conj; vm_compute; reflexivity.
Qed.

(** * The animation engine *)

Lemma animateSingleValue_converged s cur tgt vel err dt :
  converged cur tgt = true ->
  animateSingleValue s cur tgt vel err dt = (true, (tgt, F32.zero, F32.zero)).
Proof.
  unfold converged, animateSingleValue. intros ->. reflexivity.
Qed.

Lemma animateSingleValue_done s cur tgt vel err dt :
  fst (animateSingleValue s cur tgt vel err dt) = converged cur tgt.
Proof.
  unfold converged, animateSingleValue.
  destruct (F32.ltb (F32.abs (F32.sub cur tgt)) F32.c0_5); [ reflexivity | ].
  destruct (_animationForm (slider s) =? 1); [ reflexivity | ].
  destruct (_animationForm (slider s) =? 2); [ | reflexivity ].
  destruct (F32.leb dt F32.zero); reflexivity.
Qed.

(** The four flags of a tick are the convergence tests on the values the
    tick started from; the targets and the width's own error term are not
    written. *)
Lemma animateSlider_flags s dt a :
  fst (animateSlider s dt a)
  = (converged (x_cur a) (x_tgt a), converged (y_cur a) (y_tgt a),
     converged (w_cur a) (w_tgt a), converged (h_cur a) (h_tgt a)).
Proof.
  unfold animateSlider.
  pose proof (animateSingleValue_done s (x_cur a) (x_tgt a) (x_vel a) (x_err a) dt) as Hx.
  destruct (animateSingleValue s (x_cur a) (x_tgt a) (x_vel a) (x_err a) dt)
    as [xD [[xc xv] xe]]; cbn [fst] in Hx.
  cbn [store_x y_cur y_tgt y_vel y_err].
  pose proof (animateSingleValue_done s (y_cur a) (y_tgt a) (y_vel a) (y_err a) dt) as Hy.
  destruct (animateSingleValue s (y_cur a) (y_tgt a) (y_vel a) (y_err a) dt)
    as [yD [[yc yv] ye]]; cbn [fst] in Hy.
  cbn [store_y w_cur w_tgt w_vel h_err].
  pose proof (animateSingleValue_done s (w_cur a) (w_tgt a) (w_vel a) (h_err a) dt) as Hw.
  destruct (animateSingleValue s (w_cur a) (w_tgt a) (w_vel a) (h_err a) dt)
    as [wD [[wc wv] we]]; cbn [fst] in Hw.
  cbn [store_w_herr h_cur h_tgt h_vel h_err].
  pose proof (animateSingleValue_done s (h_cur a) (h_tgt a) (h_vel a) we dt) as Hh.
  destruct (animateSingleValue s (h_cur a) (h_tgt a) (h_vel a) we dt)
    as [hD [[hc hv] he]]; cbn [fst] in Hh.
  cbn [fst]. congruence.
Qed.

Lemma animateSlider_kept s dt a :
  targetRect (snd (animateSlider s dt a)) = targetRect a
  /\ w_err (snd (animateSlider s dt a)) = w_err a.
Proof.
  unfold animateSlider.
  destruct (animateSingleValue s (x_cur a) (x_tgt a) (x_vel a) (x_err a) dt)
    as [xD [[xc xv] xe]].
  cbn [store_x y_cur y_tgt y_vel y_err].
  destruct (animateSingleValue s (y_cur a) (y_tgt a) (y_vel a) (y_err a) dt)
    as [yD [[yc yv] ye]].
  cbn [store_y w_cur w_tgt w_vel h_err].
  destruct (animateSingleValue s (w_cur a) (w_tgt a) (w_vel a) (h_err a) dt)
    as [wD [[wc wv] we]].
  cbn [store_w_herr h_cur h_tgt h_vel h_err].
  destruct (animateSingleValue s (h_cur a) (h_tgt a) (h_vel a) we dt)
    as [hD [[hc hv] he]].
  split; reflexivity.
Qed.

(** A tick on four converged components puts every current value on its
    target and clears the velocities. *)
Lemma animateSlider_settled s dt a :
  converged (x_cur a) (x_tgt a) = true -> converged (y_cur a) (y_tgt a) = true ->
  converged (w_cur a) (w_tgt a) = true -> converged (h_cur a) (h_tgt a) = true ->
  snd (animateSlider s dt a)
  = mkAnimationState (x_tgt a) (y_tgt a) (w_tgt a) (h_tgt a)
      (x_tgt a) (y_tgt a) (w_tgt a) (h_tgt a)
      F32.zero F32.zero F32.zero F32.zero
      F32.zero F32.zero (w_err a) F32.zero.
Proof.
  intros Hx Hy Hw Hh. unfold animateSlider.
  rewrite (animateSingleValue_converged s _ _ _ _ dt Hx).
  cbn [store_x y_cur y_tgt y_vel y_err].
  rewrite (animateSingleValue_converged s _ _ _ _ dt Hy).
  cbn [store_y w_cur w_tgt w_vel h_err].
  rewrite (animateSingleValue_converged s _ _ _ _ dt Hw).
  cbn [store_w_herr h_cur h_tgt h_vel h_err].
  rewrite (animateSingleValue_converged s _ _ _ _ dt Hh).
  reflexivity.
Qed.

(** The shape of a tick that was due: the animation step, then drawing,
    then the completion test on the four flags. *)
Lemma updateAnimation_due ty s :
  animationActive (slider s) = true ->
  animInterval (slider s) <= to_u32 (millis s - lastAnimTime (slider s)) ->
  let s1 := set_lastAnimTime (millis s) s in
  let dt := tickDeltaTime (to_u32 (millis s - lastAnimTime (slider s)))
                          (animInterval (slider s)) in
  let r := animateSlider s1 dt (sliderAnim (slider s)) in
  exists t,
    draw_only (set_sliderAnim (snd r) s1) t
    /\ updateAnimation ty s
       = (let '(xD, yD, wD, hD) := fst r in
          if xD && yD && wD && hD
          then set_needFullRedraw true (set_animationActive false t)
          else t).
Proof.
  intros Hact Hdue. cbv zeta. unfold updateAnimation.
  rewrite Hact. cbn [negb].
  destruct (Z.ltb_spec (to_u32 (millis s - lastAnimTime (slider s)))
              (animInterval (slider s))); [ lia | ].
  change (sliderAnim (slider (set_lastAnimTime (millis s) s)))
    with (sliderAnim (slider s)).
  destruct (animateSlider (set_lastAnimTime (millis s) s)
              (tickDeltaTime (to_u32 (millis s - lastAnimTime (slider s)))
                 (animInterval (slider s)))
              (sliderAnim (slider s))) as [[[[xD yD] wD] hD] a'].
  cbn [fst snd].
  set (s1 := set_sliderAnim a' _).
  match goal with
  | |- exists t, _ /\ (if _ then set_needFullRedraw true (set_animationActive false ?u)
                       else _) = _ => exists u
  end.
  split; [ | reflexivity ].
  match goal with |- context [if ?c then set_lastSelectedRect _ _ else _] => destruct c end;
    [ | reflexivity ].
  etransitivity; [ | apply set_lastSelectedRect_draw ].
  match goal with
  | |- draw_only _ (if negb ty then drawAnimatedSlider ?u else drawAnimatedWindow _) =>
      assert (H3 : draw_only s1 u)
  end.
  { match goal with
    | |- context [if ?c then drawMenuItem _ _ _ else _] => destruct c
    end;
      [ etransitivity; [ | apply drawMenuItem_draw ] | ];
      match goal with |- context [if ?c then _ else _] => destruct c end;
      solve [ reflexivity | apply draw_draw ]. }
  etransitivity; [ exact H3 | ].
  destruct (negb ty); [ apply drawAnimatedSlider_draw | apply drawAnimatedWindow_draw ].
Qed.

(** A tick that clears [animationActive]: it was due, the four components
    were within tolerance, and it leaves them on their targets at rest. *)
Lemma updateAnimation_cleared ty s :
  animationActive (slider s) = true ->
  animationActive (slider (updateAnimation ty s)) = false ->
  let a := sliderAnim (slider s) in
  (converged (x_cur a) (x_tgt a) = true /\ converged (y_cur a) (y_tgt a) = true
   /\ converged (w_cur a) (w_tgt a) = true /\ converged (h_cur a) (h_tgt a) = true)
  /\ sliderAnim (slider (updateAnimation ty s))
     = mkAnimationState (x_tgt a) (y_tgt a) (w_tgt a) (h_tgt a)
         (x_tgt a) (y_tgt a) (w_tgt a) (h_tgt a)
         F32.zero F32.zero F32.zero F32.zero
         F32.zero F32.zero (w_err a) F32.zero.
Proof.
  intros Hact Hoff. cbv zeta.
  destruct (Z.lt_ge_cases (to_u32 (millis s - lastAnimTime (slider s)))
              (animInterval (slider s))) as [Hnot | Hdue].
  { exfalso. unfold updateAnimation in Hoff. rewrite Hact in Hoff. cbn [negb] in Hoff.
    destruct (Z.ltb_spec (to_u32 (millis s - lastAnimTime (slider s)))
                (animInterval (slider s))); [ congruence | lia ]. }
  destruct (updateAnimation_due ty s Hact ltac:(lia)) as (t & Hdraw & Heq).
  cbv zeta in Hdraw, Heq.
  rewrite animateSlider_flags in Heq.
  change (sliderAnim (slider (set_lastAnimTime (millis s) s)))
    with (sliderAnim (slider s)) in *.
  pose proof (do_slider _ _ Hdraw) as Hsl.
  rewrite Heq in Hoff |- *.
  destruct (converged (x_cur (sliderAnim (slider s))) (x_tgt (sliderAnim (slider s)))) eqn:Hx;
    [ | exfalso; cbn [andb] in Hoff; rewrite Hsl in Hoff; cbn in Hoff; congruence ].
  destruct (converged (y_cur (sliderAnim (slider s))) (y_tgt (sliderAnim (slider s)))) eqn:Hy;
    [ | exfalso; cbn [andb] in Hoff; rewrite Hsl in Hoff; cbn in Hoff; congruence ].
  destruct (converged (w_cur (sliderAnim (slider s))) (w_tgt (sliderAnim (slider s)))) eqn:Hw;
    [ | exfalso; cbn [andb] in Hoff; rewrite Hsl in Hoff; cbn in Hoff; congruence ].
  destruct (converged (h_cur (sliderAnim (slider s))) (h_tgt (sliderAnim (slider s)))) eqn:Hh;
    [ | exfalso; cbn [andb] in Hoff; rewrite Hsl in Hoff; cbn in Hoff; congruence ].
  split; [ repeat split | ].
  cbn [andb].
  change (sliderAnim (slider (set_needFullRedraw true (set_animationActive false t))))
    with (sliderAnim (slider t)).
  rewrite Hsl. cbn [slider set_sliderAnim set_slider sliderAnim].
  apply animateSlider_settled; assumption.
Qed.

(** ** The rectangle of a row depends on the control state only *)

Lemma calculateItemWidth_ext i s s' :
  pos s' = pos s -> layout s' = layout s -> style s' = style s ->
  items s' = items s -> Tft.textWidthOf (tft s') = Tft.textWidthOf (tft s) ->
  fst (calculateItemWidth i s') = fst (calculateItemWidth i s).
Proof.
  intros Hp Hl Hst Hi Hw.
  unfold calculateItemWidth, calculateTextWidth. rewrite Hp, Hl.
  destruct (currentMenu (pos s)); [ | reflexivity ].
  destruct (currentMenuSize (pos s) <=? i); [ reflexivity | ].
  cbn [fst items setTextSize set_tft tft style Tft.textWidth Tft.setTextSize
       Tft.textWidthOf Tft.textsize].
  rewrite Hst, Hi, Hw. reflexivity.
Qed.

Lemma calculateSliderTargetRect_ext i s s' :
  pos s' = pos s -> layout s' = layout s -> style s' = style s ->
  mode s' = mode s -> items s' = items s ->
  Tft.textWidthOf (tft s') = Tft.textWidthOf (tft s) ->
  fst (calculateSliderTargetRect i s') = fst (calculateSliderTargetRect i s).
Proof.
  intros Hp Hl Hst Hm Hi Hw.
  pose proof (calculateItemWidth_ext i s s' Hp Hl Hst Hi Hw) as E.
  unfold calculateSliderTargetRect. rewrite Hp, Hl, Hm.
  destruct (calculateItemWidth i s') as [w' t'].
  destruct (calculateItemWidth i s) as [w t].
  cbn [fst] in E. subst w'.
  destruct (_sliderDisplayMode (mode s)); reflexivity.
Qed.

(** The snap: animation off, the current rectangle on the rectangle of the
    selected row. *)
Lemma snapToSelection_rect s :
  animationActive (slider (snapToSelection s)) = false
  /\ currentRect (sliderAnim (slider (snapToSelection s)))
     = fst (calculateSliderTargetRect (selectedIndex (pos (snapToSelection s)))
                                      (snapToSelection s)).
Proof.
  pose proof (snapToSelection_control s) as Hc.
  split.
  - unfold snapToSelection. split_rect. reflexivity.
  - rewrite (sc_pos _ _ Hc).
    rewrite (calculateSliderTargetRect_ext _ s (snapToSelection s));
      try apply Hc.
    unfold snapToSelection.
    pose proof (calculateSliderTargetRect_ext (selectedIndex (pos s)) s
                  (set_needFullRedraw true s) eq_refl eq_refl eq_refl eq_refl
                  eq_refl eq_refl) as E.
    change (selectedIndex (pos (set_needFullRedraw true s)))
      with (selectedIndex (pos s)).
    destruct (calculateSliderTargetRect (selectedIndex (pos s))
                (set_needFullRedraw true s)) as [r t].
    cbn [fst] in E. rewrite <- E. destruct r. reflexivity.
Qed.

Lemma selectNext_snap s :
  startIndex (pos (selectNext s)) <> startIndex (pos s) ->
  animationActive (slider (selectNext s)) = false
  /\ currentRect (sliderAnim (slider (selectNext s)))
     = fst (calculateSliderTargetRect (selectedIndex (pos (selectNext s)))
                                      (selectNext s)).
Proof.
  unfold selectNext.
  destruct ((currentMenuSize (pos s) =? 0)
            || (currentMenuSize (pos s) - 1 <=? selectedIndex (pos s)));
    [ congruence | ].
  destruct (BanOperation (slider s)); [ congruence | ].
  match goal with |- context [_sliderDisplayMode (mode ?t)] =>
    destruct (_sliderDisplayMode (mode t)) end.
  - match goal with |- context [if ?c then _ else _] => destruct c end.
    + intros _. apply snapToSelection_rect.
    + split_rect. intros H. exfalso. apply H.
      rewrite (sc_pos _ _ (startAnimationRect_control rect s0)), (sc_pos _ _ Hsc).
      reflexivity.
  - intros _. apply snapToSelection_rect.
Qed.

Lemma selectPrev_snap s :
  startIndex (pos (selectPrev s)) <> startIndex (pos s) ->
  animationActive (slider (selectPrev s)) = false
  /\ currentRect (sliderAnim (slider (selectPrev s)))
     = fst (calculateSliderTargetRect (selectedIndex (pos (selectPrev s)))
                                      (selectPrev s)).
Proof.
  unfold selectPrev.
  destruct ((currentMenuSize (pos s) =? 0) || (selectedIndex (pos s) =? 0));
    [ congruence | ].
  destruct (BanOperation (slider s)); [ congruence | ].
  match goal with |- context [_sliderDisplayMode (mode ?t)] =>
    destruct (_sliderDisplayMode (mode t)) end.
  - match goal with |- context [if ?c then _ else _] => destruct c end.
    + intros _. apply snapToSelection_rect.
    + split_rect. intros H. exfalso. apply H.
      rewrite (sc_pos _ _ (startAnimationRect_control rect s0)), (sc_pos _ _ Hsc).
      reflexivity.
  - intros _. apply snapToSelection_rect.
Qed.

(** C5, the claim as stated fails: with [animationActive = false], after
    the snap of a scrolling [selectNext] in follow-selection mode the
    slider's width is 121 while its stored target width is still 38, and
    after the snap of a step in fixed-top mode it is 150 against a stored
    target of 72 (both far outside the tolerance); after a switch of the
    display mode in the middle of a spring tween the vertical velocity is
    not zero. *)
Lemma slider_rest_counterexample :
  (startIndex (pos Fixture.scrolled) = 1
   /\ animationActive (slider Fixture.scrolled) = false
   /\ w_cur (sliderAnim (slider Fixture.scrolled)) = F32.of_Z 121
   /\ w_tgt (sliderAnim (slider Fixture.scrolled)) = F32.of_Z 38
   /\ converged (w_cur (sliderAnim (slider Fixture.scrolled)))
                (w_tgt (sliderAnim (slider Fixture.scrolled))) = false)
  /\ (animationActive (slider Fixture.snapped) = false
      /\ w_cur (sliderAnim (slider Fixture.snapped)) = F32.of_Z 150
      /\ w_tgt (sliderAnim (slider Fixture.snapped)) = F32.of_Z 72
      /\ converged (w_cur (sliderAnim (slider Fixture.snapped)))
                   (w_tgt (sliderAnim (slider Fixture.snapped))) = false)
  /\ (animationActive (slider Fixture.spring_interrupted) = false
      /\ y_vel (sliderAnim (slider Fixture.spring_interrupted)) <> F32.zero).
Proof.
  repeat apply conj; vm_compute; try reflexivity. discriminate.
Qed.

(** C5, amended: a tick that clears [animationActive] leaves each of the
    four components with [current = target] exactly and velocity zero; and
    after a [selectNext] or [selectPrev] that moves the viewport (a snap)
    [animationActive] is false and the slider's current rectangle is the
    rectangle [calculateSliderTargetRect] gives for the new selection. *)
Theorem slider_rest_states :
  (forall ty s,
     animationActive (slider s) = true ->
     animationActive (slider (updateAnimation ty s)) = false ->
     let a := sliderAnim (slider (updateAnimation ty s)) in
     currentRect a = targetRect a
     /\ x_vel a = F32.zero /\ y_vel a = F32.zero
     /\ w_vel a = F32.zero /\ h_vel a = F32.zero)
  /\ (forall s,
        startIndex (pos (selectNext s)) <> startIndex (pos s) ->
        animationActive (slider (selectNext s)) = false
        /\ currentRect (sliderAnim (slider (selectNext s)))
           = fst (calculateSliderTargetRect (selectedIndex (pos (selectNext s)))
                                            (selectNext s)))
  /\ (forall s,
        startIndex (pos (selectPrev s)) <> startIndex (pos s) ->
        animationActive (slider (selectPrev s)) = false
        /\ currentRect (sliderAnim (slider (selectPrev s)))
           = fst (calculateSliderTargetRect (selectedIndex (pos (selectPrev s)))
                                            (selectPrev s))).
Proof.
  split; [ | split; [ exact selectNext_snap | exact selectPrev_snap ] ].
  intros ty s Hact Hoff. cbv zeta.
  destruct (updateAnimation_cleared ty s Hact Hoff) as (_ & ->).
  repeat split.
Qed.

(** The two halves on concrete states: the tick that ends the tween armed
    by a descent, and the snap of a step down in fixed-top mode. *)
Lemma slider_rest_states_witness :
  (animationActive (slider Fixture.settled_tween) = true
   /\ animationActive (slider (updateAnimation false Fixture.settled_tween)) = false
   /\ currentRect (sliderAnim (slider (updateAnimation false Fixture.settled_tween)))
      = targetRect (sliderAnim (slider (updateAnimation false Fixture.settled_tween))))
  /\ (startIndex (pos (selectNext Fixture.fixed_two)) <> startIndex (pos Fixture.fixed_two)
      /\ animationActive (slider (selectNext Fixture.fixed_two)) = false).
Proof.
  assert (H1 : animationActive (slider Fixture.settled_tween) = true)
    by (vm_compute; reflexivity).
  assert (H2 : animationActive (slider (updateAnimation false Fixture.settled_tween))
               = false) by (vm_compute; reflexivity).
  assert (H3 : startIndex (pos (selectNext Fixture.fixed_two))
               <> startIndex (pos Fixture.fixed_two))
    by (vm_compute; discriminate).
  split.
  - split; [ exact H1 | split; [ exact H2 | ] ].
    exact (proj1 (proj1 slider_rest_states false Fixture.settled_tween H1 H2)).
  - split; [ exact H3 | ].
    exact (proj1 (proj1 (proj2 slider_rest_states) Fixture.fixed_two H3)).
Defined.

(** C6: in either form, a step of a component within the tolerance of 0.5
    puts it exactly on its target, zeroes its velocity and its error and
    reports it done, and a step reports done in no other case; a tick clears
    [animationActive] only when all four components of the slider were
    within tolerance. *)
Theorem convergence_rule :
  (forall s cur tgt vel err dt,
     converged cur tgt = true ->
     animateSingleValue s cur tgt vel err dt = (true, (tgt, F32.zero, F32.zero)))
  /\ (forall s cur tgt vel err dt,
        fst (animateSingleValue s cur tgt vel err dt) = converged cur tgt)
  /\ (forall ty s,
        animationActive (slider s) = true ->
        animationActive (slider (updateAnimation ty s)) = false ->
        let a := sliderAnim (slider s) in
        converged (x_cur a) (x_tgt a) = true /\ converged (y_cur a) (y_tgt a) = true
        /\ converged (w_cur a) (w_tgt a) = true /\ converged (h_cur a) (h_tgt a) = true).
Proof.
  split; [ exact animateSingleValue_converged | ].
  split; [ exact animateSingleValue_done | ].
  intros ty s Hact Hoff. apply (updateAnimation_cleared ty s Hact Hoff).
Qed.

(** A quarter of a pixel from the target under the spring model, and the
    tick that ends the tween armed by a descent. *)
Lemma convergence_rule_witness :
  (converged (F32.div (F32.of_Z 1) (F32.of_Z 4)) F32.zero = true
   /\ animateSingleValue Fixture.spring (F32.div (F32.of_Z 1) (F32.of_Z 4)) F32.zero
        (F32.of_Z 1) (F32.of_Z 3) F32.c0_1
      = (true, (F32.zero, F32.zero, F32.zero)))
  /\ (animationActive (slider Fixture.settled_tween) = true
      /\ animationActive (slider (updateAnimation false Fixture.settled_tween)) = false
      /\ converged (x_cur (sliderAnim (slider Fixture.settled_tween)))
                   (x_tgt (sliderAnim (slider Fixture.settled_tween))) = true).
Proof.
  assert (H0 : converged (F32.div (F32.of_Z 1) (F32.of_Z 4)) F32.zero = true)
    by (vm_compute; reflexivity).
  assert (H1 : animationActive (slider Fixture.settled_tween) = true)
    by (vm_compute; reflexivity).
  assert (H2 : animationActive (slider (updateAnimation false Fixture.settled_tween))
               = false) by (vm_compute; reflexivity).
  split.
  - split; [ exact H0 | ].
    exact (proj1 convergence_rule Fixture.spring _ F32.zero (F32.of_Z 1) (F32.of_Z 3)
             F32.c0_1 H0).
  - split; [ exact H1 | split; [ exact H2 | ] ].
    exact (proj1 (proj2 (proj2 convergence_rule) false Fixture.settled_tween H1 H2)).
Defined.

(** C7, at the failing input: form 1, a tween toward a wider rectangle one
    row lower (x and height already on target).  [updateAnimation] hands the
    width step the height's error term: the width's own accumulator is never
    written (in general), and on this input it is still zero after the tick
    where a width with its own accumulator has accumulated an error; the
    height step that follows has converged and clears the shared term, so
    the width's error is lost and the second tick already gives a different
    width. *)
Theorem width_tween_error_term :
  (forall s dt a, w_err (snd (animateSlider s dt a)) = w_err a)
  /\ _animationForm (slider Fixture.tween_armed) = 1
  /\ (let a0 := sliderAnim (slider Fixture.tween_armed) in
      let code := snd (animateSlider Fixture.tween_armed Fixture.dt20 a0) in
      let spec := snd (animateSlider_own_error Fixture.tween_armed Fixture.dt20 a0) in
      sliderAnim (slider (updateAnimation false (set_clock 20 Fixture.tween_armed))) = code
      /\ converged (w_cur a0) (w_tgt a0) = false
      /\ w_err code = F32.zero
      /\ h_err code = F32.zero
      /\ w_err spec <> F32.zero
      /\ w_cur (snd (animateSlider Fixture.tween_armed Fixture.dt20 code))
         <> w_cur (snd (animateSlider_own_error Fixture.tween_armed Fixture.dt20 spec))).
Proof.
  split; [ intros s dt a; apply animateSlider_kept | ].
  split; [ vm_compute; reflexivity | ].
  cbv zeta.
  repeat apply conj; vm_compute; try reflexivity; discriminate.
Qed.

(** C8, the claim as stated fails: under the spring model a step with
    [dt = 0] on a component a quarter of a pixel from its target moves it
    onto the target, clears its velocity and reports it done. *)
Lemma spring_zero_dt_counterexample :
  _animationForm (slider Fixture.spring) = 2
  /\ F32.leb F32.zero F32.zero = true
  /\ animateSingleValue Fixture.spring (F32.div (F32.of_Z 1) (F32.of_Z 4)) F32.zero
       (F32.of_Z 1) F32.zero F32.zero
     = (true, (F32.zero, F32.zero, F32.zero))
  /\ animateSingleValue Fixture.spring (F32.div (F32.of_Z 1) (F32.of_Z 4)) F32.zero
       (F32.of_Z 1) F32.zero F32.zero
     <> (false, (F32.div (F32.of_Z 1) (F32.of_Z 4), F32.of_Z 1, F32.zero)).
Proof.
  repeat apply conj; vm_compute; try reflexivity; discriminate.
Qed.

(** C8, amended: under the spring model a step with [dt <= 0] on a component
    outside the convergence tolerance changes neither its current value nor
    its velocity nor its error and does not report it done.  (A component
    inside the tolerance is snapped to its target whatever [dt] is.) *)
Theorem spring_skips_without_time s cur tgt vel err dt :
  _animationForm (slider s) = 2 ->
  F32.leb dt F32.zero = true ->
  converged cur tgt = false ->
  animateSingleValue s cur tgt vel err dt = (false, (cur, vel, err)).
Proof.
  intros Hform Hdt Hconv. unfold animateSingleValue.
  unfold converged in Hconv. rewrite Hconv, Hform, Hdt. reflexivity.
Qed.

(** Ten pixels from the target, moving, with [dt = 0]. *)
Lemma spring_skips_without_time_witness :
  _animationForm (slider Fixture.spring) = 2
  /\ F32.leb F32.zero F32.zero = true
  /\ converged (F32.of_Z 10) F32.zero = false
  /\ animateSingleValue Fixture.spring (F32.of_Z 10) F32.zero (F32.of_Z 3)
       (F32.of_Z 1) F32.zero
     = (false, (F32.of_Z 10, F32.of_Z 3, F32.of_Z 1)).
Proof.
  assert (H1 : _animationForm (slider Fixture.spring) = 2) by (vm_compute; reflexivity).
  assert (H2 : F32.leb F32.zero F32.zero = true) by (vm_compute; reflexivity).
  assert (H3 : converged (F32.of_Z 10) F32.zero = false) by (vm_compute; reflexivity).
  repeat (split; [ assumption | ]).
  exact (spring_skips_without_time Fixture.spring (F32.of_Z 10) F32.zero (F32.of_Z 3)
           (F32.of_Z 1) F32.zero H1 H2 H3).
Defined.

(** * The layout calculator *)

Lemma thumb_bounds_all :
  forallb thumb_bounds_ok (map Z.of_nat (seq 0 256)) = true.
Proof. vm_compute. reflexivity. Qed.

Lemma thumb_bounds H :
  0 <= H <= 255 ->
  0 <= scale_int H (F64.lit 8 100)
  /\ scale_int H (F64.lit 8 100) <= scale_int H (F64.lit 5 10)
  /\ scale_int H (F64.lit 5 10) <= H
  /\ scale_int H (F64.lit 5 10) <= 255
  /\ (13 <= H -> 1 <= scale_int H (F64.lit 8 100)).
Proof.
  intros HH.
  pose proof thumb_bounds_all as All. rewrite forallb_forall in All.
  specialize (All H).
  assert (Hin : In H (map Z.of_nat (seq 0 256))).
  { replace H with (Z.of_nat (Z.to_nat H)) by lia.
    apply in_map, in_seq. lia. }
  specialize (All Hin). unfold thumb_bounds_ok in All.
  repeat (apply andb_true_iff in All as [All ?]).
  repeat match goal with
         | H : (_ <=? _) = true |- _ => apply Z.leb_le in H
         end.
  repeat split; try assumption.
  intros H13.
  match goal with
  | H : (_ <? 13) || _ = true |- _ =>
      apply orb_true_iff in H as [H | H];
      [ apply Z.ltb_lt in H; lia | apply Z.leb_le in H; exact H ]
  end.
Qed.

(** The thumb's minimum height is the computed ratio clamped between 8% and
    50% of the track; the clamped value always fits in the track, so the
    boundary protection never replaces it. *)
Lemma calculateLayoutParameters_thumb s :
  let L := layout (calculateLayoutParameters s) in
  0 <= scrollbarH L <= 255
  /\ scale_int (scrollbarH L) (F64.lit 8 100) <= scrollbarThumbMinHeight L
  /\ scrollbarThumbMinHeight L <= scale_int (scrollbarH L) (F64.lit 5 10).
Proof.
  cbv zeta. unfold calculateLayoutParameters.
  cbn [layout set_layout set_needFullRedraw set_flicker scrollbarH
       scrollbarThumbMinHeight].
  match goal with
  | |- context [scale_int (to_u8 ?e) (F64.lit 8 100)] =>
      pose proof (to_u8_range e) as HH; generalize dependent (to_u8 e)
  end.
  intros H. 
  match goal with
  | |- context [Z.min ?t (scale_int H (F64.lit 5 10))] => generalize t
  end.
  intros t HH.
  destruct (thumb_bounds H HH) as (B0 & B1 & B2 & B3 & _).
  rewrite (to_u8_id (Z.max _ _)) by lia.
  destruct (Z.ltb_spec H (Z.max (scale_int H (F64.lit 8 100))
                                (Z.min t (scale_int H (F64.lit 5 10))))); lia.
Qed.

(** C9, the claim as stated fails: constructed on a panel too short for a
    row, with the menu still empty, the layout has
    [actualMaxDisplayItems = 0]; and with twenty items on a track of eight
    rows the thumb's minimum height is 0, and the scrollbar is drawn with a
    thumb of height 0. *)
Lemma layout_claim_counterexample :
  (currentMenuSize (pos Fixture.constructed_short) = 0
   /\ actualMaxDisplayItems (layout (calculateLayoutParameters Fixture.constructed_short))
      = 0)
  /\ (currentMenuSize (pos Fixture.short_track) = 20
      /\ scrollbarH (layout (calculateLayoutParameters Fixture.short_track)) = 8
      /\ scrollbarThumbMinHeight (layout (calculateLayoutParameters Fixture.short_track))
         = 0
      /\ Tft.screen (tft (drawScrollbar Fixture.short_track))
         = [FillRect 122 39 3 8 TFT_DARKGREY; FillRect 122 39 3 0 TFT_WHITE]).
Proof.
  repeat apply conj; vm_compute; reflexivity.
Qed.

(** The minimum thumb height is the clamped ratio itself. *)
Lemma calculateLayoutParameters_thumb_value s :
  let L := layout (calculateLayoutParameters s) in
  scrollbarThumbMinHeight L
  = Z.max (scale_int (scrollbarH L) (F64.lit 8 100))
      (Z.min (Fp.to_int (F32.mul (F32.of_Z (scrollbarH L))
                           (F32.div (F32.of_Z (actualMaxDisplayItems L))
                                    (F32.of_Z (currentMenuSize (pos s))))))
             (scale_int (scrollbarH L) (F64.lit 5 10))).
Proof.
  cbv zeta. unfold calculateLayoutParameters.
  cbn [layout set_layout set_needFullRedraw set_flicker scrollbarH
       scrollbarThumbMinHeight actualMaxDisplayItems pos setTextSize set_tft].
  match goal with
  | |- context [scale_int (to_u8 ?e) (F64.lit 8 100)] =>
      pose proof (to_u8_range e) as HH; generalize dependent (to_u8 e)
  end.
  intros H.
  match goal with
  | |- context [Z.min ?t (scale_int H (F64.lit 5 10))] => generalize t
  end.
  intros t HH.
  destruct (thumb_bounds H HH) as (B0 & B1 & B2 & B3 & _).
  rewrite (to_u8_id (Z.max _ _)) by lia.
  destruct (Z.ltb_spec H (Z.max (scale_int H (F64.lit 8 100))
                                (Z.min t (scale_int H (F64.lit 5 10))))); [ lia | ].
  reflexivity.
Qed.

(** C9, amended: [calculateLayoutParameters] leaves
    [actualMaxDisplayItems >= 1] whenever the current menu is not empty.
    The thumb's minimum height is the computed ratio of the track clamped
    between 8% and 50% of the track height, replaced by
    [max(trackHeight/2, 10)] when the track is smaller than that value; it
    is never negative, and it is at least 1 when the track height is 13 or
    more. *)
Theorem layout_guarantees s :
  let L := layout (calculateLayoutParameters s) in
  let clamped :=
    Z.max (scale_int (scrollbarH L) (F64.lit 8 100))
      (Z.min (Fp.to_int (F32.mul (F32.of_Z (scrollbarH L))
                           (F32.div (F32.of_Z (actualMaxDisplayItems L))
                                    (F32.of_Z (currentMenuSize (pos s))))))
             (scale_int (scrollbarH L) (F64.lit 5 10))) in
  (0 < currentMenuSize (pos s) -> 1 <= actualMaxDisplayItems L)
  /\ 0 <= actualMaxDisplayItems L <= 255
  /\ scale_int (scrollbarH L) (F64.lit 8 100) <= clamped
  /\ clamped <= scale_int (scrollbarH L) (F64.lit 5 10)
  /\ scrollbarThumbMinHeight L
     = (if scrollbarH L <? clamped
        then to_u8 (Z.max (Z.quot (scrollbarH L) 2) 10)
        else clamped)
  /\ 0 <= scrollbarThumbMinHeight L
  /\ (13 <= scrollbarH L -> 1 <= scrollbarThumbMinHeight L).
Proof.
  cbv zeta.
  destruct (calculateLayoutParameters_max s) as [Hm0 Hm1].
  destruct (calculateLayoutParameters_thumb s) as (HH & Hlo & Hhi).
  destruct (thumb_bounds _ HH) as (B0 & B1 & B2 & B3 & B13).
  pose proof (calculateLayoutParameters_thumb_value s) as Hv. cbv zeta in Hv.
  rewrite <- Hv.
  split; [ exact Hm1 | split; [ exact Hm0 | ] ].
  split; [ exact Hlo | split; [ exact Hhi | ] ].
  split; [ | split; [ lia | intros H13; specialize (B13 H13); lia ] ].
  destruct (Z.ltb_spec (scrollbarH (layout (calculateLayoutParameters s)))
              (scrollbarThumbMinHeight (layout (calculateLayoutParameters s))));
    [ lia | reflexivity ].
Qed.

(** The layout of the menus of [main.cpp] on the 240x320 panel. *)
Lemma layout_guarantees_witness :
  0 < currentMenuSize (pos Fixture.at_setting)
  /\ 1 <= actualMaxDisplayItems (layout (calculateLayoutParameters Fixture.at_setting)).
Proof.
  assert (H : 0 < currentMenuSize (pos Fixture.at_setting)) by (vm_compute; reflexivity).
  split; [ exact H | ].
  exact (proj1 (layout_guarantees Fixture.at_setting) H).
Defined.

(** * The scrollbar *)

(** C10: [drawScrollbar] draws nothing unless the menu has more items than
    the viewport and the viewport is not empty; when it draws, it draws the
    track and the thumb, and the divisor
    [currentMenuSize - actualMaxDisplayItems] of the thumb's position is at
    least 1. *)
Theorem drawScrollbar_guard s :
  let L := layout s in
  let size := currentMenuSize (pos s) in
  let maxItems := actualMaxDisplayItems L in
  (size <= maxItems \/ maxItems = 0 -> drawScrollbar s = s)
  /\ (maxItems < size -> maxItems <> 0 ->
      1 <= size - maxItems
      /\ Tft.screen (tft (drawScrollbar s))
         = Tft.screen (tft s)
           ++ [FillRect (scrollbarX L) (scrollbarY L) (scrollbarW L) (scrollbarH L)
                 TFT_DARKGREY;
               FillRect (scrollbarX L)
                 (scrollbarY L
                  + Z.quot ((scrollbarH L
                             - Z.max (scrollbarThumbMinHeight L)
                                 (Z.quot (scrollbarH L * maxItems) size))
                            * startIndex (pos s))
                           (size - maxItems))
                 (scrollbarW L)
                 (Z.max (scrollbarThumbMinHeight L)
                    (Z.quot (scrollbarH L * maxItems) size))
                 TFT_WHITE])
  /\ (Tft.screen (tft (drawScrollbar s)) <> Tft.screen (tft s) ->
      maxItems < size /\ maxItems <> 0 /\ 1 <= size - maxItems).
Proof.
  cbv zeta. unfold drawScrollbar.
  destruct (Z.leb_spec (currentMenuSize (pos s)) (actualMaxDisplayItems (layout s)));
    destruct (Z.eqb_spec (actualMaxDisplayItems (layout s)) 0); cbn [orb].
  - repeat split; try reflexivity; try lia; congruence.
  - repeat split; try reflexivity; try lia; congruence.
  - repeat split; try reflexivity; try lia; congruence.
  - split; [ intros [ | ]; lia | ].
    split; [ intros _ _ | intros _; repeat split; lia ].
    split; [ lia | ].
    cbn [draw set_tft tft Tft.draw Tft.screen layout pos].
    rewrite <- app_assoc. reflexivity.
Qed.

(** Three items on two rows: the scrollbar is drawn, the divisor is 1. *)
Lemma drawScrollbar_guard_witness :
  actualMaxDisplayItems (layout Fixture.three_on_two)
  < currentMenuSize (pos Fixture.three_on_two)
  /\ actualMaxDisplayItems (layout Fixture.three_on_two) <> 0
  /\ 1 <= currentMenuSize (pos Fixture.three_on_two)
          - actualMaxDisplayItems (layout Fixture.three_on_two).
Proof.
  assert (H1 : actualMaxDisplayItems (layout Fixture.three_on_two)
               < currentMenuSize (pos Fixture.three_on_two))
    by (vm_compute; reflexivity).
  assert (H2 : actualMaxDisplayItems (layout Fixture.three_on_two) <> 0)
    by (vm_compute; discriminate).
  split; [ exact H1 | split; [ exact H2 | ] ].
  exact (proj1 (proj1 (proj2 (drawScrollbar_guard Fixture.three_on_two)) H1 H2)).
Defined.

(** * The key library *)

Lemma to_u8_idem z : to_u8 (to_u8 z) = to_u8 z.
Proof. apply to_u8_id, to_u8_range. Qed.

Lemma to_u32_range z : 0 <= to_u32 z < 4294967296.
Proof. unfold to_u32. apply Z.mod_pos_bound. lia. Qed.

Lemma to_u32_id z : 0 <= z < 4294967296 -> to_u32 z = z.
Proof. intros H. unfold to_u32. apply Z.mod_small. lia. Qed.

Lemma find_seqZ p n : forall m,
  find (fun i => i =? p) (seqZ m (Z.of_nat n)) =
  if (m <=? p) && (p <? m + Z.of_nat n) then Some p else None.
Proof.
  induction n as [|n IH]; intros m.
  - rewrite seqZ_nil by lia.
    destruct (Z.leb_spec m p), (Z.ltb_spec p (m + Z.of_nat 0)); try reflexivity; lia.
  - rewrite seqZ_cons by lia. cbn [find].
    destruct (Z.eqb_spec m p) as [->|Hne].
    + destruct (Z.leb_spec p p), (Z.ltb_spec p (p + Z.of_nat (S n)));
        try reflexivity; lia.
    + replace (Z.pred (Z.of_nat (S n))) with (Z.of_nat n) by lia.
      rewrite IH.
      destruct (Z.leb_spec (Z.succ m) p), (Z.ltb_spec p (Z.succ m + Z.of_nat n)),
        (Z.leb_spec m p), (Z.ltb_spec p (m + Z.of_nat (S n))); try reflexivity; lia.
Qed.

(** The lookup loop in closed form. *)
Lemma getKeyIndex_cases pin k b :
  0 <= KeyLib.keyCount k ->
  KeyLib.getKeyIndex pin k b =
    if to_u8 pin <? KeyLib.keyCount k then (to_u8 pin, k, b)
    else if KeyLib.keyCount k <? KeyLib.MAX_KEYS then
      (KeyLib.keyCount k,
       KeyLib.mk (KeyLib.keyStates k) (to_i32 (KeyLib.keyCount k + 1))
         (KeyLib.debounceDelay k),
       Board.pinMode (to_u8 pin) Hw.INPUT_PULLUP b)
    else (0, k, b).
Proof.
  intros Hc. unfold KeyLib.getKeyIndex.
  rewrite <- (Z2Nat.id (KeyLib.keyCount k)) at 1 by exact Hc.
  rewrite find_seqZ. rewrite Z2Nat.id by exact Hc.
  pose proof (to_u8_range pin).
  destruct (Z.leb_spec 0 (to_u8 pin)); [ | lia ].
  cbn [andb]. rewrite Z.add_0_l.
  destruct (to_u8 pin <? KeyLib.keyCount k); reflexivity.
Qed.

Lemma getKeyIndex_settled pin k b :
  KeyLib.table_ok k -> KeyLib.settled k pin ->
  KeyLib.getKeyIndex pin k b = (KeyLib.slot k pin, k, b).
Proof.
  intros [_ Hc] Hs. rewrite getKeyIndex_cases by lia. unfold KeyLib.slot.
  destruct (Z.ltb_spec (to_u8 pin) (KeyLib.keyCount k)); [ reflexivity | ].
  destruct Hs as [Hs|Hs]; [ lia | ].
  rewrite Hs. reflexivity.
Qed.

Lemma slot_range pin k : KeyLib.table_ok k -> 0 <= KeyLib.slot k pin < 10.
Proof.
  intros [_ Hc]. unfold KeyLib.slot, KeyLib.MAX_KEYS in *.
  pose proof (to_u8_range pin).
  destruct (Z.ltb_spec (to_u8 pin) (KeyLib.keyCount k)); lia.
Qed.

Lemma slot_to_u8 pin k : KeyLib.slot k (to_u8 pin) = KeyLib.slot k pin.
Proof. unfold KeyLib.slot. rewrite to_u8_idem. reflexivity. Qed.

Lemma settled_to_u8 pin k : KeyLib.settled k pin -> KeyLib.settled k (to_u8 pin).
Proof. unfold KeyLib.settled. rewrite to_u8_idem. tauto. Qed.

Lemma put_table_ok k pin st :
  KeyLib.table_ok k -> KeyLib.table_ok (KeyLib.put k pin st).
Proof.
  intros [Hl Hc]. split; cbn; [ rewrite length_arr_set; exact Hl | exact Hc ].
Qed.

Lemma put_settled k pin q st :
  KeyLib.settled k q -> KeyLib.settled (KeyLib.put k pin st) q.
Proof. intros H. exact H. Qed.

Lemma slot_put k pin q st : KeyLib.slot (KeyLib.put k pin st) q = KeyLib.slot k q.
Proof. reflexivity. Qed.

Lemma key_put k pin st :
  KeyLib.table_ok k -> KeyLib.key (KeyLib.put k pin st) pin = st.
Proof.
  intros Hk. unfold KeyLib.key. rewrite slot_put. cbn.
  pose proof (slot_range pin k Hk). destruct Hk as [Hl _].
  apply arr_get_set_eq; lia.
Qed.

Lemma put_put k pin a c :
  KeyLib.put (KeyLib.put k pin a) pin c = KeyLib.put k pin c.
Proof.
  unfold KeyLib.put, KeyLib.set_keyStates, KeyLib.slot. cbn.
  unfold arr_set.
  destruct ((if to_u8 pin <? KeyLib.keyCount k then to_u8 pin else 0) <? 0);
    [ reflexivity | ].
  rewrite list_insert_insert_eq. reflexivity.
Qed.

Lemma put_to_u8 k pin st : KeyLib.put k (to_u8 pin) st = KeyLib.put k pin st.
Proof. unfold KeyLib.put. rewrite slot_to_u8. reflexivity. Qed.

Lemma key_to_u8 k pin : KeyLib.key k (to_u8 pin) = KeyLib.key k pin.
Proof. unfold KeyLib.key. rewrite slot_to_u8. reflexivity. Qed.

(** [updateKeyState] once lookups have settled: the slot of the pin goes
    through [debounce]. *)
Lemma updateKeyState_settled pin k b :
  KeyLib.table_ok k -> KeyLib.settled k pin ->
  KeyLib.updateKeyState pin k b = (KeyLib.put k pin (KeyLib.sampled pin k b), b).
Proof.
  intros Hk Hs. unfold KeyLib.updateKeyState.
  rewrite getKeyIndex_settled by auto using settled_to_u8.
  rewrite slot_to_u8. reflexivity.
Qed.

(** The head shared by the three polls. *)
Lemma poll_head pin k b :
  KeyLib.table_ok k -> KeyLib.settled k pin ->
  KeyLib.updateKeyState (to_u8 pin) k b
  = (KeyLib.put k pin (KeyLib.sampled pin k b), b)
  /\ KeyLib.getKeyIndex (to_u8 pin) (KeyLib.put k pin (KeyLib.sampled pin k b)) b
     = (KeyLib.slot k pin, KeyLib.put k pin (KeyLib.sampled pin k b), b)
  /\ arr_get KeyLib.released
       (KeyLib.keyStates (KeyLib.put k pin (KeyLib.sampled pin k b)))
       (KeyLib.slot k pin) = KeyLib.sampled pin k b.
Proof.
  intros Hk Hs. repeat apply conj.
  - rewrite updateKeyState_settled by auto using settled_to_u8.
    rewrite put_to_u8. unfold KeyLib.sampled.
    rewrite to_u8_idem, key_to_u8. reflexivity.
  - rewrite getKeyIndex_settled
      by (auto using settled_to_u8, put_table_ok, put_settled).
    rewrite slot_put, slot_to_u8. reflexivity.
  - apply (key_put k pin (KeyLib.sampled pin k b) Hk).
Qed.

Lemma write_back k pin st st' :
  KeyLib.set_keyStates
    (arr_set (KeyLib.keyStates (KeyLib.put k pin st)) (KeyLib.slot k pin) st')
    (KeyLib.put k pin st) = KeyLib.put k pin st'.
Proof. exact (put_put k pin st st'). Qed.

Lemma singlePress_settled pin k b :
  KeyLib.table_ok k -> KeyLib.settled k pin ->
  let st := KeyLib.sampled pin k b in
  KeyLib.singlePress pin k b =
    if KeyLib.singlePressDetected st then
      (true,
       KeyLib.put k pin
         (KeyLib.mkKeyState (KeyLib.lastState st) (KeyLib.currentState st)
            (KeyLib.lastDebounceTime st) (KeyLib.lastPressTime st)
            (KeyLib.lastReleaseTime st) true false (KeyLib.pressCount st)), b)
    else (false, KeyLib.put k pin st, b).
Proof.
  intros Hk Hs st. destruct (poll_head pin k b Hk Hs) as (E1 & E2 & E3).
  unfold KeyLib.singlePress. rewrite E1, E2, E3. fold st.
  destruct (KeyLib.singlePressDetected st); [ | reflexivity ].
  rewrite write_back. reflexivity.
Qed.

Lemma longPress_settled pin T k b :
  KeyLib.table_ok k -> KeyLib.settled k pin ->
  let st := KeyLib.sampled pin k b in
  KeyLib.longPress pin T k b =
    if KeyLib.currentState st && negb (KeyLib.pressHandled st)
       && (to_u32 T <=? to_u32 (Board.millis b - KeyLib.lastPressTime st))
    then
      (true,
       KeyLib.put k pin
         (KeyLib.mkKeyState (KeyLib.lastState st) (KeyLib.currentState st)
            (KeyLib.lastDebounceTime st) (KeyLib.lastPressTime st)
            (KeyLib.lastReleaseTime st) true false (KeyLib.pressCount st)), b)
    else (false, KeyLib.put k pin st, b).
Proof.
  intros Hk Hs st. destruct (poll_head pin k b Hk Hs) as (E1 & E2 & E3).
  unfold KeyLib.longPress. rewrite E1, E2, E3. fold st.
  destruct (KeyLib.currentState st && negb (KeyLib.pressHandled st));
    [ | reflexivity ].
  cbn [andb].
  destruct (to_u32 T <=? to_u32 (Board.millis b - KeyLib.lastPressTime st));
    [ | reflexivity ].
  rewrite write_back. reflexivity.
Qed.

Lemma doublePress_settled pin T k b :
  KeyLib.table_ok k -> KeyLib.settled k pin ->
  let st := KeyLib.sampled pin k b in
  KeyLib.doublePress pin T k b =
    if 2 <=? KeyLib.pressCount st then
      if to_u32 (KeyLib.lastPressTime st - KeyLib.lastReleaseTime st) <=? to_u32 T
      then
        (true,
         KeyLib.put k pin
           (KeyLib.mkKeyState (KeyLib.lastState st) (KeyLib.currentState st)
              (KeyLib.lastDebounceTime st) (KeyLib.lastPressTime st)
              (KeyLib.lastReleaseTime st) true false 0), b)
      else if to_u32 T <? to_u32 (Board.millis b - KeyLib.lastPressTime st) then
        (false,
         KeyLib.put k pin
           (KeyLib.mkKeyState (KeyLib.lastState st) (KeyLib.currentState st)
              (KeyLib.lastDebounceTime st) (KeyLib.lastPressTime st)
              (KeyLib.lastReleaseTime st) (KeyLib.pressHandled st)
              (KeyLib.singlePressDetected st) 0), b)
      else (false, KeyLib.put k pin st, b)
    else (false, KeyLib.put k pin st, b).
Proof.
  intros Hk Hs st. destruct (poll_head pin k b Hk Hs) as (E1 & E2 & E3).
  unfold KeyLib.doublePress. rewrite E1, E2, E3. fold st.
  destruct (2 <=? KeyLib.pressCount st); [ | reflexivity ].
  destruct (to_u32 (KeyLib.lastPressTime st - KeyLib.lastReleaseTime st)
            <=? to_u32 T).
  - rewrite write_back. reflexivity.
  - destruct (to_u32 T <? to_u32 (Board.millis b - KeyLib.lastPressTime st));
      [ | reflexivity ].
    rewrite write_back. reflexivity.
Qed.

(** ** The table stays inside its ten slots *)

Lemma getKeyIndex_table_ok pin k b :
  KeyLib.table_ok k ->
  0 <= fst (fst (KeyLib.getKeyIndex pin k b)) < KeyLib.MAX_KEYS
  /\ KeyLib.table_ok (snd (fst (KeyLib.getKeyIndex pin k b))).
Proof.
  intros [Hl Hc]. rewrite getKeyIndex_cases by lia.
  pose proof (to_u8_range pin). unfold KeyLib.table_ok, KeyLib.MAX_KEYS in *.
  destruct (Z.ltb_spec (to_u8 pin) (KeyLib.keyCount k)); cbn; [ lia | ].
  destruct (Z.ltb_spec (KeyLib.keyCount k) 10); cbn; [ | lia ].
  unfold to_i32. rewrite Z.mod_small by lia. lia.
Qed.

Lemma updateKeyState_table_ok pin k b :
  KeyLib.table_ok k -> KeyLib.table_ok (fst (KeyLib.updateKeyState pin k b)).
Proof.
  intros Hk. unfold KeyLib.updateKeyState.
  pose proof (getKeyIndex_table_ok (to_u8 pin) k b Hk) as [_ H].
  destruct (KeyLib.getKeyIndex (to_u8 pin) k b) as [[i k'] b']. cbn in *.
  destruct H as [Hl Hc]. split; cbn; [ rewrite length_arr_set; exact Hl | exact Hc ].
Qed.

Lemma poll_table_ok p k b :
  KeyLib.table_ok k -> KeyLib.table_ok (snd (fst (KeyLib.poll p k b))).
Proof.
  intros Hk.
  assert (forall k0 i st, KeyLib.table_ok k0 ->
            KeyLib.table_ok (KeyLib.set_keyStates (arr_set (KeyLib.keyStates k0) i st) k0))
    as Hset.
  { intros k0 i st [Hl Hc]. split; cbn; [ rewrite length_arr_set; exact Hl | exact Hc ]. }
  destruct p as [pin|pin T|pin T]; cbn [KeyLib.poll];
    [ unfold KeyLib.singlePress | unfold KeyLib.doublePress | unfold KeyLib.longPress ];
    pose proof (updateKeyState_table_ok (to_u8 pin) k b Hk) as H1;
    destruct (KeyLib.updateKeyState (to_u8 pin) k b) as [k1 b1]; cbn in H1;
    pose proof (getKeyIndex_table_ok (to_u8 pin) k1 b1 H1) as [_ H2];
    destruct (KeyLib.getKeyIndex (to_u8 pin) k1 b1) as [[i k2] b2]; cbn in H2;
    repeat match goal with
      | |- context [if ?c then _ else _] => destruct c
      end; cbn; auto.
Qed.

Lemma ctor_table_ok d raw :
  length (KeyLib.keyStates raw) = 10%nat -> KeyLib.table_ok (KeyLib.ctor d raw).
Proof.
  intros Hl. split; cbn; [ | unfold KeyLib.MAX_KEYS; lia ].
  generalize (seqZ 0 KeyLib.MAX_KEYS). generalize (KeyLib.keyStates raw) Hl.
  intros l Hlen idx. revert l Hlen. induction idx as [|i idx IH]; intros l Hlen; cbn.
  - exact Hlen.
  - apply IH. rewrite length_arr_set. exact Hlen.
Qed.

Lemma run_table_ok hs : forall k b,
  KeyLib.table_ok k -> KeyLib.table_ok (fst (KeyLib.run hs (k, b))).
Proof.
  induction hs as [|h hs IH]; intros k b Hk; [ exact Hk | ].
  cbn [KeyLib.run fold_left]. destruct h as [p|c l]; cbn [KeyLib.happen].
  - pose proof (poll_table_ok p k b Hk) as H.
    destruct (KeyLib.poll p k b) as [[r k'] b']. apply (IH k' b' H).
  - apply (IH k _ Hk).
Qed.

(** ** What [debounce] does to a slot *)

Ltac debounce_cases st :=
  unfold KeyLib.debounce;
  destruct st as [ls cs ldt lpt lrt ph spd pc];
  cbn [KeyLib.lastState KeyLib.currentState KeyLib.lastDebounceTime
       KeyLib.lastPressTime KeyLib.lastReleaseTime KeyLib.pressHandled
       KeyLib.singlePressDetected KeyLib.pressCount].

Lemma to_u32_self z : to_u32 (z - z) = 0.
Proof. rewrite Z.sub_diag. reflexivity. Qed.

Lemma debounce_contract d now r st :
  0 <= d ->
  let st' := KeyLib.debounce d now r st in
  KeyLib.lastState st' = r
  /\ (r <> KeyLib.lastState st ->
      KeyLib.currentState st' = KeyLib.currentState st
      /\ KeyLib.lastDebounceTime st' = now)
  /\ (r = KeyLib.lastState st ->
      KeyLib.lastDebounceTime st' = KeyLib.lastDebounceTime st)
  /\ (KeyLib.currentState st' <> KeyLib.currentState st ->
      r = KeyLib.lastState st /\ KeyLib.currentState st' = r
      /\ d < to_u32 (now - KeyLib.lastDebounceTime st)).
Proof.
  intros Hd. cbv zeta. debounce_cases st.
  destruct r, ls, cs; cbn [Bool.eqb negb KeyLib.lastDebounceTime KeyLib.currentState
                            KeyLib.pressHandled];
    rewrite ?to_u32_self;
    repeat match goal with
      | |- context [?a <? ?b] => destruct (Z.ltb_spec a b)
      end;
    cbn; repeat apply conj; intros; try reflexivity; try congruence; try lia.
Qed.

(** A click appears in a slot only when the release of an unhandled press
    is accepted. *)
Lemma debounce_click d now r st :
  KeyLib.singlePressDetected (KeyLib.debounce d now r st) = true ->
  KeyLib.singlePressDetected st = true
  \/ (r = false /\ KeyLib.currentState st = true /\ KeyLib.pressHandled st = false
      /\ KeyLib.currentState (KeyLib.debounce d now r st) = false).
Proof.
  debounce_cases st.
  destruct r, ls, cs, ph, spd; cbn [Bool.eqb negb KeyLib.lastDebounceTime
                                    KeyLib.currentState KeyLib.pressHandled];
    repeat match goal with
      | |- context [?a <? ?b] => destruct (Z.ltb_spec a b)
      end;
    cbn; intros; auto; try discriminate.
Qed.

(** A handled slot becomes unhandled only by a press accepted now. *)
Lemma debounce_handled d now r st :
  KeyLib.pressHandled st = true ->
  KeyLib.pressHandled (KeyLib.debounce d now r st) = false ->
  KeyLib.lastPressTime (KeyLib.debounce d now r st) = now.
Proof.
  debounce_cases st.
  destruct r, ls, cs, ph; cbn [Bool.eqb negb KeyLib.lastDebounceTime
                               KeyLib.currentState KeyLib.pressHandled];
    repeat match goal with
      | |- context [?a <? ?b] => destruct (Z.ltb_spec a b)
      end;
    cbn; intros; auto; try discriminate.
Qed.

Lemma debounce_pressCount d now r st :
  KeyLib.pressCount (KeyLib.debounce d now r st) = KeyLib.pressCount st
  \/ KeyLib.pressCount (KeyLib.debounce d now r st)
     = to_i32 (KeyLib.pressCount st + 1).
Proof.
  debounce_cases st.
  destruct r, ls, cs, ph; cbn [Bool.eqb negb KeyLib.lastDebounceTime
                               KeyLib.currentState KeyLib.pressHandled];
    repeat match goal with
      | |- context [?a <? ?b] => destruct (Z.ltb_spec a b)
      end;
    cbn; auto.
Qed.

Lemma debounce_no_click_due d now st :
  KeyLib.no_click_due st -> KeyLib.no_click_due (KeyLib.debounce d now false st).
Proof.
  unfold KeyLib.no_click_due. debounce_cases st. intros [H1 H2]. subst spd.
  destruct cs, ph; try (specialize (H2 eq_refl); discriminate);
    destruct ls; cbn [Bool.eqb negb KeyLib.lastDebounceTime
                      KeyLib.currentState KeyLib.pressHandled];
    repeat match goal with
      | |- context [?a <? ?b] => destruct (Z.ltb_spec a b)
      end;
    cbn; split; intros; auto; try discriminate.
Qed.

(** ** Slots *)

(** X1: [getKeyIndex] never looks a pin up by its number.  A pin below the
    count is its own slot; any other pin takes the next free slot (and is
    set to INPUT_PULLUP) on every call while fewer than ten are taken, and
    slot 0 once the table is full.  The slot is always inside the array
    and the key states are not touched. *)
Theorem getKeyIndex_slot_rule pin k b :
  KeyLib.table_ok k ->
  let '(index, k', b') := KeyLib.getKeyIndex pin k b in
  0 <= index < KeyLib.MAX_KEYS
  /\ KeyLib.keyStates k' = KeyLib.keyStates k
  /\ (if to_u8 pin <? KeyLib.keyCount k
      then index = to_u8 pin /\ k' = k /\ b' = b
      else if KeyLib.keyCount k <? KeyLib.MAX_KEYS
      then index = KeyLib.keyCount k
           /\ KeyLib.keyCount k' = KeyLib.keyCount k + 1
           /\ Board.modes b' = Board.modes b ++ [(to_u8 pin, Hw.INPUT_PULLUP)]
      else index = 0 /\ k' = k /\ b' = b).
Proof.
  intros [Hl Hc]. rewrite getKeyIndex_cases by lia.
  pose proof (to_u8_range pin). unfold KeyLib.MAX_KEYS in *.
  destruct (Z.ltb_spec (to_u8 pin) (KeyLib.keyCount k)).
  - repeat apply conj; try reflexivity; lia.
  - destruct (Z.ltb_spec (KeyLib.keyCount k) 10).
    + repeat apply conj; try reflexivity; try lia.
      cbn. unfold to_i32. rewrite Z.mod_small by lia. lia.
    + repeat apply conj; try reflexivity; lia.
Qed.

(** The first two lookups of the button of [main.cpp] after construction
    take slots 0 and 1. *)
Lemma getKeyIndex_slot_rule_witness :
  KeyLib.table_ok Bench.keyLib
  /\ (let '(index, k', b') :=
        KeyLib.getKeyIndex Bench.BTN_SELECT Bench.keyLib (Bench.up 0) in
      0 <= index < KeyLib.MAX_KEYS
      /\ KeyLib.keyStates k' = KeyLib.keyStates Bench.keyLib
      /\ (if to_u8 Bench.BTN_SELECT <? KeyLib.keyCount Bench.keyLib
          then index = to_u8 Bench.BTN_SELECT /\ k' = Bench.keyLib /\ b' = Bench.up 0
          else if KeyLib.keyCount Bench.keyLib <? KeyLib.MAX_KEYS
          then index = KeyLib.keyCount Bench.keyLib
               /\ KeyLib.keyCount k' = KeyLib.keyCount Bench.keyLib + 1
               /\ Board.modes b'
                  = Board.modes (Bench.up 0)
                    ++ [(to_u8 Bench.BTN_SELECT, Hw.INPUT_PULLUP)]
          else index = 0 /\ k' = Bench.keyLib /\ b' = Bench.up 0)).
Proof.
  assert (H : KeyLib.table_ok Bench.keyLib)
    by (vm_compute; repeat apply conj; try reflexivity; discriminate).
  split; [ exact H | ].
  exact (getKeyIndex_slot_rule Bench.BTN_SELECT Bench.keyLib (Bench.up 0) H).
Defined.

(** X2: in every state reached from the constructor by polls of any pins
    while the clock and the pin levels change in any way, the table has its
    ten slots, the count is between 0 and 10, and the slot a lookup returns
    lies inside the array. *)
Theorem keylib_slots_in_bounds raw d b hs pin :
  length (KeyLib.keyStates raw) = 10%nat ->
  let '(k, b') := KeyLib.run hs (KeyLib.ctor d raw, b) in
  KeyLib.table_ok k
  /\ 0 <= fst (fst (KeyLib.getKeyIndex pin k b')) < KeyLib.MAX_KEYS.
Proof.
  intros Hl.
  pose proof (run_table_ok hs (KeyLib.ctor d raw) b (ctor_table_ok d raw Hl)) as H.
  destruct (KeyLib.run hs (KeyLib.ctor d raw, b)) as [k b']. cbn [fst] in H.
  split; [ exact H | ].
  exact (proj1 (getKeyIndex_table_ok pin k b' H)).
Qed.

Lemma keylib_slots_in_bounds_witness :
  length (KeyLib.keyStates Bench.raw_keys) = 10%nat
  /\ (let '(k, b') :=
        KeyLib.run [KeyLib.Polled (KeyLib.SinglePress 3);
                    KeyLib.World 80 (fun _ => false);
                    KeyLib.Polled (KeyLib.DoublePress 200 300)]
          (KeyLib.ctor 50 Bench.raw_keys, Bench.up 0) in
      KeyLib.table_ok k
      /\ 0 <= fst (fst (KeyLib.getKeyIndex 16 k b')) < KeyLib.MAX_KEYS).
Proof.
  assert (H : length (KeyLib.keyStates Bench.raw_keys) = 10%nat) by reflexivity.
  split; [ exact H | ].
  exact (keylib_slots_in_bounds Bench.raw_keys 50 (Bench.up 0)
           [KeyLib.Polled (KeyLib.SinglePress 3);
            KeyLib.World 80 (fun _ => false);
            KeyLib.Polled (KeyLib.DoublePress 200 300)] 16 H).
Defined.

Lemma debounce_keeps_click d now r st :
  KeyLib.singlePressDetected st = true ->
  KeyLib.singlePressDetected (KeyLib.debounce d now r st) = true.
Proof.
  debounce_cases st. intros ->.
  destruct r, ls, cs, ph; cbn [Bool.eqb negb KeyLib.lastDebounceTime
                               KeyLib.currentState KeyLib.pressHandled];
    repeat match goal with
      | |- context [?a <? ?b] => destruct (Z.ltb_spec a b)
      end;
    reflexivity.
Qed.

(** X3: once the table is full, pin 0 and every pin from 10 upward share
    slot 0: a click waiting there is reported to whichever of these pins
    polls [singlePress] first, whatever the level of that pin. *)
Theorem pins_share_slot_zero pin k b :
  KeyLib.table_ok k ->
  KeyLib.keyCount k = KeyLib.MAX_KEYS ->
  KeyLib.singlePressDetected (arr_get KeyLib.released (KeyLib.keyStates k) 0) = true ->
  to_u8 pin = 0 \/ 10 <= to_u8 pin ->
  fst (fst (KeyLib.singlePress pin k b)) = true.
Proof.
  intros Hk Hfull Hclick Hpin.
  assert (Hs : KeyLib.settled k pin) by (right; exact Hfull).
  assert (Hslot : KeyLib.slot k pin = 0).
  { unfold KeyLib.slot. rewrite Hfull. unfold KeyLib.MAX_KEYS.
    destruct (Z.ltb_spec (to_u8 pin) 10); [ | reflexivity ].
    destruct Hpin; lia. }
  rewrite singlePress_settled by assumption. cbv zeta.
  unfold KeyLib.sampled, KeyLib.key. rewrite Hslot.
  rewrite debounce_keeps_click by exact Hclick. reflexivity.
Qed.

(** A click made on pin 16 is reported to a poll of pin 17. *)
Lemma pins_share_slot_zero_witness :
  KeyLib.table_ok (fst Bench.click_waiting)
  /\ KeyLib.keyCount (fst Bench.click_waiting) = KeyLib.MAX_KEYS
  /\ KeyLib.singlePressDetected
       (arr_get KeyLib.released (KeyLib.keyStates (fst Bench.click_waiting)) 0) = true
  /\ fst (fst (KeyLib.singlePress 17 (fst Bench.click_waiting)
                 (snd Bench.click_waiting))) = true.
Proof.
  assert (H1 : KeyLib.table_ok (fst Bench.click_waiting))
    by (vm_compute; repeat apply conj; try reflexivity; discriminate).
  assert (H2 : KeyLib.keyCount (fst Bench.click_waiting) = KeyLib.MAX_KEYS)
    by (vm_compute; reflexivity).
  assert (H3 : KeyLib.singlePressDetected
                 (arr_get KeyLib.released
                    (KeyLib.keyStates (fst Bench.click_waiting)) 0) = true)
    by (vm_compute; reflexivity).
  assert (H4 : to_u8 17 = 0 \/ 10 <= to_u8 17)
    by (right; vm_compute; discriminate).
  split; [ exact H1 | split; [ exact H2 | split; [ exact H3 | ] ] ].
  exact (pins_share_slot_zero 17 (fst Bench.click_waiting)
           (snd Bench.click_waiting) H1 H2 H3 H4).
Defined.

(** ** Debouncing *)

(** X4: the debounce rule of [updateKeyState], for a pin whose lookups
    have settled.  The level read is remembered; a level that differs from
    the one read by the previous call restarts the timer and is not
    accepted by this call; the debounced state changes only to a level
    that two calls in a row have read, and only when more than
    [debounceDelay] ms have passed since the timer was restarted.  The
    slots of other pins are left alone. *)
Theorem updateKeyState_debounce pin k b :
  KeyLib.table_ok k -> KeyLib.settled k pin -> 0 <= KeyLib.debounceDelay k ->
  let st := KeyLib.key k pin in
  let k' := fst (KeyLib.updateKeyState pin k b) in
  let st' := KeyLib.key k' pin in
  KeyLib.lastState st' = KeyLib.down pin b
  /\ (KeyLib.down pin b <> KeyLib.lastState st ->
      KeyLib.currentState st' = KeyLib.currentState st
      /\ KeyLib.lastDebounceTime st' = Board.millis b)
  /\ (KeyLib.down pin b = KeyLib.lastState st ->
      KeyLib.lastDebounceTime st' = KeyLib.lastDebounceTime st)
  /\ (KeyLib.currentState st' <> KeyLib.currentState st ->
      KeyLib.down pin b = KeyLib.lastState st
      /\ KeyLib.currentState st' = KeyLib.down pin b
      /\ KeyLib.debounceDelay k
         < to_u32 (Board.millis b - KeyLib.lastDebounceTime st))
  /\ (forall q, KeyLib.slot k q <> KeyLib.slot k pin ->
      KeyLib.key k' q = KeyLib.key k q).
Proof.
  intros Hk Hs Hd. cbv zeta.
  rewrite updateKeyState_settled by assumption. cbn [fst].
  rewrite key_put by exact Hk.
  pose proof (debounce_contract (KeyLib.debounceDelay k) (Board.millis b)
                (KeyLib.down pin b) (KeyLib.key k pin) Hd) as H.
  cbv zeta in H. destruct H as (H1 & H2 & H3 & H4).
  repeat apply conj; try assumption.
  intros q Hq. unfold KeyLib.key. rewrite slot_put.
    unfold KeyLib.put. cbn.
    pose proof (slot_range pin k Hk). pose proof (slot_range q k Hk).
  apply arr_get_set_ne; lia.
Qed.

Lemma warmed_up_ok :
  KeyLib.table_ok (fst Bench.warmed_up)
  /\ KeyLib.settled (fst Bench.warmed_up) Bench.BTN_SELECT.
Proof.
  split.
  - vm_compute. repeat apply conj; try reflexivity; discriminate.
  - right. vm_compute. reflexivity.
Qed.

(** The button of [main.cpp] going down: the poll that first reads it down
    restarts the timer and accepts nothing. *)
Lemma updateKeyState_debounce_witness :
  KeyLib.table_ok (fst Bench.warmed_up)
  /\ KeyLib.settled (fst Bench.warmed_up) Bench.BTN_SELECT
  /\ 0 <= KeyLib.debounceDelay (fst Bench.warmed_up)
  /\ KeyLib.lastState
       (KeyLib.key (fst (KeyLib.updateKeyState Bench.BTN_SELECT
                           (fst Bench.warmed_up) (Bench.held 100)))
          Bench.BTN_SELECT)
     = KeyLib.down Bench.BTN_SELECT (Bench.held 100).
Proof.
  destruct warmed_up_ok as [H1 H2].
  assert (H3 : 0 <= KeyLib.debounceDelay (fst Bench.warmed_up))
    by (vm_compute; discriminate).
  split; [ exact H1 | split; [ exact H2 | split; [ exact H3 | ] ] ].
  exact (proj1 (updateKeyState_debounce Bench.BTN_SELECT (fst Bench.warmed_up)
                  (Bench.held 100) H1 H2 H3)).
Defined.

Lemma sampled_put pin k b st :
  KeyLib.table_ok k ->
  KeyLib.sampled pin (KeyLib.put k pin st) b
  = KeyLib.debounce (KeyLib.debounceDelay k) (Board.millis b) (KeyLib.down pin b) st.
Proof. intros Hk. unfold KeyLib.sampled. rewrite key_put by exact Hk. reflexivity. Qed.

Lemma singlePress_after_answer pin k b st c :
  KeyLib.table_ok k -> KeyLib.settled k pin ->
  fst (fst (KeyLib.singlePress pin (KeyLib.put k pin (KeyLib.answered st c)) b)) = false.
Proof.
  intros Hk Hs.
  rewrite singlePress_settled by auto using put_table_ok, put_settled.
  cbv zeta. rewrite sampled_put by exact Hk.
  destruct (KeyLib.singlePressDetected
              (KeyLib.debounce (KeyLib.debounceDelay k) (Board.millis b)
                 (KeyLib.down pin b) (KeyLib.answered st c))) eqn:E; [ | reflexivity ].
  exfalso. destruct (debounce_click _ _ _ _ E) as [H|(_ & _ & H & _)]; discriminate.
Qed.

Lemma longPress_after_answer pin T k b st c :
  KeyLib.table_ok k -> KeyLib.settled k pin -> 1 <= to_u32 T ->
  fst (fst (KeyLib.longPress pin T (KeyLib.put k pin (KeyLib.answered st c)) b)) = false.
Proof.
  intros Hk Hs HT.
  rewrite longPress_settled by auto using put_table_ok, put_settled.
  cbv zeta. rewrite sampled_put by exact Hk.
  set (st2 := KeyLib.debounce (KeyLib.debounceDelay k) (Board.millis b)
                (KeyLib.down pin b) (KeyLib.answered st c)).
  destruct (KeyLib.currentState st2); [ | reflexivity ].
  destruct (KeyLib.pressHandled st2) eqn:E; [ reflexivity | ].
  cbn [andb negb].
  assert (Hl : KeyLib.lastPressTime st2 = Board.millis b)
    by (apply debounce_handled; [ reflexivity | exact E ]).
  rewrite Hl, to_u32_self.
  destruct (Z.leb_spec (to_u32 T) 0); [ lia | reflexivity ].
Qed.

Lemma doublePress_after_answer pin T k b st :
  KeyLib.table_ok k -> KeyLib.settled k pin ->
  fst (fst (KeyLib.doublePress pin T (KeyLib.put k pin (KeyLib.answered st 0)) b)) = false.
Proof.
  intros Hk Hs.
  rewrite doublePress_settled by auto using put_table_ok, put_settled.
  cbv zeta. rewrite sampled_put by exact Hk.
  set (st2 := KeyLib.debounce (KeyLib.debounceDelay k) (Board.millis b)
                (KeyLib.down pin b) (KeyLib.answered st 0)).
  assert (Hc : KeyLib.pressCount st2 = 0 \/ KeyLib.pressCount st2 = 1).
  { destruct (debounce_pressCount (KeyLib.debounceDelay k) (Board.millis b)
                (KeyLib.down pin b) (KeyLib.answered st 0)) as [H|H];
      fold st2 in H; rewrite H; [ left | right ]; reflexivity. }
  destruct (Z.leb_spec 2 (KeyLib.pressCount st2)); [ lia | reflexivity ].
Qed.

(** ** Clicks, long presses and double presses *)

(** X5: a click is the release of a press.  When [singlePress] answers
    true for a pin whose slot held no click before the call, this call has
    accepted the release of a press that no poll had handled; in any case
    the press is marked handled and the same poll repeated at once answers
    false. *)
Theorem singlePress_reports_release_once pin k b :
  KeyLib.table_ok k -> KeyLib.settled k pin ->
  fst (fst (KeyLib.singlePress pin k b)) = true ->
  let k1 := snd (fst (KeyLib.singlePress pin k b)) in
  (KeyLib.singlePressDetected (KeyLib.key k pin) = false ->
   KeyLib.down pin b = false
   /\ KeyLib.currentState (KeyLib.key k pin) = true
   /\ KeyLib.pressHandled (KeyLib.key k pin) = false
   /\ KeyLib.currentState (KeyLib.key k1 pin) = false)
  /\ KeyLib.pressHandled (KeyLib.key k1 pin) = true
  /\ KeyLib.singlePressDetected (KeyLib.key k1 pin) = false
  /\ fst (fst (KeyLib.singlePress pin k1 b)) = false.
Proof.
  intros Hk Hs. rewrite singlePress_settled by assumption. cbv zeta.
  destruct (KeyLib.singlePressDetected (KeyLib.sampled pin k b)) eqn:E;
    [ intros _ | discriminate ].
  cbn [fst snd].
  change (KeyLib.mkKeyState (KeyLib.lastState (KeyLib.sampled pin k b))
            (KeyLib.currentState (KeyLib.sampled pin k b))
            (KeyLib.lastDebounceTime (KeyLib.sampled pin k b))
            (KeyLib.lastPressTime (KeyLib.sampled pin k b))
            (KeyLib.lastReleaseTime (KeyLib.sampled pin k b)) true false
            (KeyLib.pressCount (KeyLib.sampled pin k b)))
    with (KeyLib.answered (KeyLib.sampled pin k b)
            (KeyLib.pressCount (KeyLib.sampled pin k b))).
  rewrite key_put by exact Hk.
  split; [ | split; [ reflexivity | split; [ reflexivity | ] ] ].
  - intros H0. destruct (debounce_click _ _ _ _ E) as [H|H]; [ congruence | ].
    exact H.
  - apply singlePress_after_answer; assumption.
Qed.

(** The click of the bench, reported to the button's own poll. *)
Lemma singlePress_reports_release_once_witness :
  KeyLib.table_ok (fst Bench.click_waiting)
  /\ KeyLib.settled (fst Bench.click_waiting) Bench.BTN_SELECT
  /\ fst (fst (KeyLib.singlePress Bench.BTN_SELECT (fst Bench.click_waiting)
                 (snd Bench.click_waiting))) = true
  /\ fst (fst (KeyLib.singlePress Bench.BTN_SELECT
                 (snd (fst (KeyLib.singlePress Bench.BTN_SELECT
                              (fst Bench.click_waiting) (snd Bench.click_waiting))))
                 (snd Bench.click_waiting))) = false.
Proof.
  assert (H1 : KeyLib.table_ok (fst Bench.click_waiting))
    by (vm_compute; repeat apply conj; try reflexivity; discriminate).
  assert (H2 : KeyLib.settled (fst Bench.click_waiting) Bench.BTN_SELECT)
    by (right; vm_compute; reflexivity).
  assert (H3 : fst (fst (KeyLib.singlePress Bench.BTN_SELECT
                           (fst Bench.click_waiting) (snd Bench.click_waiting)))
               = true)
    by (vm_compute; reflexivity).
  split; [ exact H1 | split; [ exact H2 | split; [ exact H3 | ] ] ].
  exact (proj2 (proj2 (proj2 (singlePress_reports_release_once Bench.BTN_SELECT
                                (fst Bench.click_waiting) (snd Bench.click_waiting)
                                H1 H2 H3)))).
Defined.

Lemma singlePresses_silent pin bs : forall k,
  KeyLib.table_ok k -> KeyLib.settled k pin ->
  KeyLib.no_click_due (KeyLib.key k pin) ->
  Forall (fun b => KeyLib.down pin b = false) bs ->
  Forall (fun r => r = false) (KeyLib.singlePresses pin bs k).
Proof.
  induction bs as [|b bs IH]; intros k Hk Hs Hj Hup; cbn [KeyLib.singlePresses].
  - constructor.
  - inversion Hup as [|? ? Hb Hbs]; subst.
    rewrite singlePress_settled by assumption. cbv zeta.
    assert (Hj' : KeyLib.no_click_due (KeyLib.sampled pin k b)).
    { unfold KeyLib.sampled. change (negb (Board.digitalRead (to_u8 pin) b))
        with (KeyLib.down pin b). rewrite Hb.
      apply debounce_no_click_due. exact Hj. }
    destruct Hj' as [E Hh]. rewrite E. constructor; [ reflexivity | ].
    apply IH; auto using put_table_ok, put_settled.
    rewrite key_put by exact Hk. split; assumption.
Qed.

(** X6: a long press is not also a click.  After [longPress] has answered
    true, polls of [singlePress] answer false for as long as the button
    stays up, however many they are and whenever they are made. *)
Theorem long_press_suppresses_click pin T k b bs :
  KeyLib.table_ok k -> KeyLib.settled k pin ->
  fst (fst (KeyLib.longPress pin T k b)) = true ->
  Forall (fun b' => KeyLib.down pin b' = false) bs ->
  Forall (fun r => r = false)
    (KeyLib.singlePresses pin bs (snd (fst (KeyLib.longPress pin T k b)))).
Proof.
  intros Hk Hs. rewrite longPress_settled by assumption. cbv zeta.
  match goal with
  | |- context [if ?c then _ else _] => destruct c; [ intros _ | discriminate ]
  end.
  cbn [fst snd]. intros Hup.
  apply singlePresses_silent; auto using put_table_ok, put_settled.
  rewrite key_put by exact Hk. split; reflexivity.
Qed.

(** The button held from 100 ms on is reported as a long press at 900 ms;
    its release is then polled three times. *)
Lemma long_press_suppresses_click_witness :
  KeyLib.table_ok (fst Bench.held_long)
  /\ KeyLib.settled (fst Bench.held_long) Bench.BTN_SELECT
  /\ fst (fst (KeyLib.longPress Bench.BTN_SELECT 700 (fst Bench.held_long)
                 (snd Bench.held_long))) = true
  /\ Forall (fun r => r = false)
       (KeyLib.singlePresses Bench.BTN_SELECT
          [Bench.up 1000; Bench.up 1100; Bench.up 1200]
          (snd (fst (KeyLib.longPress Bench.BTN_SELECT 700 (fst Bench.held_long)
                       (snd Bench.held_long))))).
Proof.
  assert (H1 : KeyLib.table_ok (fst Bench.held_long))
    by (vm_compute; repeat apply conj; try reflexivity; discriminate).
  assert (H2 : KeyLib.settled (fst Bench.held_long) Bench.BTN_SELECT)
    by (right; vm_compute; reflexivity).
  assert (H3 : fst (fst (KeyLib.longPress Bench.BTN_SELECT 700
                           (fst Bench.held_long) (snd Bench.held_long))) = true)
    by (vm_compute; reflexivity).
  assert (H4 : Forall (fun b' => KeyLib.down Bench.BTN_SELECT b' = false)
                 [Bench.up 1000; Bench.up 1100; Bench.up 1200])
    by (repeat constructor).
  split; [ exact H1 | split; [ exact H2 | split; [ exact H3 | ] ] ].
  exact (long_press_suppresses_click Bench.BTN_SELECT 700 (fst Bench.held_long)
           (snd Bench.held_long) [Bench.up 1000; Bench.up 1100; Bench.up 1200]
           H1 H2 H3 H4).
Defined.

(** X7: a click and a long press are never reported for the same poll
    pair.  After [singlePress] has answered true, the next [longPress] of
    the pin answers false for every positive threshold, whatever the time
    and the level of the pin at that poll: this is the order in which
    [loop()] of [main.cpp] polls the button. *)
Theorem click_excludes_long_press pin T k b b2 :
  KeyLib.table_ok k -> KeyLib.settled k pin ->
  fst (fst (KeyLib.singlePress pin k b)) = true ->
  1 <= to_u32 T ->
  fst (fst (KeyLib.longPress pin T (snd (fst (KeyLib.singlePress pin k b))) b2))
  = false.
Proof.
  intros Hk Hs. rewrite singlePress_settled by assumption. cbv zeta.
  destruct (KeyLib.singlePressDetected (KeyLib.sampled pin k b));
    [ intros _ | discriminate ].
  cbn [fst snd]. intros HT.
  apply (longPress_after_answer pin T k b2 (KeyLib.sampled pin k b)
           (KeyLib.pressCount (KeyLib.sampled pin k b)) Hk Hs HT).
Qed.

Lemma click_excludes_long_press_witness :
  KeyLib.table_ok (fst Bench.click_waiting)
  /\ KeyLib.settled (fst Bench.click_waiting) Bench.BTN_SELECT
  /\ fst (fst (KeyLib.singlePress Bench.BTN_SELECT (fst Bench.click_waiting)
                 (snd Bench.click_waiting))) = true
  /\ 1 <= to_u32 700
  /\ fst (fst (KeyLib.longPress Bench.BTN_SELECT 700
                 (snd (fst (KeyLib.singlePress Bench.BTN_SELECT
                              (fst Bench.click_waiting) (snd Bench.click_waiting))))
                 (Bench.held 2000))) = false.
Proof.
  assert (H1 : KeyLib.table_ok (fst Bench.click_waiting))
    by (vm_compute; repeat apply conj; try reflexivity; discriminate).
  assert (H2 : KeyLib.settled (fst Bench.click_waiting) Bench.BTN_SELECT)
    by (right; vm_compute; reflexivity).
  assert (H3 : fst (fst (KeyLib.singlePress Bench.BTN_SELECT
                           (fst Bench.click_waiting) (snd Bench.click_waiting)))
               = true)
    by (vm_compute; reflexivity).
  assert (H4 : 1 <= to_u32 700) by (vm_compute; discriminate).
  split; [ exact H1 | split; [ exact H2 | split; [ exact H3 | split; [ exact H4 | ] ] ] ].
  exact (click_excludes_long_press Bench.BTN_SELECT 700 (fst Bench.click_waiting)
           (snd Bench.click_waiting) (Bench.held 2000) H1 H2 H3 H4).
Defined.

(** X8: a double press is reported once.  After [doublePress] has
    answered true the press count is back at zero, and the next
    [doublePress] of the pin answers false whatever the threshold, the
    time and the level of the pin. *)
Theorem doublePress_reports_once pin T T2 k b b2 :
  KeyLib.table_ok k -> KeyLib.settled k pin ->
  fst (fst (KeyLib.doublePress pin T k b)) = true ->
  let k1 := snd (fst (KeyLib.doublePress pin T k b)) in
  KeyLib.pressCount (KeyLib.key k1 pin) = 0
  /\ fst (fst (KeyLib.doublePress pin T2 k1 b2)) = false.
Proof.
  intros Hk Hs. rewrite doublePress_settled by assumption. cbv zeta.
  destruct (2 <=? KeyLib.pressCount (KeyLib.sampled pin k b)); [ | discriminate ].
  destruct (to_u32 (KeyLib.lastPressTime (KeyLib.sampled pin k b)
                    - KeyLib.lastReleaseTime (KeyLib.sampled pin k b)) <=? to_u32 T).
  2: { destruct (to_u32 T <? _); discriminate. }
  intros _. cbn [fst snd]. rewrite key_put by exact Hk.
  split; [ reflexivity | ].
  apply (doublePress_after_answer pin T2 k b2 (KeyLib.sampled pin k b) Hk Hs).
Qed.

(** The second press of the bench, 200 ms after the first release. *)
Lemma doublePress_reports_once_witness :
  KeyLib.table_ok (fst Bench.pressed_twice)
  /\ KeyLib.settled (fst Bench.pressed_twice) Bench.BTN_SELECT
  /\ fst (fst (KeyLib.doublePress Bench.BTN_SELECT 300 (fst Bench.pressed_twice)
                 (snd Bench.pressed_twice))) = true
  /\ fst (fst (KeyLib.doublePress Bench.BTN_SELECT 300
                 (snd (fst (KeyLib.doublePress Bench.BTN_SELECT 300
                              (fst Bench.pressed_twice) (snd Bench.pressed_twice))))
                 (Bench.held 650))) = false.
Proof.
  assert (H1 : KeyLib.table_ok (fst Bench.pressed_twice))
    by (vm_compute; repeat apply conj; try reflexivity; discriminate).
  assert (H2 : KeyLib.settled (fst Bench.pressed_twice) Bench.BTN_SELECT)
    by (right; vm_compute; reflexivity).
  assert (H3 : fst (fst (KeyLib.doublePress Bench.BTN_SELECT 300
                           (fst Bench.pressed_twice) (snd Bench.pressed_twice)))
               = true)
    by (vm_compute; reflexivity).
  split; [ exact H1 | split; [ exact H2 | split; [ exact H3 | ] ] ].
  exact (proj2 (doublePress_reports_once Bench.BTN_SELECT 300 300
                  (fst Bench.pressed_twice) (snd Bench.pressed_twice)
                  (Bench.held 650) H1 H2 H3)).
Defined.

(** * The buzzer *)

Lemma busy_us_app a c : Hw.busy_us (a ++ c) = Hw.busy_us a + Hw.busy_us c.
Proof.
  unfold Hw.busy_us. induction a as [|e a IH]; cbn [app fold_right]; [ lia | ].
  rewrite IH. destruct e; lia.
Qed.

Lemma busy_us_periods pin high low n :
  Hw.busy_us (concat (repeat (Buzzer.square_period pin high low) n))
  = Z.of_nat n * (high + low).
Proof.
  induction n as [|n IH]; [ reflexivity | ].
  cbn [repeat concat]. rewrite busy_us_app, IH.
  unfold Buzzer.square_period, Hw.busy_us. cbn [fold_right]. lia.
Qed.

Lemma sounding_periods pin high low n :
  Hw.sounding pin (concat (repeat (Buzzer.square_period pin high low) n)) = false.
Proof.
  unfold Hw.sounding.
  induction n as [|n IH]; [ reflexivity | ].
  cbn [repeat concat]. rewrite fold_left_app.
  unfold Buzzer.square_period at 2. cbn [fold_left]. rewrite Z.eqb_refl. exact IH.
Qed.

Lemma tones_periods pin high low n :
  Hw.tones (concat (repeat (Buzzer.square_period pin high low) n)) = [].
Proof.
  unfold Hw.tones. induction n as [|n IH]; [ reflexivity | ].
  cbn [repeat concat]. rewrite flat_map_app, IH. reflexivity.
Qed.

(** The duty cycle of a volume up to 50 leaves the high time inside the
    period. *)
Lemma duty_split period volume :
  0 <= period <= 1000000 -> 0 <= volume <= 50 ->
  let high := Z.quot (to_u32 (period * Hw.map volume 0 50 0 100)) 100 in
  0 <= high <= period /\ high + to_u32 (period - high) = period.
Proof.
  intros Hp Hv. cbv zeta. unfold Hw.map.
  replace ((volume - 0) * (100 - 0)) with (volume * 100) by lia.
  replace (50 - 0) with 50 by lia.
  assert (Hq : 0 <= Z.quot (volume * 100) 50 <= 100).
  { rewrite Z.quot_div_nonneg by lia. split.
    - apply Z.div_pos; lia.
    - apply Z.div_le_upper_bound; lia. }
  rewrite Z.add_0_r.
  set (duty := Z.quot (volume * 100) 50) in *.
  rewrite to_u32_id by nia.
  rewrite Z.quot_div_nonneg by nia.
  assert (0 <= period * duty / 100 <= period).
  { split; [ apply Z.div_pos; nia | apply Z.div_le_upper_bound; nia ]. }
  split; [ assumption | ].
  rewrite to_u32_id by lia. lia.
Qed.

Lemma to_u32_le z : 0 <= z -> to_u32 z <= z.
Proof. intros H. unfold to_u32. apply Z.mod_le; lia. Qed.

(** The software tone in closed form. *)
Lemma toneWithVolume_cases pin frequency duration volume :
  0 <= frequency -> 0 <= duration -> 0 <= volume <= 50 ->
  match Buzzer._toneWithVolume pin frequency duration volume with
  | None => frequency = 0 \/ 1000000 < frequency
  | Some ev =>
      1 <= frequency <= 1000000
      /\ Hw.busy_us ev
         = Z.quot (to_u32 (duration * 1000)) (Z.quot 1000000 frequency)
           * Z.quot 1000000 frequency
      /\ Hw.busy_us ev <= duration * 1000
      /\ Hw.sounding pin ev = false
      /\ Hw.tones ev = []
  end.
Proof.
  intros Hf Hd Hv. unfold Buzzer._toneWithVolume.
  destruct (Z.eqb_spec frequency 0) as [->|Hf0]; [ left; reflexivity | ].
  assert (Hp : 0 <= Z.quot 1000000 frequency <= 1000000).
  { rewrite Z.quot_div_nonneg by lia. split.
    - apply Z.div_pos; lia.
    - apply Z.div_le_upper_bound; nia. }
  destruct (Z.eqb_spec (Z.quot 1000000 frequency) 0) as [E|E].
  { right. rewrite Z.quot_div_nonneg in E by lia.
    destruct (Z.le_gt_cases frequency 1000000) as [Hle|Hgt]; [ | exact Hgt ].
    exfalso. assert (1 <= 1000000 / frequency); [ | lia ].
    apply Z.div_le_lower_bound; lia. }
  set (period := Z.quot 1000000 frequency) in *.
  destruct (duty_split period volume Hp Hv) as [Hh Hsum]. cbv zeta in Hsum.
  rewrite busy_us_periods, Hsum, sounding_periods, tones_periods.
  pose proof (to_u32_range (duration * 1000)) as Hr.
  assert (Hc : 0 <= Z.quot (to_u32 (duration * 1000)) period).
  { rewrite Z.quot_div_nonneg by lia. apply Z.div_pos; lia. }
  rewrite Z2Nat.id by exact Hc.
  repeat apply conj; try reflexivity.
  - lia.
  - destruct (Z.le_gt_cases frequency 1000000) as [Hle|Hgt]; [ exact Hle | ].
    exfalso. apply E. unfold period. rewrite Z.quot_div_nonneg by lia.
    apply Z.div_small. lia.
  - rewrite Z.quot_div_nonneg by lia.
    pose proof (Z.mul_div_le (to_u32 (duration * 1000)) period ltac:(lia)).
    pose proof (to_u32_le (duration * 1000) ltac:(lia)). lia.
Qed.

(** X9: the software square wave.  [_toneWithVolume] has a result exactly
    for frequencies from 1 Hz to 1 MHz (outside them it divides by zero).
    For a volume up to 50 and a duration whose microseconds fit 32 bits,
    the wave is a whole number of periods of [1000000 / frequency]
    microseconds: it never lasts longer than the duration asked for, falls
    short of it by less than one period, and leaves the pin low. *)
Theorem toneWithVolume_wave pin frequency duration volume :
  0 <= frequency -> 0 <= duration -> duration * 1000 < 4294967296 ->
  0 <= volume <= 50 ->
  (Buzzer._toneWithVolume pin frequency duration volume = None
   <-> frequency = 0 \/ 1000000 < frequency)
  /\ (forall ev, Buzzer._toneWithVolume pin frequency duration volume = Some ev ->
      let period := Z.quot 1000000 frequency in
      Hw.busy_us ev = Z.quot (duration * 1000) period * period
      /\ duration * 1000 - period < Hw.busy_us ev <= duration * 1000
      /\ Hw.sounding pin ev = false).
Proof.
  intros Hf Hd Hd32 Hv.
  pose proof (toneWithVolume_cases pin frequency duration volume Hf Hd Hv) as H.
  destruct (Buzzer._toneWithVolume pin frequency duration volume) as [ev|].
  - destruct H as (Hr & Hb & Hle & Hs & _).
    split; [ split; [ discriminate | lia ] | ].
    intros ev' E. injection E as <-. cbv zeta.
    rewrite to_u32_id in Hb by lia.
    split; [ exact Hb | ]. split; [ | exact Hs ].
    rewrite Hb.
    assert (0 < Z.quot 1000000 frequency).
    { rewrite Z.quot_div_nonneg by lia. apply Z.div_str_pos. lia. }
    rewrite (Z.quot_div_nonneg (duration * 1000)) by lia.
    pose proof (Z.mul_div_le (duration * 1000) (Z.quot 1000000 frequency) ltac:(lia)).
    pose proof (Z.mul_succ_div_gt (duration * 1000) (Z.quot 1000000 frequency) ltac:(lia)).
    lia.
  - split; [ split; [ intros _; exact H | reflexivity ] | intros ev E; discriminate ].
Qed.

(** A 20 ms tone of 1 kHz at volume 5: twenty periods of 1000 us. *)
Lemma toneWithVolume_wave_witness :
  0 <= 1000 /\ 0 <= 20 /\ 20 * 1000 < 4294967296 /\ 0 <= 5 <= 50
  /\ (forall ev, Buzzer._toneWithVolume 32 1000 20 5 = Some ev ->
      Hw.busy_us ev = Z.quot (20 * 1000) (Z.quot 1000000 1000) * Z.quot 1000000 1000).
Proof.
  assert (H1 : 0 <= 1000) by lia.
  assert (H2 : 0 <= 20) by lia.
  assert (H3 : 20 * 1000 < 4294967296) by lia.
  assert (H4 : 0 <= 5 <= 50) by lia.
  split; [ exact H1 | split; [ exact H2 | split; [ exact H3 | split; [ exact H4 | ] ] ] ].
  intros ev E.
  exact (proj1 (proj2 (toneWithVolume_wave 32 1000 20 5 H1 H2 H3 H4) ev E)).
Defined.

Lemma volumeToUse_range volume b :
  Buzzer.well_formed b -> 0 <= Buzzer.volumeToUse volume b <= 255.
Proof.
  intros (_ & _ & Hl). unfold Buzzer.volumeToUse.
  destruct (0 <=? to_i8 volume); [ apply to_u8_range | lia ].
Qed.

(** The beep in closed form. *)
Lemma beep_cases duration frequency volume b :
  Buzzer.well_formed b -> Buzzer.volumeToUse volume b <= 50 ->
  let v := Buzzer.volumeToUse volume b in
  match Buzzer.beep duration frequency volume b with
  | None =>
      v <> 0 /\ Buzzer._volumePin b < 0
      /\ (to_u32 frequency = 0 \/ 1000000 < to_u32 frequency)
  | Some ev =>
      (v = 0 \/ 0 <= Buzzer._volumePin b \/ 1 <= to_u32 frequency <= 1000000)
      /\ Hw.busy_us ev <= 1000 * to_u32 duration
      /\ Hw.sounding (Buzzer._pin b) ev = false
      /\ (v = 0 -> ev = [Hw.EvDelay (to_u32 duration)])
      /\ (v <> 0 -> 0 <= Buzzer._volumePin b ->
          ev = [Hw.EvAnalogWrite (Buzzer._volumePin b) (Hw.map v 0 50 0 255);
                Hw.EvTone (Buzzer._pin b) (to_u32 frequency);
                Hw.EvDelay (to_u32 duration);
                Hw.EvNoTone (Buzzer._pin b)])
  end.
Proof.
  intros Hwf Hv50. cbv zeta.
  pose proof (volumeToUse_range volume b Hwf) as Hv.
  pose proof (to_u32_range duration) as Hd.
  pose proof (to_u32_range frequency) as Hf.
  unfold Buzzer.beep.
  destruct (Z.eqb_spec (Buzzer.volumeToUse volume b) 0) as [E|E].
  { repeat apply conj; auto; try (intros; congruence).
    unfold Hw.busy_us. cbn. lia. }
  destruct (Z.leb_spec 0 (Buzzer._volumePin b)) as [Hp|Hp].
  { unfold Buzzer._applyVolume.
    destruct (Z.leb_spec 0 (Buzzer._volumePin b)); [ | lia ].
    repeat apply conj; auto; try (intros; congruence).
    - unfold Hw.busy_us. cbn. lia.
    - unfold Hw.sounding. cbn [fold_left app]. rewrite !Z.eqb_refl. reflexivity. }
  pose proof (toneWithVolume_cases (Buzzer._pin b) (to_u32 frequency)
                (to_u32 duration) (Buzzer.volumeToUse volume b)
                ltac:(lia) ltac:(lia) ltac:(lia)) as H.
  destruct (Buzzer._toneWithVolume _ _ _ _) as [ev|].
  - destruct H as (Hr & _ & Hle & Hs & _).
    repeat apply conj; auto; try lia; intros; try congruence; lia.
  - repeat apply conj; auto.
Qed.

(** X10: [beep].  For an effective volume up to 50 the call never blocks
    longer than the duration asked for and leaves the buzzer silent.
    Muted (effective volume 0) it only waits; with a volume pin it writes
    the PWM value [volume * 255 / 50], starts the tone, waits and stops
    it; without a volume pin it has no result exactly when the frequency is
    0 or above 1 MHz.  [longBeep] is the same function. *)
Theorem beep_contract duration frequency volume b :
  Buzzer.well_formed b -> Buzzer.volumeToUse volume b <= 50 ->
  let v := Buzzer.volumeToUse volume b in
  (Buzzer.beep duration frequency volume b = None
   <-> v <> 0 /\ Buzzer._volumePin b < 0
       /\ (to_u32 frequency = 0 \/ 1000000 < to_u32 frequency))
  /\ (forall ev, Buzzer.beep duration frequency volume b = Some ev ->
      Hw.busy_us ev <= 1000 * to_u32 duration
      /\ Hw.sounding (Buzzer._pin b) ev = false
      /\ (v = 0 -> ev = [Hw.EvDelay (to_u32 duration)])
      /\ (v <> 0 -> 0 <= Buzzer._volumePin b ->
          ev = [Hw.EvAnalogWrite (Buzzer._volumePin b) (Hw.map v 0 50 0 255);
                Hw.EvTone (Buzzer._pin b) (to_u32 frequency);
                Hw.EvDelay (to_u32 duration);
                Hw.EvNoTone (Buzzer._pin b)]))
  /\ Buzzer.longBeep duration frequency volume b
     = Buzzer.beep duration frequency volume b.
Proof.
  intros Hwf Hv50. cbv zeta.
  pose proof (beep_cases duration frequency volume b Hwf Hv50) as H. cbv zeta in H.
  destruct (Buzzer.beep duration frequency volume b) as [ev|] eqn:E.
  - destruct H as (Hsome & Hbusy & Hs & Hm & Hp).
    split; [ split; [ discriminate | intros (Hv & Hvp & Hf); lia ] | ].
    split; [ | exact E ].
    intros ev' E'. injection E' as <-. repeat apply conj; assumption.
  - split; [ split; [ intros _; exact H | reflexivity ] | ].
    split; [ intros ev E'; discriminate | exact E ].
Qed.

(** The menu's key tone on the buzzer of [main.cpp]. *)
Lemma beep_contract_witness :
  Buzzer.well_formed Bench.buzzer
  /\ Buzzer.volumeToUse 5 Bench.buzzer <= 50
  /\ (forall ev, Buzzer.beep 20 1000 5 Bench.buzzer = Some ev ->
      Hw.busy_us ev <= 1000 * to_u32 20).
Proof.
  assert (H1 : Buzzer.well_formed Bench.buzzer)
    by (vm_compute; repeat apply conj; discriminate).
  assert (H2 : Buzzer.volumeToUse 5 Bench.buzzer <= 50) by (vm_compute; discriminate).
  split; [ exact H1 | split; [ exact H2 | ] ].
  intros ev E.
  exact (proj1 (proj1 (proj2 (beep_contract 20 1000 5 Bench.buzzer H1 H2)) ev E)).
Defined.

(** ** Loops *)

Lemma for_each_total {A : Type} (body : A -> option (list Hw.Event))
    (g : A -> list Hw.Event) (l : list A) :
  (forall x, In x l -> body x = Some (g x)) ->
  for_each body l = Some (flat_map g l).
Proof.
  induction l as [|x l IH]; intros H; [ reflexivity | ].
  cbn [for_each flat_map]. rewrite (H x) by (left; reflexivity).
  rewrite IH by (intros y Hy; apply H; right; exact Hy). reflexivity.
Qed.

Lemma sounding_stopped pin ev : Hw.sounding pin (ev ++ [Hw.EvNoTone pin]) = false.
Proof.
  unfold Hw.sounding. rewrite fold_left_app. cbn [fold_left].
  rewrite Z.eqb_refl. reflexivity.
Qed.

Lemma tones_passes {A : Type} b (v fr : A -> Z) ms (l : list A) :
  Hw.tones (flat_map (fun i => Buzzer.pass b (v i) (fr i) ms) l) = map fr l.
Proof.
  unfold Hw.tones. induction l as [|i l IH]; [ reflexivity | ].
  cbn [flat_map map]. rewrite flat_map_app, IH.
  unfold Buzzer.pass, Buzzer._applyVolume.
  destruct (0 <=? Buzzer._volumePin b); reflexivity.
Qed.

Lemma busy_passes {A : Type} b (v fr : A -> Z) ms (l : list A) :
  Hw.busy_us (flat_map (fun i => Buzzer.pass b (v i) (fr i) ms) l)
  = 1000 * (Z.of_nat (length l) * ms).
Proof.
  induction l as [|i l IH]; [ reflexivity | ].
  cbn [flat_map length]. rewrite busy_us_app, IH.
  unfold Buzzer.pass, Buzzer._applyVolume.
  destruct (0 <=? Buzzer._volumePin b); unfold Hw.busy_us; cbn [app fold_right]; lia.
Qed.

Lemma pwm_passes {A : Type} b (v fr : A -> Z) ms (l : list A) :
  0 <= Buzzer._volumePin b ->
  Hw.pwm_values (Buzzer._volumePin b) (flat_map (fun i => Buzzer.pass b (v i) (fr i) ms) l)
  = map (fun i => Hw.map (v i) 0 50 0 255) l.
Proof.
  intros Hp. unfold Hw.pwm_values. induction l as [|i l IH]; [ reflexivity | ].
  cbn [flat_map map]. rewrite flat_map_app, IH.
  unfold Buzzer.pass, Buzzer._applyVolume.
  destruct (Z.leb_spec 0 (Buzzer._volumePin b)); [ | lia ].
  cbn [flat_map app]. rewrite Z.eqb_refl. reflexivity.
Qed.

(** X11: [sweepTone].  Muted it only waits, whatever the number of steps.
    Otherwise zero steps divide by zero and leave no result; with a volume
    pin and at least one step, the sweep starts one tone per step, blocks
    for [steps] times the truncated step duration, which is never more
    than the duration asked for, and ends with the tone stopped. *)
Theorem sweepTone_steps duration startFreq endFreq steps volume b :
  let v := Buzzer.volumeToUse volume b in
  let n := to_u32 steps in
  (v = 0 ->
   Buzzer.sweepTone duration startFreq endFreq steps volume b
   = Some [Hw.EvDelay (to_u32 duration)])
  /\ (v <> 0 -> n = 0 ->
      Buzzer.sweepTone duration startFreq endFreq steps volume b = None)
  /\ (v <> 0 -> n <> 0 -> 0 <= Buzzer._volumePin b ->
      exists ev,
        Buzzer.sweepTone duration startFreq endFreq steps volume b = Some ev
        /\ length (Hw.tones ev) = Z.to_nat n
        /\ Hw.busy_us ev = 1000 * (n * Z.quot (to_u32 duration) n)
        /\ Hw.busy_us ev <= 1000 * to_u32 duration
        /\ Hw.sounding (Buzzer._pin b) ev = false).
Proof.
  cbv zeta. unfold Buzzer.sweepTone.
  pose proof (to_u32_range steps) as Hn. pose proof (to_u32_range duration) as Hd.
  repeat apply conj.
  - intros ->. reflexivity.
  - intros Hv ->. destruct (Z.eqb_spec (Buzzer.volumeToUse volume b) 0); [ lia | ].
    reflexivity.
  - intros Hv Hn0 Hp.
    destruct (Z.eqb_spec (Buzzer.volumeToUse volume b) 0); [ lia | ].
    destruct (Z.eqb_spec (to_u32 steps) 0); [ lia | ].
    destruct (Z.leb_spec 0 (Buzzer._volumePin b)); [ | lia ].
    set (freqStep := F32.div _ _).
    set (sd := Z.quot (to_u32 duration) (to_u32 steps)).
    rewrite (for_each_total _
               (fun i => Buzzer.pass b (Buzzer.volumeToUse volume b)
                           (Buzzer.sweepFrequency (to_u32 startFreq) freqStep i) sd))
      by reflexivity.
    eexists. split; [ reflexivity | ].
    assert (Hlen : length (seqZ 0 (to_u32 steps)) = Z.to_nat (to_u32 steps))
      by apply length_seqZ.
    assert (Hb : Hw.busy_us
                   (flat_map (fun i => Buzzer.pass b (Buzzer.volumeToUse volume b)
                                         (Buzzer.sweepFrequency (to_u32 startFreq)
                                            freqStep i) sd)
                      (seqZ 0 (to_u32 steps)) ++ [Hw.EvNoTone (Buzzer._pin b)])
                 = 1000 * (to_u32 steps * sd)).
    { rewrite busy_us_app.
      rewrite (busy_passes b (fun _ => Buzzer.volumeToUse volume b)).
      rewrite Hlen, Z2Nat.id by lia. unfold Hw.busy_us. cbn [fold_right]. lia. }
    repeat apply conj.
    + unfold Hw.tones. rewrite flat_map_app.
      change (flat_map _ (flat_map ?g ?l)) with (Hw.tones (flat_map g l)).
      rewrite (tones_passes b (fun _ => Buzzer.volumeToUse volume b)).
      cbn [flat_map]. rewrite app_nil_r, length_map. exact Hlen.
    + exact Hb.
    + rewrite Hb. unfold sd. rewrite Z.quot_div_nonneg by lia.
      pose proof (Z.mul_div_le (to_u32 duration) (to_u32 steps) ltac:(lia)). lia.
    + apply sounding_stopped.
Qed.

Lemma fade_levels_all :
  forallb (fun s => forallb (Buzzer.fade_levels_ok s) (map Z.of_nat (seq 0 51)))
    (map Z.of_nat (seq 0 51)) = true.
Proof. vm_compute. reflexivity. Qed.

Lemma in_range_51 z : 0 <= z <= 50 -> In z (map Z.of_nat (seq 0 51)).
Proof.
  intros H. replace z with (Z.of_nat (Z.to_nat z)) by lia.
  apply in_map, in_seq. lia.
Qed.

Lemma constrain_range z lo hi : lo <= hi -> lo <= constrain z lo hi <= hi.
Proof.
  intros H. unfold constrain.
  destruct (Z.ltb_spec z lo); [ lia | ]. destruct (Z.ltb_spec hi z); lia.
Qed.

Lemma fade_levels s e i :
  0 <= s <= 50 -> 0 <= e <= 50 -> 0 <= i < 5 ->
  Buzzer.fadeLevel s e 0 = s
  /\ Z.min s e <= Buzzer.fadeLevel s e i <= Z.max s e
  /\ (s < e -> Buzzer.fadeLevel s e i < e)
  /\ (i < 4 ->
      if s <=? e then Buzzer.fadeLevel s e i <= Buzzer.fadeLevel s e (i + 1)
      else Buzzer.fadeLevel s e (i + 1) <= Buzzer.fadeLevel s e i).
Proof.
  intros Hs He Hi.
  pose proof fade_levels_all as All. rewrite forallb_forall in All.
  specialize (All s (in_range_51 s Hs)). rewrite forallb_forall in All.
  specialize (All e (in_range_51 e He)). unfold Buzzer.fade_levels_ok in All.
  apply andb_true_iff in All as [H0 All]. apply Z.eqb_eq in H0.
  rewrite forallb_forall in All.
  assert (Hin : In i (seqZ 0 5)).
  { assert (i = 0 \/ i = 1 \/ i = 2 \/ i = 3 \/ i = 4) as Hc by lia.
    vm_compute. intuition. }
  specialize (All i Hin). cbv zeta in All.
  apply andb_true_iff in All as [All H4]. apply andb_true_iff in All as [All H3].
  apply andb_true_iff in All as [H1 H2].
  apply Z.leb_le in H1, H2.
  split; [ exact H0 | ]. split; [ lia | ]. split.
  - intros Hlt. apply orb_true_iff in H3 as [H3|H3].
    + apply Z.leb_le in H3. lia.
    + apply Z.ltb_lt in H3. exact H3.
  - intros Hi4. apply orb_true_iff in H4 as [H4|H4].
    + apply Z.leb_le in H4. lia.
    + destruct (s <=? e); apply Z.leb_le in H4; exact H4.
Qed.

(** X12: [fadeVolume] with a volume pin.  The two volumes are first
    limited to 50.  Five tones of the frequency are started, each after
    the PWM value of its level has been written; the first level is the
    start volume, every level lies between the start and the end volume
    and is at least as close to the end volume as the level before, and a
    rising fade never reaches the end volume.  The call blocks for five
    times a fifth of the duration and ends with the tone stopped. *)
Theorem fadeVolume_levels duration startVolume endVolume frequency b :
  0 <= Buzzer._volumePin b ->
  let s := constrain (to_u8 startVolume) 0 50 in
  let e := constrain (to_u8 endVolume) 0 50 in
  exists ev,
    Buzzer.fadeVolume duration startVolume endVolume frequency b = Some ev
    /\ Hw.pwm_values (Buzzer._volumePin b) ev
       = map (fun i => Hw.map (Buzzer.fadeLevel s e i) 0 50 0 255) [0; 1; 2; 3; 4]
    /\ Hw.tones ev = repeat (to_u32 frequency) 5
    /\ Hw.busy_us ev = 1000 * (5 * Z.quot (to_u32 duration) 5)
    /\ Hw.busy_us ev <= 1000 * to_u32 duration
    /\ Hw.sounding (Buzzer._pin b) ev = false
    /\ Buzzer.fadeLevel s e 0 = s
    /\ (forall i, 0 <= i < 5 ->
        Z.min s e <= Buzzer.fadeLevel s e i <= Z.max s e
        /\ (s < e -> Buzzer.fadeLevel s e i < e)
        /\ (i < 4 ->
            if s <=? e then Buzzer.fadeLevel s e i <= Buzzer.fadeLevel s e (i + 1)
            else Buzzer.fadeLevel s e (i + 1) <= Buzzer.fadeLevel s e i)).
Proof.
  intros Hp. cbv zeta.
  pose proof (constrain_range (to_u8 startVolume) 0 50 ltac:(lia)) as Hs.
  pose proof (constrain_range (to_u8 endVolume) 0 50 ltac:(lia)) as He.
  pose proof (to_u32_range duration) as Hd.
  unfold Buzzer.fadeVolume.
  rewrite !(to_u8_id (constrain _ 0 50)) by lia.
  set (s := constrain (to_u8 startVolume) 0 50) in *.
  set (e := constrain (to_u8 endVolume) 0 50) in *.
  destruct (Z.leb_spec 0 (Buzzer._volumePin b)); [ | lia ].
  rewrite (for_each_total _
             (fun i => Buzzer.pass b (Buzzer.fadeLevel s e i) (to_u32 frequency)
                         (Z.quot (to_u32 duration) 5)))
    by reflexivity.
  eexists. split; [ reflexivity | ].
  assert (Hb : Hw.busy_us
                 (flat_map (fun i => Buzzer.pass b (Buzzer.fadeLevel s e i) (to_u32 frequency)
                                       (Z.quot (to_u32 duration) 5))
                    (seqZ 0 5) ++ [Hw.EvNoTone (Buzzer._pin b)])
               = 1000 * (5 * Z.quot (to_u32 duration) 5)).
  { rewrite busy_us_app.
    rewrite (busy_passes b (fun i => Buzzer.fadeLevel s e i) (fun _ => to_u32 frequency)).
    unfold Hw.busy_us. cbn [fold_right]. change (length (seqZ 0 5)) with 5%nat. lia. }
  repeat apply conj.
  - unfold Hw.pwm_values. rewrite flat_map_app.
    change (flat_map _ (flat_map ?g ?l))
      with (Hw.pwm_values (Buzzer._volumePin b) (flat_map g l)).
    rewrite (pwm_passes b (fun i => Buzzer.fadeLevel s e i) (fun _ => to_u32 frequency))
      by lia.
    cbn [flat_map]. rewrite app_nil_r. reflexivity.
  - unfold Hw.tones. rewrite flat_map_app.
    change (flat_map _ (flat_map ?g ?l)) with (Hw.tones (flat_map g l)).
    rewrite (tones_passes b (fun i => Buzzer.fadeLevel s e i) (fun _ => to_u32 frequency)).
    cbn [flat_map]. rewrite app_nil_r. reflexivity.
  - exact Hb.
  - rewrite Hb. rewrite Z.quot_div_nonneg by lia.
    pose proof (Z.mul_div_le (to_u32 duration) 5 ltac:(lia)). lia.
  - apply sounding_stopped.
  - apply (fade_levels s e 0); lia.
  - intros i Hi. apply (fade_levels s e i); lia.
Qed.

(** A fade on the buzzer of [main.cpp]. *)
Lemma fadeVolume_levels_witness :
  0 <= Buzzer._volumePin Bench.buzzer
  /\ exists ev, Buzzer.fadeVolume 500 0 200 1000 Bench.buzzer = Some ev.
Proof.
  assert (H : 0 <= Buzzer._volumePin Bench.buzzer) by (vm_compute; discriminate).
  split; [ exact H | ].
  destruct (fadeVolume_levels 500 0 200 1000 Bench.buzzer H) as (ev & E & _).
  exists ev. exact E.
Defined.

(** ** Melodies *)

Lemma lookups_firstn (l : list Z) : forall k m,
  (m + k <= length l)%nat ->
  map (fun i => default 0 (l !! Z.to_nat i)) (seqZ (Z.of_nat m) (Z.of_nat k))
  = firstn k (skipn m l).
Proof.
  induction k as [|k IH]; intros m Hl.
  - rewrite seqZ_nil by lia. reflexivity.
  - rewrite seqZ_cons by lia. cbn [map].
    replace (Z.pred (Z.of_nat (S k))) with (Z.of_nat k) by lia.
    replace (Z.succ (Z.of_nat m)) with (Z.of_nat (S m)) by lia.
    rewrite IH by lia. rewrite Nat2Z.id.
    destruct (lookup_lt_is_Some_2 l m ltac:(lia)) as [x Hx].
    rewrite Hx. cbn [default]. rewrite (drop_S l x m Hx). reflexivity.
Qed.

Lemma lookup_seqZ_some (l : list Z) n i :
  (n <= length l)%nat -> In i (seqZ 0 (Z.of_nat n)) ->
  l !! Z.to_nat i = Some (default 0 (l !! Z.to_nat i)).
Proof.
  intros Hl Hi. apply list_elem_of_In, elem_of_seqZ in Hi.
  destruct (lookup_lt_is_Some_2 l (Z.to_nat i) ltac:(lia)) as [x Hx].
  rewrite Hx. reflexivity.
Qed.

(** The mute path: the loop that adds up the durations. *)
Lemma melody_total (durations : list Z) (dur : Z -> Z) : forall (l : list Z) acc,
  (forall i, In i l -> durations !! Z.to_nat i = Some (dur i) /\ 0 <= dur i) ->
  0 <= acc ->
  acc + fold_right (fun d a => d + 50 + a) 0 (map dur l) < 4294967296 ->
  fold_left (fun acc i =>
               match acc, durations !! Z.to_nat i with
               | Some total, Some d => Some (to_u32 (total + to_u32 (d + 50)))
               | _, _ => None
               end) l (Some acc)
  = Some (acc + fold_right (fun d a => d + 50 + a) 0 (map dur l)).
Proof.
  induction l as [|i l IH]; intros acc Hin Hacc Hsum; cbn [fold_left map fold_right] in *.
  - f_equal. lia.
  - destruct (Hin i (or_introl eq_refl)) as [Hi Hd]. rewrite Hi.
    assert (Hrest : 0 <= fold_right (fun d a => d + 50 + a) 0 (map dur l)).
    { clear - Hin. induction l as [|j l IH]; cbn [map fold_right]; [ lia | ].
      destruct (Hin j (or_intror (or_introl eq_refl))) as [_ Hj].
      assert (0 <= fold_right (fun d a => d + 50 + a) 0 (map dur l)); [ | lia ].
      apply IH. intros x [Hx|Hx]; apply Hin; [ left | right; right ]; assumption. }
    rewrite (to_u32_id (dur i + 50)) by lia.
    rewrite (to_u32_id (acc + (dur i + 50))) by lia.
    rewrite IH; [ f_equal; lia | | lia | lia ].
    intros j Hj. apply Hin. right. exact Hj.
Qed.

Lemma busy_notes b v (mel dur : Z -> Z) (l : list Z) :
  Hw.busy_us (flat_map (fun i => Buzzer.note b v (mel i) (dur i)) l)
  = 1000 * fold_right (fun d a => d + 50 + a) 0 (map dur l).
Proof.
  induction l as [|i l IH]; [ reflexivity | ].
  cbn [flat_map map fold_right]. rewrite busy_us_app, IH.
  unfold Buzzer.note, Buzzer._applyVolume.
  destruct (0 <=? Buzzer._volumePin b); unfold Hw.busy_us; cbn [app fold_right]; lia.
Qed.

Lemma tones_notes b v (mel dur : Z -> Z) (l : list Z) :
  Hw.tones (flat_map (fun i => Buzzer.note b v (mel i) (dur i)) l) = map mel l.
Proof.
  unfold Hw.tones. induction l as [|i l IH]; [ reflexivity | ].
  cbn [flat_map map]. rewrite flat_map_app, IH.
  unfold Buzzer.note, Buzzer._applyVolume.
  destruct (0 <=? Buzzer._volumePin b); reflexivity.
Qed.

Lemma sounding_notes b v (mel dur : Z -> Z) (l : list Z) :
  Hw.sounding (Buzzer._pin b)
    (flat_map (fun i => Buzzer.note b v (mel i) (dur i)) l) = false.
Proof.
  unfold Hw.sounding. induction l as [|i l IH]; [ reflexivity | ].
  cbn [flat_map]. rewrite fold_left_app.
  unfold Buzzer.note at 2. rewrite !fold_left_app. cbn [fold_left].
  rewrite Z.eqb_refl. exact IH.
Qed.

(** X13: [playMelody].  For arrays that hold the [n] notes, muting the
    melody does not change the time it takes: the mute call waits once for
    the sum of the note durations and of the 50 ms pauses, and a call with
    a volume, played through the volume pin, blocks for the same time,
    starts the notes of the melody in order and ends with the tone
    stopped. *)
Theorem playMelody_keeps_time melody durations n vm va b :
  0 <= Buzzer._volumePin b ->
  Buzzer.volumeToUse vm b = 0 -> Buzzer.volumeToUse va b <> 0 ->
  (n <= length melody)%nat -> (n <= length durations)%nat ->
  Forall (fun d => 0 <= d) durations ->
  Buzzer.melody_ms durations n < 4294967296 ->
  exists eva,
    Buzzer.playMelody melody durations (Z.of_nat n) vm b
    = Some [Hw.EvDelay (Buzzer.melody_ms durations n)]
    /\ Buzzer.playMelody melody durations (Z.of_nat n) va b = Some eva
    /\ Hw.busy_us eva = 1000 * Buzzer.melody_ms durations n
    /\ Hw.tones eva = firstn n melody
    /\ Hw.sounding (Buzzer._pin b) eva = false.
Proof.
  intros Hp Hm Ha Hlm Hld Hpos Hsum.
  set (dur := fun i : Z => default 0 (durations !! Z.to_nat i)).
  set (mel := fun i : Z => default 0 (melody !! Z.to_nat i)).
  assert (Hdur : map dur (seqZ 0 (Z.of_nat n)) = firstn n durations).
  { apply (lookups_firstn durations n 0). lia. }
  assert (Hmel : map mel (seqZ 0 (Z.of_nat n)) = firstn n melody).
  { apply (lookups_firstn melody n 0). lia. }
  assert (Hms : fold_right (fun d a => d + 50 + a) 0 (map dur (seqZ 0 (Z.of_nat n)))
                = Buzzer.melody_ms durations n)
    by (rewrite Hdur; reflexivity).
  assert (Hn : Z.of_nat n < 4294967296).
  { assert (forall (l : list Z), Forall (fun d => 0 <= d) l ->
              Z.of_nat (length l) <= fold_right (fun d a => d + 50 + a) 0 l) as Hlen.
    { intros l Hl. induction Hl as [|d l Hd Hl IH]; cbn [length fold_right]; lia. }
    assert (Forall (fun d => 0 <= d) (firstn n durations)) as Hf
      by (apply Forall_take; exact Hpos).
    pose proof (Hlen _ Hf) as H. rewrite length_firstn in H.
    unfold Buzzer.melody_ms in Hsum. lia. }
  exists (flat_map (fun i => Buzzer.note b (Buzzer.volumeToUse va b) (mel i) (dur i))
            (seqZ 0 (Z.of_nat n))).
  unfold Buzzer.playMelody. rewrite (to_u32_id (Z.of_nat n)) by lia.
  repeat apply conj.
  - rewrite Hm. cbn [Z.eqb].
    rewrite (melody_total durations dur); [ | | lia | rewrite Hms; lia ].
    + rewrite Z.add_0_l, Hms. reflexivity.
    + intros i Hi. split.
      * apply (lookup_seqZ_some durations n i Hld Hi).
      * unfold dur. destruct (durations !! Z.to_nat i) as [d|] eqn:E; [ | cbn; lia ].
        cbn. rewrite Forall_forall in Hpos. apply Hpos.
        eapply list_elem_of_lookup_2. exact E.
  - destruct (Z.eqb_spec (Buzzer.volumeToUse va b) 0); [ contradiction | ].
    destruct (Z.leb_spec 0 (Buzzer._volumePin b)); [ | lia ].
    apply for_each_total. intros i Hi.
    rewrite (lookup_seqZ_some melody n i Hlm Hi).
    rewrite (lookup_seqZ_some durations n i Hld Hi). reflexivity.
  - rewrite busy_notes, Hms. reflexivity.
  - rewrite tones_notes. exact Hmel.
  - apply sounding_notes.
Qed.

(** Three notes on the buzzer of [main.cpp]: 750 ms, muted or not. *)
Lemma playMelody_keeps_time_witness :
  0 <= Buzzer._volumePin Bench.buzzer
  /\ Buzzer.volumeToUse 0 Bench.buzzer = 0
  /\ Buzzer.volumeToUse (-1) Bench.buzzer <> 0
  /\ (3 <= length [262; 330; 392])%nat /\ (3 <= length [200; 200; 200])%nat
  /\ Forall (fun d => 0 <= d) [200; 200; 200]
  /\ Buzzer.melody_ms [200; 200; 200] 3 < 4294967296
  /\ Buzzer.playMelody [262; 330; 392] [200; 200; 200] (Z.of_nat 3) 0 Bench.buzzer
     = Some [Hw.EvDelay (Buzzer.melody_ms [200; 200; 200] 3)].
Proof.
  assert (H1 : 0 <= Buzzer._volumePin Bench.buzzer) by (vm_compute; discriminate).
  assert (H2 : Buzzer.volumeToUse 0 Bench.buzzer = 0) by reflexivity.
  assert (H3 : Buzzer.volumeToUse (-1) Bench.buzzer <> 0) by (vm_compute; discriminate).
  assert (H4 : (3 <= length [262; 330; 392])%nat) by (cbn; lia).
  assert (H5 : (3 <= length [200; 200; 200])%nat) by (cbn; lia).
  assert (H6 : Forall (fun d => 0 <= d) [200; 200; 200]) by (repeat constructor; lia).
  assert (H7 : Buzzer.melody_ms [200; 200; 200] 3 < 4294967296)
    by (vm_compute; reflexivity).
  repeat (split; [ assumption | ]).
  destruct (playMelody_keeps_time [262; 330; 392] [200; 200; 200] 3 0 (-1)
              Bench.buzzer H1 H2 H3 H4 H5 H6 H7) as (eva & E & _).
  exact E.
Defined.

(** ** The stored volume *)

Lemma to_i8_range z : -128 <= to_i8 z <= 127.
Proof. unfold to_i8. pose proof (Z.mod_pos_bound (z + 128) 256). lia. Qed.

Lemma ctor_well_formed pin volumePin : Buzzer.well_formed (Buzzer.ctor pin volumePin).
Proof.
  unfold Buzzer.well_formed, Buzzer.ctor. cbn.
  pose proof (to_u8_range pin). pose proof (to_i8_range volumePin). lia.
Qed.

(** X14: the stored volume never exceeds 10.  [setVolume] limits any level
    to 10 and [getVolume] returns the limited level; [begin] and [stop]
    keep it.  A beep at the stored volume (no volume argument) therefore
    uses a volume of at most 10, which on the volume pin is a PWM value of
    at most 51 out of 255. *)
Theorem stored_volume_capped level b :
  let b' := Buzzer.setVolume level b in
  Buzzer.getVolume b' = Z.min (to_u8 level) 10
  /\ Buzzer.getVolume (fst (Buzzer.begin b')) = Buzzer.getVolume b'
  /\ Buzzer.getVolume (fst (Buzzer.stop b')) = Buzzer.getVolume b'
  /\ Buzzer.volumeToUse (-1) b' = Buzzer.getVolume b'
  /\ 0 <= Hw.map (Buzzer.volumeToUse (-1) b') 0 50 0 255 <= 51.
Proof.
  cbv zeta. pose proof (to_u8_range level) as Hl.
  assert (E : Buzzer.getVolume (Buzzer.setVolume level b) = Z.min (to_u8 level) 10).
  { unfold Buzzer.getVolume, Buzzer.setVolume. cbn. unfold constrain.
    destruct (Z.ltb_spec (to_u8 level) 0); [ lia | ].
    destruct (Z.ltb_spec 10 (to_u8 level)); rewrite to_u8_id by lia; lia. }
  assert (E2 : Buzzer.volumeToUse (-1) (Buzzer.setVolume level b)
               = Buzzer.getVolume (Buzzer.setVolume level b)) by reflexivity.
  repeat apply conj; try reflexivity; try exact E.
  - rewrite E2, E. unfold Hw.map. rewrite Z.add_0_r, Z.sub_0_r.
    apply Z.quot_pos; lia.
  - rewrite E2, E. unfold Hw.map. rewrite Z.add_0_r, Z.sub_0_r.
    replace (50 - 0) with 50 by lia. replace (255 - 0) with 255 by lia.
    rewrite Z.quot_div_nonneg by lia.
    apply Z.div_le_upper_bound; lia.
Qed.
